(** * LWPFrontend: the technical signal and valuation helpers

    A shallow embedding of the derived-metric helpers that the screens of
    the portfolio client define next to their tables:

    - [ListStocks]: [getDaysAgo], [calculate52WeekPosition], [getMASignal]
      and the staleness flag of the "History Updated" column
      (src/pages/ListStocks.tsx; src/pages/Login.tsx holds the same
      helpers for the ETF table);
    - [Strategies]: [validateFormula] of the strategy dialog
      (src/unnamed/part_004);
    - [Holdings], [ListHoldings] and [HoldingsPart005]:
      [calculateFilteredSummary] and [formatCurrency] of the holdings
      screen (src/pages/Holdings/ListHoldings.tsx and its later version
      src/unnamed/part_005), [formatDaysAgo] and [getDaysAgoColor] of
      the later version;
    - [StocksTable], [StocksFilter] and [EtfTable]: the cells and the
      industry filters of the stocks and ETF tables;
      [StrategyDialog]: the criteria rows of the strategy dialog;
      [HoldingsScreen]: the class toggles and [formatPercentage] of the
      holdings screen.

    Modelling conventions.

    - [calculate52WeekPosition] and the weights of the strategy dialog
      are embedded on binary64 numbers ([F64.double]: the [spec_float]
      of the Standard Library at precision 53, with its NaN, its
      infinities, its two zeros and rounding to nearest, ties to even).
    - The other helpers are embedded on the exact rational value of a
      finite number ([Q]): comparisons and [toFixed] are exact there;
      the sums and the quotient of [calculateFilteredSummary], the
      places of the markers of the moving averages and the units of
      the volume are the unrounded ones.  [null] and [undefined] are
      [None].
    - A time value is an integral number of milliseconds since the epoch,
      or [NaN] for an invalid date ([JS.inum]); this is exact, time
      values being integers below 2^53.
    - A string is the sequence of the bytes of its UTF-8 encoding.
    - The clock, the time zone and the date parser of the host are an
      explicit environment ([JS.Env]) that the date helpers read. *)

From Stdlib Require Import ZArith QArith Qround Qabs.
From Stdlib Require Import String Ascii List Bool Lia Lqa DecimalString.
From Stdlib Require DecimalPos DecimalZ.
From Stdlib Require Import SpecFloat.
From Stdlib Require Import Permutation.
Import ListNotations.

Local Open Scope string_scope.
Local Open Scope Q_scope.

(** ** The fragment of JavaScript the helpers use *)

Module JS.

(** A finite [number], by its exact value. *)
Definition number : Type := Q.

(** [x > y] and [x < y] on numbers. *)
Definition gt (x y : number) : bool := negb (Qle_bool x y).
Definition lt (x y : number) : bool := negb (Qle_bool y x).

(** [!x] for [x : number]: only zero is falsy among finite numbers. *)
Definition falsy (x : number) : bool := Qeq_bool x 0.

(** [!x] for [x : number | null | undefined]. *)
Definition not_ (x : option number) : bool :=
  match x with
  | None => true
  | Some v => falsy v
  end.

Definition Math_abs (x : number) : number := Qabs x.

(** *** Strings *)

Definition rev_string (s : string) : string :=
  string_of_list_ascii (rev (list_ascii_of_string s)).

Definition byte_is (c : ascii) (n : nat) : bool := Nat.eqb (nat_of_ascii c) n.

(** The one-byte white space and line terminators: TAB, LF, VT, FF, CR
    and SPACE. *)
Definition ws1 (c : ascii) : bool :=
  let n := nat_of_ascii c in
  (Nat.leb 9 n && Nat.leb n 13) || Nat.eqb n 32.

(** U+00A0, encoded on two bytes. *)
Definition ws2 (c1 c2 : ascii) : bool := byte_is c1 194 && byte_is c2 160.

(** The white space encoded on three bytes: U+1680, U+2000 to U+200A,
    U+2028, U+2029, U+202F, U+205F, U+3000 and U+FEFF. *)
Definition ws3 (c1 c2 c3 : ascii) : bool :=
  let n3 := nat_of_ascii c3 in
  (byte_is c1 225 && byte_is c2 154 && byte_is c3 128)
  || (byte_is c1 226 && byte_is c2 128
      && (Nat.leb 128 n3 && Nat.leb n3 138
          || Nat.eqb n3 168 || Nat.eqb n3 169 || Nat.eqb n3 175))
  || (byte_is c1 226 && byte_is c2 129 && byte_is c3 159)
  || (byte_is c1 227 && byte_is c2 128 && byte_is c3 128)
  || (byte_is c1 239 && byte_is c2 187 && byte_is c3 191).

(** Strips the leading white space; with [back] the string is read from
    its end, so that the bytes of a character come last byte first. *)
Fixpoint strip (back : bool) (s : string) : string :=
  match s with
  | EmptyString => EmptyString
  | String c1 r1 =>
      if ws1 c1 then strip back r1
      else
        match r1 with
        | EmptyString => s
        | String c2 r2 =>
            if (if back then ws2 c2 c1 else ws2 c1 c2) then strip back r2
            else
              match r2 with
              | EmptyString => s
              | String c3 r3 =>
                  if (if back then ws3 c3 c2 c1 else ws3 c1 c2 c3)
                  then strip back r3
                  else s
              end
        end
  end.

(** [s.trim()]. *)
Definition trim (s : string) : string :=
  rev_string (strip true (rev_string (strip false s))).

(** [!s] for a string. *)
Definition empty (s : string) : bool := String.eqb s "".

(** [s.substring(start)] and [s.substring(start, end)]: an index below 0
    counts as 0, one above the length as the length, and the two are
    swapped when out of order. *)
Definition clamp_index (s : string) (i : Z) : nat :=
  Nat.min (Z.to_nat i) (String.length s).

Definition substring (s : string) (i j : Z) : string :=
  let a := clamp_index s i in
  let b := clamp_index s j in
  String.substring (Nat.min a b) (Nat.max a b - Nat.min a b) s.

Definition substring_from (s : string) (i : Z) : string :=
  substring s i (Z.of_nat (String.length s)).

(** [s.split('.')]. *)
Fixpoint split_dot_aux (acc : string) (s : string) : list string :=
  match s with
  | EmptyString => [rev_string acc]
  | String c r =>
      if byte_is c 46 then rev_string acc :: split_dot_aux EmptyString r
      else split_dot_aux (String c acc) r
  end.

Definition split_dot (s : string) : list string := split_dot_aux EmptyString s.

(** The accumulator of [split_dot_aux] once it has read the characters
    of [a], none of them a point, after those of [acc]. *)
Fixpoint rev_onto (a acc : string) : string :=
  match a with
  | EmptyString => acc
  | String c a => rev_onto a (String c acc)
  end.

(** A value of a template literal that may be [undefined]. *)
Definition show_undefined (s : option string) : string :=
  match s with
  | Some s => s
  | None => "undefined"
  end.

(** The classes [\d] and [\w] of regular expressions. *)
Definition is_digit (c : ascii) : bool :=
  let n := nat_of_ascii c in Nat.leb 48 n && Nat.leb n 57.

Definition is_word (c : ascii) : bool :=
  let n := nat_of_ascii c in
  is_digit c || (Nat.leb 65 n && Nat.leb n 90)
  || (Nat.leb 97 n && Nat.leb n 122) || Nat.eqb n 95.

(** The number of digits at the head of a string. *)
Fixpoint digit_run (s : string) : nat :=
  match s with
  | EmptyString => O
  | String c r => if is_digit c then S (digit_run r) else O
  end.

(** [s.replace(/\B(?=(\d{2})+(?!\d))/g, ',')].  The pattern is empty
    and matches at a position that is not a word boundary ([\B]: the
    characters on its two sides are both word characters or both not,
    the ends of the string counting as not) and that is followed by a
    run of digits of even, non-zero length: [(\d{2})+] takes pairs of
    digits and [(?!\d)] refuses a digit after them.  [prev] tells
    whether the character before the position is a word character. *)
Fixpoint replace_pairs (prev : bool) (s : string) : string :=
  match s with
  | EmptyString => EmptyString
  | String c r =>
      let n := digit_run s in
      let here := Bool.eqb prev (is_word c) && Nat.even n && Nat.leb 2 n in
      (if here then "," else "") ++ String c (replace_pairs (is_word c) r)
  end.

(** *** Printing numbers *)

(** The decimal digits of a natural number. *)
Definition digits (n : Z) : string := NilZero.string_of_uint (N.to_uint (Z.to_N n)).

Definition zeros (k : nat) : string := string_of_list_ascii (repeat "0"%char k).

Section Printing.

(** [Number::toString] on the numbers of magnitude 10^21 and above, which
    print in exponential notation; the embedding leaves it open. *)
Variable Number_toString : number -> string.

(** [x.toFixed(2)]: the integer [n] closest to [x * 100], the larger one
    on a tie, printed with a point before its last two digits, and
    padded with zeros to three digits at least. *)
Definition toFixed2 (x : number) : string :=
  let s := if lt x 0 then "-" else "" in
  let x := if lt x 0 then - x else x in
  if Qle_bool (10 ^ 21) x then s ++ Number_toString x
  else
    let n := Qfloor (x * 100 + (1 # 2)) in
    let m := digits n in
    let m := zeros (3 - String.length m) ++ m in
    let k := String.length m in
    s ++ String.substring 0 (k - 2) m ++ "." ++ String.substring (k - 2) 2 m.

End Printing.

(** Printers for the examples: [Number::toString] is right at 10^21,
    the one large number the examples print, which reads "1e+21"; the
    examples format no amount in a currency other than INR. *)
Definition toString_1e21 : number -> string := fun _ => "1e+21".
Definition no_Intl : string -> number -> string := fun _ _ => "".

(** *** Integral numbers, time values and dates *)

Local Open Scope Z_scope.

(** A number that is integral or [NaN]: a time value, a count of days. *)
Inductive inum : Type :=
  | NaN
  | Int (z : Z).

Definition isub (x y : inum) : inum :=
  match x, y with
  | Int a, Int b => Int (a - b)
  | _, _ => NaN
  end.

Definition iabs (x : inum) : inum :=
  match x with
  | Int a => Int (Z.abs a)
  | NaN => NaN
  end.

(** [Math.floor(x / d)] for a positive integer [d]. *)
Definition floor_div (x : inum) (d : Z) : inum :=
  match x with
  | Int a => Int (a / d)
  | NaN => NaN
  end.

(** [x === k], [x < k] and [x > k]: all false on [NaN]. *)
Definition ieq (x : inum) (k : Z) : bool :=
  match x with
  | Int a => Z.eqb a k
  | NaN => false
  end.

Definition ilt (x : inum) (k : Z) : bool :=
  match x with
  | Int a => Z.ltb a k
  | NaN => false
  end.

Definition igt (x : inum) (k : Z) : bool :=
  match x with
  | Int a => Z.ltb k a
  | NaN => false
  end.

(** [x < y] on two dates, through their time values. *)
Definition date_lt (x y : inum) : bool :=
  match x, y with
  | Int a, Int b => Z.ltb a b
  | _, _ => false
  end.

(** The number in a template literal. *)
Definition inum_toString (x : inum) : string :=
  match x with
  | Int a => NilZero.string_of_int (Z.to_int a)
  | NaN => "NaN"
  end.

(** What a date helper reads from its host: the clock ([Date.now()],
    [new Date()]), the offset of local time ([LocalTZA(t, isUTC)]) and
    the parser behind [new Date(string)]. *)
Record Env : Type := mkEnv
  { clock : Z;
    LocalTZA : Z -> bool -> Z;
    Date_parse : string -> inum }.

Definition msPerDay : Z := 86400000.

Definition TimeClip (t : Z) : inum :=
  if Z.ltb 8640000000000000 (Z.abs t) then NaN else Int t.

(** [d.setHours(0, 0, 0, 0)] followed by [d.getTime()]: the start of the
    local day of [t]. *)
Definition setHours0 (env : Env) (t : inum) : inum :=
  match t with
  | NaN => NaN
  | Int t =>
      let local := (t + LocalTZA env t true)%Z in
      let date := ((local / msPerDay) * msPerDay)%Z in
      TimeClip (date - LocalTZA env date false)
  end.

(** *** A parser for the examples

    The date-time format of ECMAScript in full, with the [Z] designator:
    [YYYY-MM-DDTHH:mm:ss.sssZ]; anything else is an invalid date here. *)

Definition digit_val (c : ascii) : option Z :=
  if is_digit c then Some (Z.of_nat (nat_of_ascii c) - 48)%Z else None.

Fixpoint number_of (acc : Z) (cs : list ascii) : option Z :=
  match cs with
  | [] => Some acc
  | c :: cs =>
      match digit_val c with
      | Some d => number_of (acc * 10 + d) cs
      | None => None
      end
  end.

Definition field (s : string) (start len : nat) : option Z :=
  let f := String.substring start len s in
  if Nat.eqb (String.length f) len then number_of 0 (list_ascii_of_string f)
  else None.

Definition leap (y : Z) : bool :=
  (Z.eqb (y mod 4) 0 && negb (Z.eqb (y mod 100) 0)) || Z.eqb (y mod 400) 0.

Definition days_in_month (y m : Z) : Z :=
  if Z.eqb m 2 then (if leap y then 29 else 28)
  else if Z.eqb m 4 || Z.eqb m 6 || Z.eqb m 9 || Z.eqb m 11 then 30
  else 31.

(** The day number of a civil date, day 0 being 1970-01-01. *)
Definition days_from_civil (y m d : Z) : Z :=
  let y' := if Z.leb m 2 then y - 1 else y in
  let era := y' / 400 in
  let yoe := y' - era * 400 in
  let mp := if Z.leb m 2 then m + 9 else m - 3 in
  let doy := (153 * mp + 2) / 5 + d - 1 in
  let doe := yoe * 365 + yoe / 4 - yoe / 100 + doy in
  era * 146097 + doe - 719468.

Definition parseISO (s : string) : inum :=
  let sep i c := String.eqb (String.substring i 1 s) c in
  if Nat.eqb (String.length s) 24
     && sep 4%nat "-" && sep 7%nat "-" && sep 10%nat "T" && sep 13%nat ":"
     && sep 16%nat ":" && sep 19%nat "." && sep 23%nat "Z"
  then
    match field s 0 4, field s 5 2, field s 8 2,
          field s 11 2, field s 14 2, field s 17 2, field s 20 3 with
    | Some y, Some mo, Some d, Some h, Some mi, Some sec, Some ms =>
        if Z.leb 1 mo && Z.leb mo 12 && Z.leb 1 d && Z.leb d (days_in_month y mo)
           && Z.leb h 23 && Z.leb mi 59 && Z.leb sec 59
        then TimeClip (days_from_civil y mo d * msPerDay
                       + h * 3600000 + mi * 60000 + sec * 1000 + ms)
        else NaN
    | _, _, _, _, _, _, _ => NaN
    end
  else NaN.

(** A host on UTC whose clock reads [now]. *)
Definition utc (now : Z) : Env := mkEnv now (fun _ _ => 0%Z) parseISO.

(** A host on Indian Standard Time (UTC+05:30) whose clock reads [now]. *)
Definition ist (now : Z) : Env := mkEnv now (fun _ _ => 19800000%Z) parseISO.

Local Close Scope Z_scope.

End JS.

(** ** Binary64 numbers

    The numbers of the helpers that add, subtract, multiply or divide:
    IEEE 754 binary64, every operation rounded to nearest, ties to
    even, as [SpecFloat] specifies it. *)

Module F64.

Local Open Scope Z_scope.

Definition prec : Z := 53.
Definition emax : Z := 1024.

Definition double : Type := spec_float.

Definition NaN : double := S754_nan.

(** The literal [0]. *)
Definition zero : double := S754_zero false.

Definition add : double -> double -> double := SFadd prec emax.
Definition sub : double -> double -> double := SFsub prec emax.
Definition mul : double -> double -> double := SFmul prec emax.
Definition div : double -> double -> double := SFdiv prec emax.

(** [x < y], [x > y], [x <= y] and [x === y]: all false on [NaN]. *)
Definition lt (x y : double) : bool := SFltb x y.
Definition gt (x y : double) : bool := SFltb y x.
Definition le (x y : double) : bool := SFleb x y.
Definition strict_eq (x y : double) : bool := SFeqb x y.

Definition is_nan (x : double) : bool :=
  match x with
  | S754_nan => true
  | _ => false
  end.

Definition is_finite (x : double) : bool :=
  match x with
  | S754_zero _ | S754_finite _ _ _ => true
  | _ => false
  end.

(** The number nearest to an integer: an integer literal. *)
Definition of_Z (z : Z) : double := binary_normalize prec emax z 0 false.

(** The decimal literal with the digits [m] and [k] decimals, for [m]
    and [10^k] below 2^53: both are binary64 numbers, and their quotient
    rounds once, to the number nearest to [m / 10^k]. *)
Definition dec (m : Z) (k : nat) : double := div (of_Z m) (of_Z (10 ^ Z.of_nat k)).

Definition Math_abs : double -> double := SFabs.

(** [Math.max(x, y)] and [Math.min(x, y)]: [NaN] as soon as an argument
    is; [+0] counts as larger than [-0]. *)
Definition Math_max (x y : double) : double :=
  match SFcompare x y with
  | None => NaN
  | Some Lt => y
  | Some Gt => x
  | Some Eq => match x with S754_zero true => y | _ => x end
  end.

Definition Math_min (x y : double) : double :=
  match SFcompare x y with
  | None => NaN
  | Some Lt => x
  | Some Gt => y
  | Some Eq => match x with S754_zero false => y | _ => x end
  end.

(** The exact value of a finite number; 0 for the others. *)
Definition to_Q (x : double) : Q :=
  match x with
  | S754_finite s m e => (inject_Z (cond_Zopp s (Zpos m)) * Qpower 2 e)%Q
  | _ => 0%Q
  end.

Section Printing.

Variable Number_toString : Q -> string.

(** [x.toFixed(2)]. *)
Definition toFixed2 (x : double) : string :=
  match x with
  | S754_nan => "NaN"
  | S754_infinity s => if s then "-Infinity" else "Infinity"
  | _ => JS.toFixed2 Number_toString (to_Q x)
  end.

End Printing.

End F64.

(** ** src/pages/ListStocks.tsx *)

Module ListStocks.

(** [calculate52WeekPosition], lines 45-51. *)
Definition calculate52WeekPosition (current low high : option F64.double)
    : F64.double :=
  match current, low, high with
  | Some current, Some low, Some high =>
      if F64.strict_eq high low then F64.zero
      else
        let position :=
          F64.mul (F64.div (F64.sub current low) (F64.sub high low)) (F64.of_Z 100) in
        F64.Math_max F64.zero (F64.Math_min (F64.of_Z 100) position)
  | _, _, _ => F64.zero
  end.

(** The object [getMASignal] returns. *)
Record MASignal : Type := mkMASignal
  { signal : string; color : string; chipColor : string }.

(** [getMASignal], lines 61-96.  The first test of the source,
    [!closePrice || !ma20 || !ma200], holds as soon as one argument is
    [null] or [undefined]; past it the three arguments are numbers. *)
Definition getMASignal (closePrice ma20 ma200 : option JS.number) : MASignal :=
  match closePrice, ma20, ma200 with
  | Some closePrice, Some ma20, Some ma200 =>
      if JS.falsy closePrice || JS.falsy ma20 || JS.falsy ma200 then
        mkMASignal "No Data" "text.disabled" "default"
      else
        let aboveMA20 := JS.gt closePrice ma20 in
        let aboveMA200 := JS.gt closePrice ma200 in
        let ma20AboveMA200 := JS.gt ma20 ma200 in
        if aboveMA20 && aboveMA200 && ma20AboveMA200 then
          mkMASignal "Strong Bullish" "success.main" "success"
        else if aboveMA20 && aboveMA200 then
          mkMASignal "Bullish" "success.light" "success"
        else if negb aboveMA20 && negb aboveMA200 && negb ma20AboveMA200 then
          mkMASignal "Strong Bearish" "error.main" "error"
        else if negb aboveMA20 && negb aboveMA200 then
          mkMASignal "Bearish" "error.light" "error"
        else
          mkMASignal "Neutral" "warning.main" "warning"
  | _, _, _ => mkMASignal "No Data" "text.disabled" "default"
  end.

(** The day count of [getDaysAgo], lines 23-31: both dates are set to
    the start of their local day, then subtracted and divided. *)
Definition diffDays (env : JS.Env) (date : string) : JS.inum :=
  let priceDate := JS.Date_parse env date in
  let now := JS.Int (JS.clock env) in
  let priceDate := JS.setHours0 env priceDate in
  let now := JS.setHours0 env now in
  let diffTime := JS.isub now priceDate in
  JS.floor_div diffTime (1000 * 60 * 60 * 24).

(** [getDaysAgo], lines 20-42. *)
Definition getDaysAgo (env : JS.Env) (date : option string) : string :=
  match date with
  | None => ""
  | Some date =>
      if JS.empty date then ""
      else
        let diffDays := diffDays env date in
        if JS.ieq diffDays 0 then "Today"
        else if JS.ieq diffDays 1 then "1 day ago"
        else if JS.ilt diffDays 0 then "Future date"
        else JS.inum_toString diffDays ++ " days ago"
  end.

(** The flag [isStale] of the "History Updated" column, line 521:
    [params.value && new Date(params.value) <
     new Date(Date.now() - 7 * 24 * 60 * 60 * 1000)], as the condition
    it is used for. *)
Definition isStale (env : JS.Env) (value : option string) : bool :=
  match value with
  | None => false
  | Some value =>
      if JS.empty value then false
      else
        JS.date_lt (JS.Date_parse env value)
                   (JS.TimeClip (JS.clock env - 7 * 24 * 60 * 60 * 1000))
  end.

End ListStocks.

(** ** The strategy dialog (src/unnamed/part_004) *)

Module Strategies.

Inductive CallType : Type := BUY | SELL.

Record FormulaCriteria : Type := mkCriteria
  { criteria_name : string; weight : F64.double }.

Record StrategyCreate : Type := mkStrategyCreate
  { name : string;
    description : string;
    call_type : CallType;
    formula : list FormulaCriteria }.

(** The state of the component that [validateFormula] reads and writes. *)
Record State : Type := mkState
  { formData : StrategyCreate; error : string }.

Definition setError (msg : string) (st : State) : State :=
  mkState (formData st) msg.

Definition msgName : string := "All criteria must have a name".
Definition msgWeight : string := "Each weight must be between 0 and 1".

(** The loop of lines 163-172: the message of the first test that
    fails, in the order of the formula, the name before the weight. *)
Fixpoint checkItems (items : list FormulaCriteria) : option string :=
  match items with
  | [] => None
  | item :: rest =>
      if JS.empty (JS.trim (criteria_name item)) then Some msgName
      else if F64.lt (weight item) F64.zero || F64.gt (weight item) (F64.of_Z 1)
           then Some msgWeight
      else checkItems rest
  end.

Section Printing.

Variable Number_toString : Q -> string.

Definition totalWeight (f : list FormulaCriteria) : F64.double :=
  fold_left (fun sum item => F64.add sum (weight item)) f F64.zero.

Definition msgTotal (total : F64.double) : string :=
  "Total weight must equal 1.0 (currently "
  ++ F64.toFixed2 Number_toString total ++ ")".

(** [validateFormula], lines 155-175. *)
Definition validateFormula (st : State) : bool * State :=
  let totalWeight := totalWeight (formula (formData st)) in
  if F64.gt (F64.Math_abs (F64.sub totalWeight (F64.of_Z 1))) (F64.dec 1 2) then
    (false, setError (msgTotal totalWeight) st)
  else
    match checkItems (formula (formData st)) with
    | Some msg => (false, setError msg st)
    | None => (true, st)
    end.

End Printing.

(** The state of a dialog that holds the formula [f] and shows no error. *)
Definition form (f : list FormulaCriteria) : State :=
  mkState (mkStrategyCreate "" "" BUY f) "".

End Strategies.

(** ** The holdings screen *)

(** What the two versions of the screen share: the holdings of an
    account, of which the summary reads two fields, and the summary
    itself.  The interfaces of the holdings are not among the sources;
    the fields are those the code reads. *)
Module Holdings.

Record HoldingDetail : Type := mkHolding
  { invested_value : JS.number;
    current_value : JS.number;
    updated_at : string }.

Record AssetHoldings : Type := mkAssets
  { stocks : list HoldingDetail;
    etfs : list HoldingDetail;
    mutual_funds : list HoldingDetail;
    bonds : list HoldingDetail }.

Record Summary : Type := mkSummary
  { totalInvested : JS.number;
    totalCurrentValue : JS.number;
    totalProfitLoss : JS.number;
    totalProfitLossPercentage : JS.number;
    totalCount : nat }.

(** [selectedAssetTypes.includes(x)]. *)
Definition includes (l : list string) (x : string) : bool :=
  existsb (String.eqb x) l.

(** The body of a [forEach]: the two fields of a holding are added to
    the running totals [totalInvested] and [totalCurrentValue]. *)
Definition addHolding (totals : JS.number * JS.number) (h : HoldingDetail)
    : JS.number * JS.number :=
  (fst totals + invested_value h, snd totals + current_value h).

(** One [if (selectedAssetTypes.includes(...)) { ... }] block, on the
    two totals and [totalCount]. *)
Definition addClass (sel : list string) (key : string) (hs : list HoldingDetail)
    (acc : JS.number * JS.number * nat) : JS.number * JS.number * nat :=
  if includes sel key then
    (fold_left addHolding hs (fst acc), (snd acc + List.length hs)%nat)
  else acc.

(** [calculateFilteredSummary]: lines 91-141 of ListHoldings.tsx and
    lines 110-160 of part_005, which are the same text. *)
Definition calculateFilteredSummary (holdings : option AssetHoldings)
    (selectedAssetTypes : list string) : option Summary :=
  match holdings with
  | None => None
  | Some holdings =>
      let acc := (0, 0, O) in
      let acc := addClass selectedAssetTypes "stocks" (stocks holdings) acc in
      let acc := addClass selectedAssetTypes "etfs" (etfs holdings) acc in
      let acc := addClass selectedAssetTypes "mutual_funds" (mutual_funds holdings) acc in
      let acc := addClass selectedAssetTypes "bonds" (bonds holdings) acc in
      let '(totalInvested, totalCurrentValue, totalCount) := acc in
      let totalProfitLoss := totalCurrentValue - totalInvested in
      let totalProfitLossPercentage :=
        if JS.gt totalInvested 0 then (totalProfitLoss / totalInvested) * 100 else 0 in
      Some (mkSummary totalInvested totalCurrentValue totalProfitLoss
                      totalProfitLossPercentage totalCount)
  end.

(** The statements of [formatCurrency] that group the digits of
    [integerPart], on their own. *)
Definition grouped (integerPart : string) : string :=
  let lastThree :=
    JS.substring_from integerPart (Z.of_nat (String.length integerPart) - 3) in
  let otherNumbers :=
    JS.substring integerPart 0 (Z.of_nat (String.length integerPart) - 3) in
  let lastThree := if negb (JS.empty otherNumbers) then "," ++ lastThree else lastThree in
  JS.replace_pairs false otherNumbers ++ lastThree.

Section Printing.

Variable Number_toString : JS.number -> string.

(** [Intl.NumberFormat('en-US', { style: 'currency', ... }).format], which
    the embedding leaves open. *)
Variable Intl_currency : string -> JS.number -> string.

(** [formatCurrency] with the text it puts before the digits: the two
    versions of the screen differ in that text only. *)
Definition formatCurrencyWith (symbol : string) (value : JS.number)
    (currency : string) : string :=
  if String.eqb currency "INR" then
    let isNegative := JS.lt value 0 in
    let absValue := JS.Math_abs value in
    let formatted := JS.toFixed2 Number_toString absValue in
    let parts := JS.split_dot formatted in
    let integerPart := nth 0 parts "" in
    let decimalPart := nth_error parts 1 in
    let lastThree :=
      JS.substring_from integerPart (Z.of_nat (String.length integerPart) - 3) in
    let otherNumbers :=
      JS.substring integerPart 0 (Z.of_nat (String.length integerPart) - 3) in
    let lastThree := if negb (JS.empty otherNumbers) then "," ++ lastThree else lastThree in
    let formattedInteger := JS.replace_pairs false otherNumbers ++ lastThree in
    (if isNegative then "-" else "") ++ symbol ++ formattedInteger ++ "."
    ++ JS.show_undefined decimalPart
  else Intl_currency currency value.

End Printing.

End Holdings.

(** *** src/pages/Holdings/ListHoldings.tsx *)

Module ListHoldings.

(** The text before the digits at line 163: the bytes
    C3 A2 E2 80 9A C2 B9 of the file, which read as the three characters
    U+00E2, U+201A and U+00B9. *)
Definition symbol : string := "â‚¹".

(** [formatCurrency], lines 143-173. *)
Definition formatCurrency (Number_toString : JS.number -> string)
    (Intl_currency : string -> JS.number -> string)
    (value : JS.number) (currency : string) : string :=
  Holdings.formatCurrencyWith Number_toString Intl_currency symbol value currency.

End ListHoldings.

(** *** src/unnamed/part_005, the screen with the update column *)

Module HoldingsPart005.

(** The text before the digits at line 182: the bytes E2 82 B9, the
    rupee sign U+20B9. *)
Definition symbol : string := "₹".

(** [formatCurrency], lines 162-192. *)
Definition formatCurrency (Number_toString : JS.number -> string)
    (Intl_currency : string -> JS.number -> string)
    (value : JS.number) (currency : string) : string :=
  Holdings.formatCurrencyWith Number_toString Intl_currency symbol value currency.

(** The day count of [formatDaysAgo] and [getDaysAgoColor], lines
    205-208 and 220-223. *)
Definition diffDays (env : JS.Env) (dateString : string) : JS.inum :=
  let updatedDate := JS.Date_parse env dateString in
  let now := JS.Int (JS.clock env) in
  let diffTime := JS.iabs (JS.isub now updatedDate) in
  JS.floor_div diffTime (1000 * 60 * 60 * 24).

(** [formatDaysAgo], lines 204-217. *)
Definition formatDaysAgo (env : JS.Env) (dateString : string) : string :=
  let diffDays := diffDays env dateString in
  if JS.ieq diffDays 0 then "Today"
  else if JS.ieq diffDays 1 then "1 day ago"
  else JS.inum_toString diffDays ++ " days ago".

(** [getDaysAgoColor], lines 219-226. *)
Definition getDaysAgoColor (env : JS.Env) (dateString : string) : string :=
  let diffDays := diffDays env dateString in
  if JS.igt diffDays 2 then "error.main" else "text.secondary".

End HoldingsPart005.

(** ** Specification-side definitions *)

Module Spec.

(** [clamp(x, lo, hi)] of the range positioner, on binary64 numbers:
    the bound is returned for an [x] at the bound or past it, and a NaN
    stays a NaN. *)
Definition clamp (x lo hi : spec_float) : spec_float :=
  match x with
  | S754_nan => S754_nan
  | _ => if SFleb x lo then lo else if SFleb hi x then hi else x
  end.

(** The five signals of the trend classifier and its "no data" value. *)
Inductive Signal : Type :=
  | StrongBullish | Bullish | Neutral | StrongBearish | Bearish | NoData.

(** The table of the trend classifier over
    [a = price > ma20], [b = price > ma200], [c = ma20 > ma200]. *)
Definition classify (a b c : bool) : Signal :=
  match a, b, c with
  | true, true, true => StrongBullish
  | true, true, false => Bullish
  | false, false, false => StrongBearish
  | false, false, true => Bearish
  | _, _, _ => Neutral
  end.

Definition label (s : Signal) : string :=
  match s with
  | StrongBullish => "Strong Bullish"
  | Bullish => "Bullish"
  | Neutral => "Neutral"
  | StrongBearish => "Strong Bearish"
  | Bearish => "Bearish"
  | NoData => "No Data"
  end.

(** The day count between two midnights, as the freshness classifier
    defines it: both sides are set to the start of their local day
    before they are subtracted. *)
Definition midnightDays (env : JS.Env) (value : string) : JS.inum :=
  JS.floor_div
    (JS.isub (JS.setHours0 env (JS.Int (JS.clock env)))
             (JS.setHours0 env (JS.Date_parse env value)))
    JS.msPerDay.

(** A string of decimal digits. *)
Fixpoint all_digits (s : string) : bool :=
  match s with
  | EmptyString => true
  | String c r => JS.is_digit c && all_digits r
  end.

(** Pairs of digits separated by commas, on digits listed from the last
    to the first. *)
Fixpoint pairs_rev (l : list ascii) : list ascii :=
  match l with
  | a :: b :: ((_ :: _) as rest) => a :: b :: ","%char :: pairs_rev rest
  | _ => l
  end.

(** The pairs of a string of digits, read from the left. *)
Definition pairs (s : string) : string :=
  string_of_list_ascii (rev (pairs_rev (rev (list_ascii_of_string s)))).

(** The Indian grouping of the digits of an integer: the last three
    digits form one group, the digits to their left are grouped in
    pairs. *)
Definition indian_group (digits : string) : string :=
  let r := rev (list_ascii_of_string digits) in
  let lastThree := firstn 3 r in
  let others := skipn 3 r in
  string_of_list_ascii
    (rev (lastThree ++ match others with
                       | [] => []
                       | _ :: _ => ","%char :: pairs_rev others
                       end)).

(** The holdings of the selected asset classes. *)
Definition selected (h : Holdings.AssetHoldings) (sel : list string)
    : list Holdings.HoldingDetail :=
  (if Holdings.includes sel "stocks" then Holdings.stocks h else [])
  ++ (if Holdings.includes sel "etfs" then Holdings.etfs h else [])
  ++ (if Holdings.includes sel "mutual_funds" then Holdings.mutual_funds h else [])
  ++ (if Holdings.includes sel "bonds" then Holdings.bonds h else []).

(** The sum of a field over a list of holdings. *)
Fixpoint total (field : Holdings.HoldingDetail -> Q)
    (hs : list Holdings.HoldingDetail) : Q :=
  match hs with
  | [] => 0
  | h :: rest => field h + total field rest
  end.

(** The white space and the line terminators of ECMAScript, each by the
    bytes of its UTF-8 encoding: TAB, LF, VT, FF, CR, SPACE, U+00A0,
    U+1680, U+2000 to U+200A, U+2028, U+2029, U+202F, U+205F, U+3000
    and U+FEFF. *)
Definition bytes (l : list nat) : string :=
  string_of_list_ascii (map ascii_of_nat l).

Definition white_space : list string :=
  map bytes
    [[9]; [10]; [11]; [12]; [13]; [32]; [194; 160]; [225; 154; 128];
     [226; 128; 128]; [226; 128; 129]; [226; 128; 130]; [226; 128; 131];
     [226; 128; 132]; [226; 128; 133]; [226; 128; 134]; [226; 128; 135];
     [226; 128; 136]; [226; 128; 137]; [226; 128; 138];
     [226; 128; 168]; [226; 128; 169]; [226; 128; 175]; [226; 129; 159];
     [227; 128; 128]; [239; 187; 191]]%nat.

(** A blank string: nothing but white space. *)
Inductive blank : string -> Prop :=
  | blank_empty : blank ""
  | blank_space (w s : string) : In w white_space -> blank s -> blank (w ++ s).

(** The sum of the weights of a formula, as real numbers: the exact
    values of the weights, added without rounding. *)
Fixpoint sum_weights (f : list Strategies.FormulaCriteria) : Q :=
  match f with
  | [] => 0
  | item :: rest => F64.to_Q (Strategies.weight item) + sum_weights rest
  end.

End Spec.

(** ** The cells of the stocks table (src/pages/ListStocks.tsx) *)

Module StocksTable.

Import ListStocks.

(** A point of the "Market Sentiment" cell, line 322. *)
Record DataPoint : Type := mkPoint
  { value : JS.number; label : string; color : option string }.

(** [Array.prototype.sort] with the comparator
    [(a, b) => a.value - b.value]: the sort is stable, a point goes
    after another one when the comparator is positive on them. *)
Fixpoint insert (a : DataPoint) (sorted : list DataPoint) : list DataPoint :=
  match sorted with
  | [] => [a]
  | b :: rest =>
      if JS.gt (value a - value b) 0 then b :: insert a rest
      else a :: b :: rest
  end.

Fixpoint sort (points : list DataPoint) : list DataPoint :=
  match points with
  | [] => []
  | a :: rest => insert a (sort rest)
  end.

(** What the "Market Sentiment" cell draws: the labels of the three
    markers from left to right, the place of each value on the bar, the
    place of the middle marker, and the text and colour of the signal. *)
Record SentimentCell : Type := mkSentiment
  { minLabel : string;
    middleLabel : string;
    maxLabel : string;
    pricePosition : JS.number;
    ma20Position : JS.number;
    ma200Position : JS.number;
    middleLeft : JS.number;
    signalLabel : string;
    signalColor : string }.

(** The [renderCell] of the column [moving_averages], lines 314-437;
    [None] is the cell that reads "No data". *)
Definition sentimentCell (price_last_close price_ma_20d price_ma_200d : option JS.number)
    : option SentimentCell :=
  match price_last_close, price_ma_20d, price_ma_200d with
  | Some price, Some ma20, Some ma200 =>
      if JS.falsy price || JS.falsy ma20 || JS.falsy ma200 then None
      else
        let dataPoints :=
          [ mkPoint price "Price" None;
            mkPoint ma20 "20d" (Some "#2196f3");
            mkPoint ma200 "200d" (Some "#ff9800") ] in
        let sorted := sort dataPoints in
        let minItem := nth 0 sorted (mkPoint 0 "" None) in
        let middleItem := nth 1 sorted (mkPoint 0 "" None) in
        let maxItem := nth 2 sorted (mkPoint 0 "" None) in
        let minValue := value minItem in
        let maxValue := value maxItem in
        let range := maxValue - minValue in
        let pricePosition :=
          if JS.gt range 0 then ((price - minValue) / range) * 100 else 50 in
        let ma20Position :=
          if JS.gt range 0 then ((ma20 - minValue) / range) * 100 else 50 in
        let ma200Position :=
          if JS.gt range 0 then ((ma200 - minValue) / range) * 100 else 50 in
        let signal := getMASignal price_last_close price_ma_20d price_ma_200d in
        let '(signalLabel, signalColor) :=
          if String.eqb (ListStocks.signal signal) "Strong Bullish"
          then ("Strong Buy", "#4caf50")
          else if String.eqb (ListStocks.signal signal) "Bullish"
          then ("Buy", "#8bc34a")
          else if String.eqb (ListStocks.signal signal) "Neutral"
          then ("Neutral", "#ff9800")
          else if String.eqb (ListStocks.signal signal) "Bearish"
          then ("Sell", "#ff5722")
          else if String.eqb (ListStocks.signal signal) "Strong Bearish"
          then ("Strong Sell", "#f44336")
          else ("Neutral", "#9e9e9e") in
        let middleLeft :=
          if String.eqb (label middleItem) "Price" then pricePosition
          else if String.eqb (label middleItem) "20d" then ma20Position
          else ma200Position in
        Some (mkSentiment (label minItem) (label middleItem) (label maxItem)
                pricePosition ma20Position ma200Position middleLeft
                signalLabel signalColor)
  | _, _, _ => None
  end.

(** The cell of the column [price_last_updated], lines 519-531: its
    text and its colour. *)
Definition historyCell (env : JS.Env) (value : option string) : string * string :=
  let daysAgo := getDaysAgo env value in
  let isStale := isStale env value in
  (if JS.empty daysAgo then "No data" else daysAgo,
   if isStale then "error" else "text.primary").

End StocksTable.

(** ** More of the strategy dialog (src/unnamed/part_004) *)

Module StrategyDialog.

Import Strategies.

(** [setFormData({ ...formData, formula: f })]. *)
Definition setFormula (f : list FormulaCriteria) (st : State) : State :=
  mkState (mkStrategyCreate (name (formData st)) (description (formData st))
             (call_type (formData st)) f)
          (error st).

(** [handleAddCriteria], lines 130-135. *)
Definition handleAddCriteria (st : State) : State :=
  setFormula (formula (formData st) ++ [mkCriteria "" F64.zero]) st.

(** [l.filter((x, i) => keep(x, i))], the index counted from [i]. *)
Fixpoint filter_index {A : Type} (keep : A -> nat -> bool) (i : nat) (l : list A)
    : list A :=
  match l with
  | [] => []
  | x :: rest =>
      if keep x i then x :: filter_index keep (S i) rest
      else filter_index keep (S i) rest
  end.

(** [handleRemoveCriteria], lines 137-140; the index is that of a row of
    the dialog, a natural number. *)
Definition handleRemoveCriteria (index : nat) (st : State) : State :=
  setFormula
    (filter_index (fun _ i => negb (Nat.eqb i index)) 0 (formula (formData st))) st.

(** [getTotalWeight], lines 210-212. *)
Definition getTotalWeight (st : State) : F64.double :=
  fold_left (fun sum item => F64.add sum (weight item)) (formula (formData st))
            F64.zero.

(** The box under the criteria, lines 545-558: its background, and
    whether it shows "(Must equal 1.00)" and the mark "Valid". *)
Record TotalBox : Type := mkTotalBox
  { background : string; mustEqual : bool; valid : bool }.

Definition totalBox (st : State) : TotalBox :=
  mkTotalBox
    (if F64.strict_eq (getTotalWeight st) (F64.of_Z 1)
     then "success.light" else "warning.light")
    (F64.gt (F64.Math_abs (F64.sub (getTotalWeight st) (F64.of_Z 1))) (F64.dec 1 2))
    (F64.le (F64.Math_abs (F64.sub (getTotalWeight st) (F64.of_Z 1))) (F64.dec 1 2)).

End StrategyDialog.

(** ** More of the holdings screen (ListHoldings.tsx and part_005) *)

Module HoldingsScreen.

Import Holdings.

(** The selection when the screen opens, lines 54-59 of ListHoldings.tsx. *)
Definition initialSelection : list string :=
  ["stocks"; "etfs"; "mutual_funds"; "bonds"].

(** [handleAssetTypeChange], lines 81-89 of ListHoldings.tsx and
    100-108 of part_005, on the selection. *)
Definition handleAssetTypeChange (newTypes : list string) (selectedAssetTypes : list string)
    : list string :=
  if Nat.ltb 0 (length newTypes) then newTypes else selectedAssetTypes.

(** The selection after a run of changes of the toggle buttons. *)
Definition afterChanges (changes : list (list string)) (selectedAssetTypes : list string)
    : list string :=
  fold_left (fun selected newTypes => handleAssetTypeChange newTypes selected)
            changes selectedAssetTypes.

(** The holdings behind a toggle button. *)
Definition classHoldings (key : string) (h : AssetHoldings) : list HoldingDetail :=
  if String.eqb key "stocks" then stocks h
  else if String.eqb key "etfs" then etfs h
  else if String.eqb key "mutual_funds" then mutual_funds h
  else if String.eqb key "bonds" then bonds h
  else [].

Section Printing.

Variable Number_toString : JS.number -> string.

(** [formatPercentage], lines 175-177 of ListHoldings.tsx and 194-196 of
    part_005. *)
Definition formatPercentage (value : JS.number) : string :=
  (if Qle_bool 0 value then "+" else "") ++ JS.toFixed2 Number_toString value ++ "%".

End Printing.

End HoldingsScreen.

(** ** The industry filter of the stocks table *)

Module StocksFilter.

(** The fields of [StockSymbol] (src/types/index.ts, lines 72-93) that
    the filter reads. *)
Record StockSymbol : Type := mkStock {
  symbol : string;
  sector_industry : option string }.

(** [!!industry]. *)
Definition truthy (industry : option string) : bool :=
  match industry with
  | Some i => negb (JS.empty i)
  | None => false
  end.

(** [.filter((industry): industry is string => !!industry)]. *)
Fixpoint named (l : list (option string)) : list string :=
  match l with
  | [] => []
  | industry :: t =>
      match industry with
      | Some i => if truthy industry then i :: named t else named t
      | None => named t
      end
  end.

(** [new Set(...)] read back by [Array.from]: the values in the order
    of their first occurrence. *)
Definition Set_add (set : list string) (x : string) : list string :=
  if Holdings.includes set x then set else (set ++ [x])%list.

Definition Array_from_Set (l : list string) : list string :=
  fold_left Set_add l [].

Section Sorting.

(** [before a b]: [a] sorts before [b] in the order of [sort()] without
    a comparator, the order of the UTF-16 code units. *)
Variable before : string -> string -> bool.

Fixpoint insert (x : string) (l : list string) : list string :=
  match l with
  | [] => [x]
  | y :: t => if before x y then x :: y :: t else y :: insert x t
  end.

Definition sort (l : list string) : list string := fold_right insert [] l.

(** The first effect on [stocks], lines 126-136. *)
Definition uniqueIndustries (stocks : list StockSymbol) : list string :=
  sort (Array_from_Set (named (map sector_industry stocks))).

End Sorting.

(** [stock.sector_industry === selectedIndustry]. *)
Definition is_industry (selectedIndustry : string) (stock : StockSymbol) : bool :=
  match sector_industry stock with
  | Some i => String.eqb i selectedIndustry
  | None => false
  end.

(** The second effect, lines 138-147. *)
Definition filteredStocks (selectedIndustry : string) (stocks : list StockSymbol)
    : list StockSymbol :=
  if String.eqb selectedIndustry "all" then stocks
  else filter (is_industry selectedIndustry) stocks.

End StocksFilter.

(** ** The ETF table (src/pages/Login.tsx, from line 322) *)

Module EtfTable.

(** The fields of an ETF row that the filter reads. *)
Record ETFSymbol : Type := mkEtf {
  symbol : string;
  sector_industry : option string }.

(** [etf.sector_industry && selectedIndustries.includes(etf.sector_industry)]. *)
Definition selected (selectedIndustries : list string) (etf : ETFSymbol) : bool :=
  match sector_industry etf with
  | Some i => negb (JS.empty i) && Holdings.includes selectedIndustries i
  | None => false
  end.

(** The effect on [selectedIndustries] and [etfs], lines 346-357. *)
Definition filteredEtfs (selectedIndustries : list string) (etfs : list ETFSymbol)
    : list ETFSymbol :=
  if Nat.eqb (length selectedIndustries) 0 then etfs
  else filter (selected selectedIndustries) etfs.

(** [handleIndustryChange], lines 374-382: the new selection. *)
Definition handleIndustryChange (value : list string) : list string :=
  if Holdings.includes value "all" then [] else value.

(** [onDelete] of the chip of [industry], lines 769-771. *)
Definition deleteChip (industry : string) (selectedIndustries : list string)
    : list string :=
  filter (fun i => negb (String.eqb i industry)) selectedIndustries.

Section Printing.

Variable Number_toString : JS.number -> string.

(** [x.toFixed(0)]: the integer closest to [x], the larger one on a
    tie. *)
Definition toFixed0 (x : JS.number) : string :=
  let s := if JS.lt x 0 then "-" else "" in
  let x := if JS.lt x 0 then - x else x in
  if Qle_bool (10 ^ 21) x then s ++ Number_toString x
  else s ++ JS.digits (Qfloor (x + (1 # 2))).

(** The cell "Avg Volume", lines 658-674. *)
Definition liquidityCell (value : option JS.number) : string :=
  match value with
  | None => "-"
  | Some value =>
      if Qle_bool 1000000 value then
        JS.toFixed2 Number_toString (value / 1000000) ++ "M"
      else if Qle_bool 1000 value then
        JS.toFixed2 Number_toString (value / 1000) ++ "K"
      else toFixed0 value
  end.

End Printing.

End EtfTable.

(** * Properties *)

(** ** Comparison lemmas *)

Lemma gt_true_iff (x y : Q) : JS.gt x y = true <-> y < x.
Proof.
  unfold JS.gt. rewrite negb_true_iff, <- not_true_iff_false, Qle_bool_iff.
  split; [apply Qnot_le_lt | apply Qlt_not_le].
Qed.

Lemma gt_false_iff (x y : Q) : JS.gt x y = false <-> x <= y.
Proof.
  unfold JS.gt. rewrite negb_false_iff. apply Qle_bool_iff.
Qed.

Lemma lt_true_iff (x y : Q) : JS.lt x y = true <-> x < y.
Proof. apply (gt_true_iff y x). Qed.

Lemma lt_false_iff (x y : Q) : JS.lt x y = false <-> y <= x.
Proof. apply (gt_false_iff y x). Qed.

Lemma falsy_true_iff (x : Q) : JS.falsy x = true <-> x == 0.
Proof. apply Qeq_bool_iff. Qed.

Lemma falsy_false_iff (x : Q) : JS.falsy x = false <-> ~ x == 0.
Proof.
  rewrite <- falsy_true_iff. split.
  - intros H; rewrite H; discriminate.
  - apply not_true_is_false.
Qed.

(** Turns the boolean comparisons of the context into order facts. *)
Ltac cmp_props :=
  repeat match goal with
    | H : JS.gt _ _ = true |- _ => apply gt_true_iff in H
    | H : JS.gt _ _ = false |- _ => apply gt_false_iff in H
    | H : JS.lt _ _ = true |- _ => apply lt_true_iff in H
    | H : JS.lt _ _ = false |- _ => apply lt_false_iff in H
    end.

(** ** TrendClassifier: [getMASignal] *)

Import ListStocks.

(** Past the falsiness test the signal is the entry of the table at the
    three comparisons. *)
Lemma getMASignal_classify (p m l : Q) :
  JS.falsy p = false -> JS.falsy m = false -> JS.falsy l = false ->
  signal (getMASignal (Some p) (Some m) (Some l))
  = Spec.label (Spec.classify (JS.gt p m) (JS.gt p l) (JS.gt m l)).
Proof.
  intros Hp Hm Hl. unfold getMASignal. rewrite Hp, Hm, Hl. simpl.
  destruct (JS.gt p m), (JS.gt p l), (JS.gt m l); reflexivity.
Qed.

Lemma getMASignal_falsy (closePrice ma20 ma200 : option Q) :
  JS.not_ closePrice = true \/ JS.not_ ma20 = true \/ JS.not_ ma200 = true ->
  getMASignal closePrice ma20 ma200 = mkMASignal "No Data" "text.disabled" "default".
Proof.
  unfold getMASignal, JS.not_.
  destruct closePrice as [p|], ma20 as [m|], ma200 as [l|]; try reflexivity.
  intros [H | [H | H]]; rewrite H; rewrite ?orb_true_r; reflexivity.
Qed.

(** C1. [getMASignal] is total; it answers "No Data" as soon as one of
    the price, the 20-day and the 200-day average is absent or zero,
    whatever the other two are; otherwise, with [a = price > ma20],
    [b = price > ma200] and [c = ma20 > ma200], it answers
    "Strong Bullish" iff [a /\ b /\ c], "Bullish" iff [a /\ b /\ ~ c],
    "Strong Bearish" iff [~ a /\ ~ b /\ ~ c], "Bearish" iff
    [~ a /\ ~ b /\ c] and "Neutral" in the four remaining cases. *)
Theorem getMASignal_table (closePrice ma20 ma200 : option Q) :
  (exists s, signal (getMASignal closePrice ma20 ma200) = Spec.label s)
  /\ (JS.not_ closePrice = true \/ JS.not_ ma20 = true \/ JS.not_ ma200 = true ->
      signal (getMASignal closePrice ma20 ma200) = "No Data")
  /\ (forall p m l : Q,
        closePrice = Some p -> ma20 = Some m -> ma200 = Some l ->
        ~ p == 0 -> ~ m == 0 -> ~ l == 0 ->
        let s := signal (getMASignal closePrice ma20 ma200) in
        let a := m < p in
        let b := l < p in
        let c := l < m in
        (s = "Strong Bullish" <-> a /\ b /\ c)
        /\ (s = "Bullish" <-> a /\ b /\ ~ c)
        /\ (s = "Strong Bearish" <-> ~ a /\ ~ b /\ ~ c)
        /\ (s = "Bearish" <-> ~ a /\ ~ b /\ c)
        /\ (s = "Neutral" <-> (a /\ ~ b) \/ (~ a /\ b))).
Proof.
  split; [|split].
  - destruct closePrice as [p|], ma20 as [m|], ma200 as [l|];
      try (exists Spec.NoData; reflexivity).
    destruct (JS.falsy p) eqn:Hp; [exists Spec.NoData; unfold getMASignal; rewrite Hp; reflexivity|].
    destruct (JS.falsy m) eqn:Hm;
      [exists Spec.NoData; unfold getMASignal; rewrite Hp, Hm; reflexivity|].
    destruct (JS.falsy l) eqn:Hl;
      [exists Spec.NoData; unfold getMASignal; rewrite Hp, Hm, Hl; reflexivity|].
    eexists. apply getMASignal_classify; assumption.
  - intros H. rewrite (getMASignal_falsy _ _ _ H). reflexivity.
  - intros p m l -> -> -> Hp Hm Hl s a b c. subst s.
    rewrite getMASignal_classify by (apply falsy_false_iff; assumption).
    subst a b c.
    destruct (JS.gt p m) eqn:A, (JS.gt p l) eqn:B, (JS.gt m l) eqn:C;
      cmp_props; simpl;
      intuition (try discriminate; try lra; try (exfalso; lra)).
Qed.

(** A bullish, a bearish and a degenerate reading. *)
Lemma getMASignal_table_witness :
  signal (getMASignal (Some 120) (Some 110) (Some 100)) = "Strong Bullish"
  /\ signal (getMASignal (Some 120) (Some 0) (Some 100)) = "No Data".
Proof.
  split.
  - apply (proj2 (proj2 (getMASignal_table (Some 120) (Some 110) (Some 100)))
             120 110 100 eq_refl eq_refl eq_refl); try (intros H; discriminate H).
    repeat split; reflexivity.
  - apply (proj1 (proj2 (getMASignal_table (Some 120) (Some 0) (Some 100)))).
    right; left; reflexivity.
Defined.

(** ** Binary64 arithmetic *)

(** *** Comparisons and the clamp *)

Lemma SFcompare_antisym (x y : spec_float) :
  SFcompare y x = option_map CompOpp (SFcompare x y).
Proof.
  destruct x as [sx|sx| |sx mx ex], y as [sy|sy| |sy my ey];
    try reflexivity;
    try (destruct sx; reflexivity); try (destruct sy; reflexivity);
    try (destruct sx, sy; reflexivity).
  cbn [SFcompare option_map].
  destruct sx, sy; try reflexivity; f_equal;
    rewrite (Z.compare_antisym ex ey); destruct (ex ?= ey)%Z; cbn [CompOpp]; try reflexivity.
  all: pose proof (Pos.compare_cont_antisym mx my Eq) as H;
    change (CompOpp Eq) with Eq in H; rewrite <- H;
    destruct (Pos.compare_cont Eq mx my); reflexivity.
Qed.

(** What binary64 makes of some literals and sums, as any other
    implementation of binary64 gives them: 0.1, 0.01, 0.33, 0.6, 1.5,
    -0.5, 1, 100, 1e308; 0.1 + 0.2 is 0.30000000000000004 and
    0.33 + 0.33 + 0.33 is the number nearest to 0.99, which is below
    it. *)
Lemma binary64_examples :
  F64.dec 1 1 = S754_finite false 7205759403792794 (-56)
  /\ F64.dec 1 2 = S754_finite false 5764607523034235 (-59)
  /\ F64.dec 33 2 = S754_finite false 5944751508129055 (-54)
  /\ F64.dec 6 1 = S754_finite false 5404319552844595 (-53)
  /\ F64.dec 15 1 = S754_finite false 6755399441055744 (-52)
  /\ F64.dec (-5) 1 = S754_finite true 4503599627370496 (-53)
  /\ F64.of_Z 1 = S754_finite false 4503599627370496 (-52)
  /\ F64.of_Z 100 = S754_finite false 7036874417766400 (-46)
  /\ F64.of_Z (10 ^ 308) = S754_finite false 5010420900022432 971
  /\ F64.add (F64.dec 1 1) (F64.dec 2 1) = S754_finite false 5404319552844596 (-54)
  /\ F64.add (F64.add (F64.dec 33 2) (F64.dec 33 2)) (F64.dec 33 2)
     = S754_finite false 8917127262193582 (-53)
  /\ F64.add (F64.add (F64.dec 33 2) (F64.dec 33 2)) (F64.dec 33 2) = F64.dec 99 2
  /\ F64.Math_abs (F64.sub (F64.dec 99 2) (F64.of_Z 1))
     = S754_finite false 5764607523034240 (-59)
  /\ F64.Math_max F64.zero (S754_zero true) = F64.zero
  /\ F64.Math_min F64.zero (S754_zero true) = S754_zero true
  /\ F64.Math_max F64.NaN (F64.of_Z 1) = F64.NaN.
Proof. vm_compute. repeat split. Qed.

Lemma max_min_clamp (p : F64.double) :
  F64.Math_max F64.zero (F64.Math_min (F64.of_Z 100) p)
  = Spec.clamp p (S754_zero false) (S754_finite false 7036874417766400 (-46)).
Proof.
  unfold Spec.clamp, F64.Math_max, F64.Math_min, SFleb.
  change (F64.of_Z 100) with (S754_finite false 7036874417766400 (-46)).
  rewrite (SFcompare_antisym p (S754_finite false 7036874417766400 (-46))).
  destruct p as [s|s| |s m e]; try reflexivity; destruct s; try reflexivity.
  destruct (SFcompare (S754_finite false m e) (S754_finite false _ _))
    as [[| |]|] eqn:C; try reflexivity.
  discriminate C.
Qed.

Lemma clamp_range (p : F64.double) :
  F64.is_nan p = false ->
  let r := Spec.clamp p (S754_zero false) (S754_finite false 7036874417766400 (-46)) in
  SFleb (S754_zero false) r = true
  /\ SFleb r (S754_finite false 7036874417766400 (-46)) = true.
Proof.
  intros N r. subst r.
  assert (E : Spec.clamp p (S754_zero false) (S754_finite false 7036874417766400 (-46))
              = if SFleb p (S754_zero false) then S754_zero false
                else if SFleb (S754_finite false 7036874417766400 (-46)) p
                     then S754_finite false 7036874417766400 (-46) else p).
  { destruct p; try discriminate N; reflexivity. }
  rewrite E. clear E. unfold SFleb.
  rewrite (SFcompare_antisym p (S754_finite false 7036874417766400 (-46))).
  destruct (SFcompare p (S754_zero false)) as [[| |]|] eqn:C0;
    cbn [option_map CompOpp]; try (split; reflexivity).
  - destruct (SFcompare p (S754_finite false 7036874417766400 (-46)))
      as [[| |]|] eqn:C1; cbn [option_map CompOpp]; try (split; reflexivity).
    + rewrite (SFcompare_antisym p (S754_zero false)), C0, C1. split; reflexivity.
    + destruct p; discriminate.
  - destruct p; discriminate.
Qed.

(** Rounding never invents a NaN. *)

Lemma iter_pos_inv {A : Type} (P : A -> Prop) (f : A -> A) :
  (forall x, P x -> P (f x)) -> forall n x, P x -> P (iter_pos f n x).
Proof.
  intros H. induction n as [n IH|n IH|]; intros x Px; cbn [iter_pos]; auto.
Qed.

Lemma shr_1_nonneg (r : shr_record) : (0 <= shr_m r)%Z -> (0 <= shr_m (shr_1 r))%Z.
Proof.
  destruct r as [m r s]. cbn [shr_m]. destruct m as [|[p|p|]|p]; cbn; lia.
Qed.

Lemma shr_fexp_nonneg (m e : Z) (l : location) :
  (0 <= m)%Z -> (0 <= shr_m (fst (shr_fexp F64.prec F64.emax m e l)))%Z.
Proof.
  intros H. unfold shr_fexp, shr.
  assert (R : (0 <= shr_m (shr_record_of_loc m l))%Z).
  { destruct l as [|[| |]]; exact H. }
  destruct (_ - e)%Z; cbn [fst]; try exact R.
  apply (iter_pos_inv (fun r => (0 <= shr_m r)%Z)); [apply shr_1_nonneg | exact R].
Qed.

Lemma round_nearest_even_nonneg (m : Z) (l : location) :
  (0 <= m)%Z -> (0 <= round_nearest_even m l)%Z.
Proof.
  intros H. destruct l as [|[| |]]; cbn [round_nearest_even]; try lia.
  destruct (Z.even m); lia.
Qed.

Lemma round_not_nan (sx : bool) (mx ex : Z) (lx : location) :
  (0 <= mx)%Z -> F64.is_nan (binary_round_aux F64.prec F64.emax sx mx ex lx) = false.
Proof.
  intros H. unfold binary_round_aux.
  pose proof (shr_fexp_nonneg mx ex lx H) as A.
  destruct (shr_fexp F64.prec F64.emax mx ex lx) as [mrs' e']. cbn [fst] in A.
  pose proof (shr_fexp_nonneg _ e' loc_Exact
                (round_nearest_even_nonneg _ (loc_of_shr_record mrs') A)) as B.
  destruct (shr_fexp F64.prec F64.emax _ e' loc_Exact) as [mrs'' e'']. cbn [fst] in B.
  destruct (shr_m mrs''); [reflexivity | | lia].
  destruct (_ <=? _)%Z; reflexivity.
Qed.

Lemma normalize_not_nan (m e : Z) (s : bool) :
  F64.is_nan (binary_normalize F64.prec F64.emax m e s) = false.
Proof.
  destruct m as [|p|p]; cbn [binary_normalize]; [reflexivity | |];
    unfold binary_round; destruct (shl_align _ _ _); apply round_not_nan; lia.
Qed.

Lemma sub_not_nan (x y : F64.double) :
  F64.is_nan x = false -> F64.is_finite y = true -> F64.is_nan (F64.sub x y) = false.
Proof.
  destruct x as [sx|sx| |sx mx ex], y as [sy|sy| |sy my ey]; try discriminate;
    intros _ _; try reflexivity.
  - destruct sx, sy; reflexivity.
  - apply normalize_not_nan.
Qed.

Lemma div_not_nan (x : F64.double) (s : bool) (m : positive) (e : Z) :
  F64.is_nan x = false -> F64.is_nan (F64.div x (S754_finite s m e)) = false.
Proof.
  destruct x as [sx|sx| |sx mx ex]; try discriminate; intros _; try reflexivity.
  unfold F64.div, SFdiv, SFdiv_core_binary.
  set (m' := match _ with Zpos _ => _ | Z0 => _ | Zneg _ => _ end).
  assert (M : (0 <= m')%Z).
  { subst m'. destruct (_ - _ - _)%Z; try lia. apply Z.shiftl_nonneg. lia. }
  pose proof (Z.div_pos m' (Zpos m) M ltac:(lia)) as Q.
  unfold Z.div in Q. destruct (Z.div_eucl m' (Zpos m)) as [q r]. cbn [fst] in Q.
  apply round_not_nan, Q.
Qed.

Lemma mul_not_nan (x : F64.double) (s : bool) (m : positive) (e : Z) :
  F64.is_nan x = false -> F64.is_nan (F64.mul x (S754_finite s m e)) = false.
Proof.
  destruct x as [sx|sx| |sx mx ex]; try discriminate; intros _; try reflexivity.
  apply round_not_nan. lia.
Qed.

Lemma sub_diag (s : bool) (m : positive) (e : Z) :
  F64.sub (S754_finite s m e) (S754_finite s m e) = F64.zero.
Proof.
  unfold F64.sub, SFsub. rewrite Z.min_id. unfold shl_align.
  rewrite !Z.sub_diag. reflexivity.
Qed.

Lemma div_diag (s : bool) (m : positive) (e : Z) :
  F64.div (S754_finite s m e) (S754_finite s m e) = F64.of_Z 1.
Proof.
  unfold F64.div, SFdiv, SFdiv_core_binary.
  rewrite !Z.sub_diag.
  change (Z.min (fexp F64.prec F64.emax 0) 0) with (-53)%Z.
  change (0 - -53)%Z with 53%Z. cbv beta iota.
  assert (E : Z.div_eucl (Z.shiftl (Zpos m) 53) (Zpos m) = (9007199254740992, 0)%Z).
  { rewrite Z.shiftl_mul_pow2 by lia.
    pose proof (Z.div_mul (2 ^ 53) (Zpos m) ltac:(lia)) as D.
    pose proof (Z.mod_mul (2 ^ 53) (Zpos m) ltac:(lia)) as R.
    rewrite (Z.mul_comm (Zpos m)).
    unfold Z.div, Z.modulo in D, R.
    destruct (Z.div_eucl (2 ^ 53 * Zpos m) (Zpos m)) as [q r]. cbn [fst snd] in D, R.
    subst q r. reflexivity. }
  rewrite E.
  assert (L : new_location (Zpos m) 0 = loc_Exact).
  { unfold new_location. destruct (Z.even (Zpos m)); reflexivity. }
  rewrite L, xorb_nilpotent. reflexivity.
Qed.

(** *** The difference of two distinct numbers is not zero *)

Lemma digits2_pos_bound (m : positive) :
  (2 ^ (Zpos (digits2_pos m) - 1) <= Zpos m < 2 ^ Zpos (digits2_pos m))%Z.
Proof.
  induction m as [m IH|m IH|]; cbn [digits2_pos].
  - rewrite Pos2Z.inj_succ.
    replace (Z.succ (Zpos (digits2_pos m)) - 1)%Z with (Z.succ (Zpos (digits2_pos m) - 1))%Z by lia.
    rewrite !Z.pow_succ_r by lia. lia.
  - rewrite Pos2Z.inj_succ.
    replace (Z.succ (Zpos (digits2_pos m)) - 1)%Z with (Z.succ (Zpos (digits2_pos m) - 1))%Z by lia.
    rewrite !Z.pow_succ_r by lia. lia.
  - cbn. lia.
Qed.

Lemma digits2_pos_shift (m d : positive) :
  digits2_pos (Pos.iter xO m d) = (digits2_pos m + d)%positive.
Proof.
  induction d as [|d IH] using Pos.peano_ind.
  - cbn. lia.
  - rewrite Pos.iter_succ. cbn [digits2_pos]. rewrite IH. lia.
Qed.

Lemma iter_xO_mul (m d : positive) :
  Zpos (Pos.iter xO m d) = (Zpos m * 2 ^ Zpos d)%Z.
Proof.
  induction d as [|d IH] using Pos.peano_ind.
  - cbn. lia.
  - rewrite Pos.iter_succ, Pos2Z.inj_xO, IH, Pos2Z.inj_succ, Z.pow_succ_r by lia. lia.
Qed.

Lemma iter_pos_succ {A : Type} (f : A -> A) (n : positive) (x : A) :
  iter_pos f (Pos.succ n) x = f (iter_pos f n x).
Proof.
  assert (C : forall n x, iter_pos f n (f x) = f (iter_pos f n x)).
  { clear. induction n as [n IH|n IH|]; intros x; cbn [iter_pos].
    - rewrite !IH. reflexivity.
    - rewrite !IH. reflexivity.
    - reflexivity. }
  revert x. induction n as [n IH|n IH|]; intros x; cbn [Pos.succ iter_pos].
  - rewrite !IH, !C. reflexivity.
  - rewrite !C. reflexivity.
  - reflexivity.
Qed.

Lemma shr_1_div2 (r : shr_record) :
  (0 <= shr_m r)%Z -> shr_m (shr_1 r) = (shr_m r / 2)%Z.
Proof.
  destruct r as [m r s]. cbn [shr_m]. intros H.
  destruct m as [|[p|p|]|p]; cbn [shr_1 shr_m]; try lia; try reflexivity.
  - apply (Z.div_unique (Zpos p~1) 2 (Zpos p) 1); lia.
  - apply (Z.div_unique (Zpos p~0) 2 (Zpos p) 0); lia.
Qed.

Lemma shr_iter_div (n : positive) (r : shr_record) :
  (0 <= shr_m r)%Z -> shr_m (iter_pos shr_1 n r) = (shr_m r / 2 ^ Zpos n)%Z.
Proof.
  intros H. induction n as [|n IH] using Pos.peano_ind.
  - cbn [iter_pos]. rewrite shr_1_div2 by exact H. reflexivity.
  - rewrite iter_pos_succ, shr_1_div2, IH.
    + rewrite Pos2Z.inj_succ, Z.pow_succ_r, Z.div_div by lia. f_equal. lia.
    + rewrite IH. apply Z.div_pos; lia.
Qed.

(** Rounding a mantissa at an exponent that is not below the least one
    does not round it to zero. *)
Lemma shr_fexp_pos (m : positive) (e : Z) (l : location) :
  (-1074 <= e)%Z ->
  (0 < shr_m (fst (shr_fexp F64.prec F64.emax (Zpos m) e l)))%Z
  /\ (-1074 <= snd (shr_fexp F64.prec F64.emax (Zpos m) e l))%Z.
Proof.
  intros E. unfold shr_fexp, shr, fexp, emin, Zdigits2.
  change (3 - F64.emax - F64.prec)%Z with (-1074)%Z. unfold F64.prec.
  pose proof (digits2_pos_bound m) as B.
  set (d := Zpos (digits2_pos m)) in *.
  assert (R : shr_m (shr_record_of_loc (Zpos m) l) = Zpos m).
  { destruct l as [|[| |]]; reflexivity. }
  destruct (Z.max (d + e - 53) (-1074) - e)%Z as [|n|n] eqn:N; cbn [fst snd].
  - rewrite R. lia.
  - rewrite shr_iter_div, R by (rewrite R; lia). split; [|lia].
    assert (Zpos n = d - 53)%Z by lia.
    apply Z.div_str_pos. split; [lia|].
    apply (Z.le_trans _ (2 ^ (d - 1))); [|lia].
    apply Z.pow_le_mono_r; lia.
  - rewrite R. lia.
Qed.

Lemma round_not_zero (sx : bool) (m : positive) (e : Z) (l : location) :
  (-1074 <= e)%Z ->
  forall s, binary_round_aux F64.prec F64.emax sx (Zpos m) e l <> S754_zero s.
Proof.
  intros E s. unfold binary_round_aux.
  destruct (shr_fexp_pos m e l E) as [A A'].
  destruct (shr_fexp F64.prec F64.emax (Zpos m) e l) as [mrs' e']. cbn [fst snd] in A, A'.
  assert (P : (0 < round_nearest_even (shr_m mrs') (loc_of_shr_record mrs'))%Z).
  { destruct (loc_of_shr_record mrs') as [|[| |]]; cbn [round_nearest_even]; try lia.
    destruct (Z.even _); lia. }
  destruct (round_nearest_even _ _) as [|m2|m2]; try lia.
  destruct (shr_fexp_pos m2 e' loc_Exact A') as [B _].
  destruct (shr_fexp F64.prec F64.emax (Zpos m2) e' loc_Exact) as [mrs'' e''].
  cbn [fst] in B.
  destruct (shr_m mrs''); try lia.
  destruct (_ <=? _)%Z; discriminate.
Qed.

Lemma valid_emin (s : bool) (m : positive) (e : Z) :
  valid_binary F64.prec F64.emax (S754_finite s m e) = true ->
  (-1074 <= e)%Z
  /\ e = Z.max (Zpos (digits2_pos m) + e - 53) (-1074).
Proof.
  cbn [valid_binary]. unfold bounded, canonical_mantissa, fexp, emin.
  change (3 - F64.emax - F64.prec)%Z with (-1074)%Z. unfold F64.prec.
  intros H. apply andb_prop in H. destruct H as [H _]. apply Z.eqb_eq in H. lia.
Qed.

Lemma normalize_not_zero (z e : Z) (b : bool) :
  z <> 0%Z -> (-1074 <= e)%Z ->
  forall s, binary_normalize F64.prec F64.emax z e b <> S754_zero s.
Proof.
  intros Z E s.
  assert (R : forall sx m, binary_round F64.prec F64.emax sx m e <> S754_zero s).
  { intros sx m. unfold binary_round, shl_align.
    destruct (fexp F64.prec F64.emax (Zpos (digits2_pos m) + e) - e)%Z eqn:D;
      apply round_not_zero; try exact E.
    unfold fexp, emin in *. change (3 - F64.emax - F64.prec)%Z with (-1074)%Z in *. lia. }
  destruct z as [|p|p]; [contradiction | apply R | apply R].
Qed.

Lemma shl_align_digits (m : positive) (e ez : Z) :
  (ez <= e)%Z ->
  (Zpos (digits2_pos (fst (shl_align m e ez))) + ez = Zpos (digits2_pos m) + e)%Z.
Proof.
  intros L. unfold shl_align. destruct (ez - e)%Z as [|d|d] eqn:D; cbn [fst]; try lia.
  rewrite digits2_pos_shift. lia.
Qed.

Lemma SFcompare_refl (s : bool) (m : positive) (e : Z) :
  SFcompare (S754_finite s m e) (S754_finite s m e) = Some Eq.
Proof.
  cbn [SFcompare].
  change (Pos.compare_cont Eq m m) with (Pos.compare m m).
  rewrite Z.compare_refl, Pos.compare_refl. destruct s; reflexivity.
Qed.

Lemma sub_lt_not_zero (l h : F64.double) :
  valid_binary F64.prec F64.emax l = true ->
  valid_binary F64.prec F64.emax h = true ->
  F64.lt l h = true ->
  forall s, F64.sub h l <> S754_zero s.
Proof.
  intros Vl Vh L s. unfold F64.lt, SFltb in L.
  destruct h as [sh|sh| |sh mh eh], l as [sl|sl| |sl ml el];
    try discriminate L; try discriminate;
    try (destruct sh, sl; discriminate).
  unfold F64.sub, SFsub.
  destruct (valid_emin _ _ _ Vl) as [El Cl], (valid_emin _ _ _ Vh) as [Eh Ch].
  apply normalize_not_zero; [|lia].
  intros S.
  pose proof (shl_align_digits mh eh (Z.min eh el) ltac:(lia)) as Dh.
  pose proof (shl_align_digits ml el (Z.min eh el) ltac:(lia)) as Dl.
  assert (P : sh = sl /\ fst (shl_align mh eh (Z.min eh el))
                         = fst (shl_align ml el (Z.min eh el))).
  { destruct sh, sl; cbn [cond_Zopp] in S; try lia; split; try reflexivity;
      assert (X : Zpos (fst (shl_align mh eh (Z.min eh el)))
                  = Zpos (fst (shl_align ml el (Z.min eh el)))) by lia;
      injection X as X; exact X. }
  destruct P as [<- P]. rewrite P in Dh.
  assert (E : eh = el) by lia. subst el.
  rewrite Z.min_id in P. unfold shl_align in P. rewrite Z.sub_diag in P.
  cbn [fst] in P. subst ml.
  rewrite SFcompare_refl in L. discriminate L.
Qed.

Lemma sub_lt_finite (l h : F64.double) :
  valid_binary F64.prec F64.emax l = true ->
  valid_binary F64.prec F64.emax h = true ->
  F64.lt l h = true ->
  F64.is_finite (F64.sub h l) = true ->
  F64.is_finite l = true /\ F64.is_finite h = true
  /\ exists s m e, F64.sub h l = S754_finite s m e.
Proof.
  intros Vl Vh L F.
  pose proof (sub_lt_not_zero l h Vl Vh L) as Z.
  split; [|split].
  - destruct l as [sl|sl| |sl ml el]; try reflexivity;
      destruct h as [sh|sh| |sh mh eh]; try destruct sh; try destruct sl;
      vm_compute in F; try discriminate F; vm_compute in L; discriminate L.
  - destruct h as [sh|sh| |sh mh eh]; try reflexivity;
      destruct l as [sl|sl| |sl ml el]; try destruct sh; try destruct sl;
      vm_compute in F; try discriminate F; vm_compute in L; discriminate L.
  - destruct (F64.sub h l) as [s0|s0| |s0 m0 e0]; try discriminate F.
    + destruct (Z s0 eq_refl).
    + exists s0, m0, e0. reflexivity.
Qed.

(** ** RangePositioner: [calculate52WeekPosition] *)


Lemma compare_Eq_finite (s1 s2 : bool) (m1 m2 : positive) (e1 e2 : Z) :
  SFcompare (S754_finite s1 m1 e1) (S754_finite s2 m2 e2) = Some Eq ->
  s1 = s2 /\ m1 = m2 /\ e1 = e2.
Proof.
  cbn [SFcompare]. intros [= H].
  destruct s1, s2; try discriminate H;
    destruct (Z.compare_spec e1 e2) as [E|E|E]; try discriminate H; subst e2;
    destruct (Pos.compare_cont Eq m1 m2) eqn:C; try discriminate H;
    apply Pos.compare_eq in C; subst m2; repeat split.
Qed.

(** Numbers that are strictly equal have no finite difference other
    than zero. *)
Lemma strict_eq_sub (h l : F64.double) (s : bool) (m : positive) (e : Z) :
  F64.sub h l = S754_finite s m e -> F64.strict_eq h l = false.
Proof.
  intros D. unfold F64.strict_eq, SFeqb.
  destruct (SFcompare h l) as [[| |]|] eqn:C; try reflexivity.
  destruct h as [sh|sh| |sh mh eh], l as [sl|sl| |sl ml el]; try discriminate C;
    try (destruct sh, sl; discriminate D);
    try (destruct sh; discriminate C); try (destruct sl; discriminate C).
  apply compare_Eq_finite in C. destruct C as (-> & -> & ->).
  rewrite sub_diag in D. discriminate D.
Qed.

Lemma position_present (c l h : F64.double) :
  F64.strict_eq h l = false ->
  calculate52WeekPosition (Some c) (Some l) (Some h)
  = Spec.clamp (F64.mul (F64.div (F64.sub c l) (F64.sub h l)) (F64.of_Z 100))
      (S754_zero false) (S754_finite false 7036874417766400 (-46)).
Proof.
  intros E. unfold calculate52WeekPosition. rewrite E. apply max_min_clamp.
Qed.

(** A difference that is not infinite is finite, for numbers in order. *)
Lemma sub_lt_no_overflow (l h : F64.double) :
  valid_binary 53 1024 l = true -> valid_binary 53 1024 h = true ->
  SFltb l h = true ->
  (forall s, SFsub 53 1024 h l <> S754_infinity s) ->
  F64.is_finite l = true /\ F64.is_finite h = true
  /\ exists s m e, F64.sub h l = S754_finite s m e.
Proof.
  intros Vl Vh L I. apply sub_lt_finite; try assumption.
  assert (N : F64.is_nan (F64.sub h l) = false).
  { destruct h as [sh|sh| |sh mh eh], l as [sl|sl| |sl ml el];
      try discriminate L; try reflexivity;
      try (destruct sh, sl; try discriminate L; reflexivity).
    apply normalize_not_nan. }
  change (SFsub 53 1024 h l) with (F64.sub h l) in I.
  destruct (F64.sub h l) as [s|s| |s m e]; try reflexivity; try discriminate N.
  destruct (I s eq_refl).
Qed.

(** The position of 1e308 in the band from -1e308 to 1e308, its upper
    end: the two differences overflow, and their quotient is no number.
    The position of 7 in the band from 0 to 25 is not 28, the value of
    the expression on real numbers, but the next number above it. *)
Lemma calculate52WeekPosition_overflow_cex :
  let low := S754_finite true 5010420900022432 971 in
  let high := S754_finite false 5010420900022432 971 in
  (low = F64.of_Z (- 10 ^ 308) /\ high = F64.of_Z (10 ^ 308)
   /\ valid_binary 53 1024 low = true /\ valid_binary 53 1024 high = true
   /\ SFltb low high = true
   /\ calculate52WeekPosition (Some high) (Some low) (Some high) = S754_nan
   /\ SFleb (S754_zero false)
        (calculate52WeekPosition (Some high) (Some low) (Some high)) = false
   /\ SFleb (calculate52WeekPosition (Some high) (Some low) (Some high))
        (F64.of_Z 100) = false
   /\ calculate52WeekPosition (Some high) (Some low) (Some high) <> F64.of_Z 100)
  /\ (calculate52WeekPosition (Some (F64.of_Z 7)) (Some F64.zero) (Some (F64.of_Z 25))
      = S754_finite false 7881299347898369 (-48)
      /\ F64.to_Q (calculate52WeekPosition (Some (F64.of_Z 7)) (Some F64.zero)
                     (Some (F64.of_Z 25)))
         == 28 + (1 # 281474976710656)
      /\ ((7 - 0) / (25 - 0)) * 100 == 28).
Proof.
  vm_compute. repeat split; try reflexivity; discriminate.
Qed.

(** C2, amended. [calculate52WeekPosition] is 0 when one of its arguments
    is absent, or when [high] equals [low]; for present arguments with
    [high <> low] it is [clamp(p, 0, 100)] for the binary64 number
    [p = ((current - low) / (high - low)) * 100], each operation
    rounded: it lies between 0 and 100 unless [p] is NaN, and then it
    is NaN.  For [low < high] whose difference [high - low] does not
    overflow, the position of every [current] that is a number lies
    between 0 and 100, the position of [low] is 0 and the position of
    [high] is 100. *)
Theorem calculate52WeekPosition_clamp (current low high : option spec_float) :
  let zero := S754_zero false in
  let hundred := S754_finite false 7036874417766400 (-46) in
  (current = None \/ low = None \/ high = None ->
   calculate52WeekPosition current low high = zero)
  /\ (forall c l h : spec_float,
        current = Some c -> low = Some l -> high = Some h ->
        let p :=
          SFmul 53 1024 (SFdiv 53 1024 (SFsub 53 1024 c l) (SFsub 53 1024 h l))
            hundred in
        (SFeqb h l = true -> calculate52WeekPosition current low high = zero)
        /\ (SFeqb h l = false ->
            calculate52WeekPosition current low high = Spec.clamp p zero hundred
            /\ (p = S754_nan -> calculate52WeekPosition current low high = S754_nan)
            /\ (p <> S754_nan ->
                SFleb zero (calculate52WeekPosition current low high) = true
                /\ SFleb (calculate52WeekPosition current low high) hundred = true))
        /\ (valid_binary 53 1024 l = true -> valid_binary 53 1024 h = true ->
            SFltb l h = true ->
            (forall s, SFsub 53 1024 h l <> S754_infinity s) ->
            (c <> S754_nan ->
             SFleb zero (calculate52WeekPosition current low high) = true
             /\ SFleb (calculate52WeekPosition current low high) hundred = true)
            /\ calculate52WeekPosition low low high = zero
            /\ calculate52WeekPosition high low high = hundred)).
Proof.
  intros zero hundred. subst zero hundred. split.
  - intros H. unfold calculate52WeekPosition.
    destruct current, low, high; try reflexivity.
    destruct H as [H | [H | H]]; discriminate H.
  - intros c l h -> -> -> p. split; [|split].
    + intros E. unfold calculate52WeekPosition, F64.strict_eq. rewrite E. reflexivity.
    + intros E. rewrite (position_present _ _ _ E).
      change (F64.mul (F64.div (F64.sub c l) (F64.sub h l)) (F64.of_Z 100)) with p.
      split; [reflexivity | split].
      * intros ->. reflexivity.
      * intros N. apply clamp_range. destruct p; [reflexivity .. | contradiction | reflexivity].
    + intros Vl Vh L I.
      destruct (sub_lt_no_overflow l h Vl Vh L I) as (Fl & Fh & s & m & e & D).
      pose proof (strict_eq_sub _ _ _ _ _ D) as E. split; [|split].
      * intros N. rewrite (position_present _ _ _ E). apply clamp_range.
        rewrite D.
        change (F64.of_Z 100) with (S754_finite false 7036874417766400 (-46)).
        apply mul_not_nan, div_not_nan, sub_not_nan; [|exact Fl].
        destruct c; [reflexivity .. | contradiction | reflexivity].
      * rewrite (position_present _ _ _ E), D.
        destruct l as [sl|sl| |sl ml el]; try discriminate Fl.
        -- destruct sl; reflexivity.
        -- rewrite sub_diag. reflexivity.
      * rewrite (position_present _ _ _ E), D, div_diag. reflexivity.
Qed.

(** A price of 150 in the band from 100 to 200 stands at 50. *)
Lemma calculate52WeekPosition_clamp_witness :
  calculate52WeekPosition (Some (F64.of_Z 150)) (Some (F64.of_Z 100))
    (Some (F64.of_Z 200)) = F64.of_Z 50
  /\ calculate52WeekPosition (Some (F64.of_Z 100)) (Some (F64.of_Z 100))
       (Some (F64.of_Z 200)) = F64.zero
  /\ calculate52WeekPosition (Some (F64.of_Z 200)) (Some (F64.of_Z 100))
       (Some (F64.of_Z 200)) = F64.of_Z 100.
Proof.
  pose proof (proj2 (calculate52WeekPosition_clamp (Some (F64.of_Z 150))
                       (Some (F64.of_Z 100)) (Some (F64.of_Z 200)))
                (F64.of_Z 150) (F64.of_Z 100) (F64.of_Z 200)
                eq_refl eq_refl eq_refl) as H.
  destruct H as (_ & H1 & H2).
  split.
  - rewrite (proj1 (H1 eq_refl)). reflexivity.
  - apply (proj2 (H2 eq_refl eq_refl eq_refl ltac:(intros s; discriminate))).
Defined.

(** ** Blank strings and [trim] *)

Lemma string_app_assoc (a b c : string) : (a ++ b) ++ c = a ++ (b ++ c).
Proof. induction a as [|x a IH]; simpl; [reflexivity | rewrite IH; reflexivity]. Qed.

Lemma string_app_nil_r (a : string) : a ++ "" = a.
Proof. induction a as [|x a IH]; simpl; [reflexivity | rewrite IH; reflexivity]. Qed.

Lemma blank_app (a b : string) : Spec.blank a -> Spec.blank b -> Spec.blank (a ++ b).
Proof.
  induction 1 as [|w s I B IH]; intros Hb; [exact Hb|].
  rewrite string_app_assoc. apply Spec.blank_space; [exact I | apply IH, Hb].
Qed.

Lemma blank_one (w : string) : In w Spec.white_space -> Spec.blank w.
Proof.
  intros I. rewrite <- (string_app_nil_r w).
  apply Spec.blank_space; [exact I | apply Spec.blank_empty].
Qed.

Ltac in_list := cbv; repeat first [left; reflexivity | right].

Lemma byte_is_eq (c : ascii) (n : nat) : JS.byte_is c n = true -> c = ascii_of_nat n.
Proof.
  unfold JS.byte_is. intros H. apply Nat.eqb_eq in H.
  rewrite <- H, ascii_nat_embedding. reflexivity.
Qed.

Lemma ws1_white (c : ascii) :
  JS.ws1 c = true -> In (String c "") Spec.white_space.
Proof.
  destruct c as [[] [] [] [] [] [] [] []]; intros H;
    try discriminate H; in_list.
Qed.

Lemma ws2_white (c1 c2 : ascii) :
  JS.ws2 c1 c2 = true -> In (String c1 (String c2 "")) Spec.white_space.
Proof.
  unfold JS.ws2. intros H. apply andb_prop in H. destruct H as [H1 H2].
  apply byte_is_eq in H1, H2. subst. in_list.
Qed.

Lemma ws3_white (c1 c2 c3 : ascii) :
  JS.ws3 c1 c2 c3 = true ->
  In (String c1 (String c2 (String c3 ""))) Spec.white_space.
Proof.
  unfold JS.ws3. intros H.
  repeat match type of H with
         | (_ || _)%bool = true => apply orb_prop in H; destruct H as [H | H]
         end;
    repeat match goal with
           | X : (_ && _)%bool = true |- _ =>
               apply andb_prop in X; let A := fresh in destruct X as [A X]
           end;
    repeat match goal with
           | X : JS.byte_is _ _ = true |- _ => apply byte_is_eq in X; subst
           end;
    try (in_list; fail).
  destruct c3 as [[] [] [] [] [] [] [] []];
    try discriminate H; in_list.
Qed.

Lemma rev_string_cons (c : ascii) (r : string) :
  JS.rev_string (String c r) = JS.rev_string r ++ String c "".
Proof.
  unfold JS.rev_string. cbn [list_ascii_of_string rev].
  induction (rev (list_ascii_of_string r)) as [|x l IH]; simpl; [reflexivity|].
  rewrite IH. reflexivity.
Qed.

Lemma rev_string_involutive (s : string) : JS.rev_string (JS.rev_string s) = s.
Proof.
  unfold JS.rev_string.
  rewrite list_ascii_of_string_of_list_ascii, rev_involutive.
  apply string_of_list_ascii_of_string.
Qed.

Lemma rev_string_empty (s : string) : JS.rev_string s = "" -> s = "".
Proof.
  intros H. rewrite <- (rev_string_involutive s), H. reflexivity.
Qed.

Lemma strip_back_blank (n : nat) :
  forall r, (String.length r <= n)%nat ->
            JS.strip true r = "" -> Spec.blank (JS.rev_string r).
Proof.
  induction n as [n IH] using (well_founded_induction lt_wf).
  intros r L H. destruct r as [|c1 r1]; [apply Spec.blank_empty|].
  cbn [JS.strip] in H. cbn [String.length] in L.
  destruct (JS.ws1 c1) eqn:W1.
  { rewrite rev_string_cons. apply blank_app.
    - apply (IH (String.length r1)); [lia | lia | exact H].
    - apply blank_one, ws1_white, W1. }
  destruct r1 as [|c2 r2]; [discriminate H|]. cbn [String.length] in L.
  destruct (JS.ws2 c2 c1) eqn:W2.
  { rewrite !rev_string_cons, string_app_assoc. apply blank_app.
    - apply (IH (String.length r2)); [lia | lia | exact H].
    - apply blank_one. apply (ws2_white c2 c1 W2). }
  destruct r2 as [|c3 r3]; [discriminate H|]. cbn [String.length] in L.
  destruct (JS.ws3 c3 c2 c1) eqn:W3; [|discriminate H].
  rewrite !rev_string_cons, !string_app_assoc. apply blank_app.
  - apply (IH (String.length r3)); [lia | lia | exact H].
  - apply blank_one. apply (ws3_white c3 c2 c1 W3).
Qed.

Lemma strip_front_prefix (n : nat) :
  forall s, (String.length s <= n)%nat ->
            exists pfx, Spec.blank pfx /\ s = pfx ++ JS.strip false s.
Proof.
  induction n as [n IH] using (well_founded_induction lt_wf).
  intros s L.
  assert (Stop : exists pfx, Spec.blank pfx /\ s = pfx ++ s).
  { exists "". split; [apply Spec.blank_empty | reflexivity]. }
  destruct s as [|c1 r1]; [exact Stop|].
  cbn [JS.strip]. cbn [String.length] in L.
  destruct (JS.ws1 c1) eqn:W1.
  { destruct (IH (String.length r1) ltac:(lia) r1 ltac:(lia)) as (p & B & E).
    exists (String c1 "" ++ p). split.
    - apply blank_app; [apply blank_one, ws1_white, W1 | exact B].
    - cbn [append]. rewrite <- E. reflexivity. }
  destruct r1 as [|c2 r2]; [exact Stop|]. cbn [String.length] in L.
  destruct (JS.ws2 c1 c2) eqn:W2.
  { destruct (IH (String.length r2) ltac:(lia) r2 ltac:(lia)) as (p & B & E).
    exists (String c1 (String c2 "") ++ p). split.
    - apply blank_app; [apply blank_one, ws2_white, W2 | exact B].
    - cbn [append]. rewrite <- E. reflexivity. }
  destruct r2 as [|c3 r3]; [exact Stop|]. cbn [String.length] in L.
  destruct (JS.ws3 c1 c2 c3) eqn:W3; [|exact Stop].
  destruct (IH (String.length r3) ltac:(lia) r3 ltac:(lia)) as (p & B & E).
  exists (String c1 (String c2 (String c3 "")) ++ p). split.
  - apply blank_app; [apply blank_one, ws3_white, W3 | exact B].
  - cbn [append]. rewrite <- E. reflexivity.
Qed.

Lemma strip_front_white (w s : string) :
  In w Spec.white_space -> JS.strip false (w ++ s) = JS.strip false s.
Proof.
  intros I. cbv [Spec.white_space Spec.bytes map string_of_list_ascii ascii_of_nat
                 ascii_of_pos ascii_of_N Pos.of_nat Pos.of_succ_nat Pos.succ
                 N.of_nat] in I.
  cbn [In] in I.
  repeat (destruct I as [<- | I]; [reflexivity|]). destruct I.
Qed.

(** [trim] leaves nothing of a string exactly when the string is
    blank. *)
Lemma trim_blank (s : string) : JS.trim s = "" <-> Spec.blank s.
Proof.
  split.
  - unfold JS.trim. intros H. apply rev_string_empty in H.
    destruct (strip_front_prefix _ s (le_n _)) as (p & B & E).
    rewrite E. apply blank_app; [exact B|].
    rewrite <- (rev_string_involutive (JS.strip false s)).
    apply (strip_back_blank _ _ (le_n _)), H.
  - intros B.
    assert (F : JS.strip false s = "").
    { induction B as [|w s I B IH]; [reflexivity|].
      rewrite strip_front_white by exact I. exact IH. }
    unfold JS.trim. rewrite F. reflexivity.
Qed.

(** ** StrategyScorer: [validateFormula] *)

Import Strategies.

(** Writes the binary64 operations and literals of the goal as
    [SpecFloat] has them. *)
Ltac b64 :=
  change (F64.dec 1 2) with (S754_finite false 5764607523034235 (-59)) in *;
  change (F64.of_Z 1) with (S754_finite false 4503599627370496 (-52)) in *;
  unfold F64.gt, F64.lt, F64.le, F64.strict_eq, F64.Math_abs, F64.add, F64.sub,
    F64.zero, F64.NaN, F64.prec, F64.emax in *.

Lemma empty_true_iff (s : string) : JS.empty s = true <-> s = "".
Proof. apply String.eqb_eq. Qed.

Lemma empty_false_iff (s : string) : JS.empty s = false <-> s <> "".
Proof. apply String.eqb_neq. Qed.

Lemma not_blank (s : string) : JS.trim s <> "" -> ~ Spec.blank s.
Proof. intros N B. apply N, trim_blank, B. Qed.

(** The total, as a sum of the weights from left to right. *)
Lemma totalWeight_fold (f : list FormulaCriteria) :
  totalWeight f = fold_left (SFadd 53 1024) (map weight f) (S754_zero false).
Proof.
  unfold totalWeight. b64. generalize (S754_zero false).
  induction f as [|item rest IH]; intros a; [reflexivity | apply IH].
Qed.

(** A weight passes the two tests of the loop when it is between 0 and
    1, and when it is no number. *)
Lemma weight_tests (w : spec_float) :
  SFltb w (S754_zero false) = false
  /\ SFltb (S754_finite false 4503599627370496 (-52)) w = false
  <-> w = S754_nan
      \/ (SFleb (S754_zero false) w = true
          /\ SFleb w (S754_finite false 4503599627370496 (-52)) = true).
Proof.
  unfold SFltb, SFleb.
  rewrite (SFcompare_antisym w (S754_zero false)),
    (SFcompare_antisym w (S754_finite false 4503599627370496 (-52))).
  destruct (SFcompare w (S754_zero false)) as [[| |]|] eqn:C0;
    destruct (SFcompare w (S754_finite false _ _)) as [[| |]|] eqn:C1;
    cbn [option_map CompOpp];
    destruct w as [s|s| |s m e]; try discriminate C0; try discriminate C1;
    intuition congruence.
Qed.

(** The loop lets a formula through exactly when each criterion has a
    name that is not blank and a weight that passes the two tests. *)
Lemma checkItems_None (f : list FormulaCriteria) :
  checkItems f = None <->
  forall item, In item f ->
    ~ Spec.blank (criteria_name item)
    /\ SFltb (weight item) (S754_zero false) = false
    /\ SFltb (S754_finite false 4503599627370496 (-52)) (weight item) = false.
Proof.
  induction f as [|x rest IH]; cbn [checkItems In].
  - split; [intros _ item [] | reflexivity].
  - b64. destruct (JS.empty (JS.trim (criteria_name x))) eqn:E.
    + split; [discriminate|].
      intros H. apply empty_true_iff, trim_blank in E.
      destruct (H x (or_introl eq_refl)) as [N _]. contradiction.
    + apply empty_false_iff in E. apply not_blank in E.
      destruct (SFltb (weight x) (S754_zero false)) eqn:L; cbn [orb].
      * split; [discriminate|]. intros H.
        destruct (H x (or_introl eq_refl)) as (_ & W & _). congruence.
      * destruct (SFltb (S754_finite false _ _) (weight x)) eqn:G.
        -- split; [discriminate|]. intros H.
           destruct (H x (or_introl eq_refl)) as (_ & _ & W). congruence.
        -- rewrite IH. split.
           ++ intros H item [<- | I]; [repeat split; assumption | apply H, I].
           ++ intros H item I. apply H. right. exact I.
Qed.

(** The message of the loop is that of the first criterion at fault,
    on its name when it is blank, on its weight otherwise. *)
Lemma checkItems_first (f : list FormulaCriteria) (msg : string) :
  checkItems f = Some msg ->
  exists pre bad post,
    f = (pre ++ bad :: post)%list
    /\ (forall x, In x pre ->
          ~ Spec.blank (criteria_name x)
          /\ SFltb (weight x) (S754_zero false) = false
          /\ SFltb (S754_finite false 4503599627370496 (-52)) (weight x) = false)
    /\ ((Spec.blank (criteria_name bad) /\ msg = "All criteria must have a name")
        \/ (~ Spec.blank (criteria_name bad)
            /\ (SFltb (weight bad) (S754_zero false) = true
                \/ SFltb (S754_finite false 4503599627370496 (-52)) (weight bad) = true)
            /\ msg = "Each weight must be between 0 and 1")).
Proof.
  induction f as [|x rest IH]; cbn [checkItems]; [discriminate|]. b64.
  destruct (JS.empty (JS.trim (criteria_name x))) eqn:E.
  - intros [= <-]. apply empty_true_iff, trim_blank in E.
    exists [], x, rest. split; [reflexivity|]. split; [intros y []|].
    left. split; [exact E | reflexivity].
  - apply empty_false_iff in E. apply not_blank in E.
    destruct (SFltb (weight x) (S754_zero false)) eqn:L; cbn [orb].
    + intros [= <-]. exists [], x, rest. split; [reflexivity|].
      split; [intros y []|]. right. repeat split; auto.
    + destruct (SFltb (S754_finite false _ _) (weight x)) eqn:G.
      * intros [= <-]. exists [], x, rest. split; [reflexivity|].
        split; [intros y []|]. right. repeat split; auto.
      * intros H. destruct (IH H) as (pre & bad & post & -> & P & B).
        exists (x :: pre), bad, post. split; [reflexivity|]. split; [|exact B].
        intros y [<- | I]; [repeat split; assumption | apply P, I].
Qed.

(** [validateFormula], test by test. *)
Lemma validateFormula_cases (toStr : Q -> string) (st : State) :
  validateFormula toStr st
  = if SFltb (S754_finite false 5764607523034235 (-59))
         (SFabs (SFsub 53 1024 (totalWeight (formula (formData st)))
                   (S754_finite false 4503599627370496 (-52))))
    then (false,
          mkState (formData st)
            ("Total weight must equal 1.0 (currently "
             ++ F64.toFixed2 toStr (totalWeight (formula (formData st))) ++ ")"))
    else match checkItems (formula (formData st)) with
         | Some msg => (false, mkState (formData st) msg)
         | None => (true, st)
         end.
Proof. reflexivity. Qed.

(** Three criteria of weight 0.33 have names, weights between 0 and 1
    and a sum, 0.99 and a little more, within 0.01 of 1.0; the code adds
    them to a little less than 0.99 and rejects the formula.  A weight
    that is no number passes every test. *)
Lemma validateFormula_rounding_cex :
  let w := S754_finite false 5944751508129055 (-54) in
  let f := [mkCriteria "pe_ratio" w; mkCriteria "pegy_index" w;
            mkCriteria "peg_index" w] in
  (w = F64.dec 33 2
   /\ (forall item, In item f ->
         JS.trim (criteria_name item) <> ""
         /\ SFleb (S754_zero false) (weight item) = true
         /\ SFleb (weight item) (F64.of_Z 1) = true)
   /\ Spec.sum_weights f == 3 * (5944751508129055 # 18014398509481984)
   /\ Qabs (Spec.sum_weights f - 1) <= 1 # 100
   /\ Qabs (Spec.sum_weights f - 1) <= F64.to_Q (F64.dec 1 2)
   /\ validateFormula JS.toString_1e21 (form f)
      = (false,
         mkState (formData (form f)) "Total weight must equal 1.0 (currently 0.99)"))
  /\ (SFleb (S754_zero false) S754_nan = false
      /\ validateFormula JS.toString_1e21 (form [mkCriteria "pe_ratio" S754_nan])
         = (true, form [mkCriteria "pe_ratio" S754_nan])).
Proof.
  split; [split; [|split; [|split; [|split; [|split]]]]|split].
  - vm_compute. reflexivity.
  - intros item [<- | [<- | [<- | []]]]; repeat split; discriminate.
  - vm_compute. reflexivity.
  - vm_compute. discriminate.
  - vm_compute. discriminate.
  - vm_compute. reflexivity.
  - reflexivity.
  - vm_compute. reflexivity.
Qed.

(** C3, amended. [validateFormula] succeeds if and only if each criterion
    of the formula has a name that is not blank and a weight that is
    between 0 and 1 or no number, and the total of the weights, added
    from left to right in binary64, is not more than 0.01 away from
    1.0, the difference and the comparison being those of binary64
    (which a total that is no number passes).  It leaves the form data
    as they are, the whole state when it succeeds, and sets one of
    three messages when it fails.  The formula pe_ratio 0.6, pegy_index
    0.4 passes, the formula pe_ratio 0.5, pegy_index 0.6 fails on the
    sum of its weights, and the formula of one criterion without a name
    and of weight 1.0 fails on the name. *)
Theorem validateFormula_iff (toStr : Q -> string) :
  let zero := S754_zero false in
  let one := S754_finite false 4503599627370496 (-52) in
  let tolerance := S754_finite false 5764607523034235 (-59) in
  (forall st : State,
     let total := fold_left (SFadd 53 1024) (map weight (formula (formData st))) zero in
     (fst (validateFormula toStr st) = true <->
      (forall item, In item (formula (formData st)) ->
         ~ Spec.blank (criteria_name item)
         /\ (weight item = S754_nan
             \/ (SFleb zero (weight item) = true /\ SFleb (weight item) one = true)))
      /\ SFltb tolerance (SFabs (SFsub 53 1024 total one)) = false)
     /\ (fst (validateFormula toStr st) = true -> snd (validateFormula toStr st) = st)
     /\ formData (snd (validateFormula toStr st)) = formData st
     /\ (fst (validateFormula toStr st) = false ->
         error (snd (validateFormula toStr st)) = "All criteria must have a name"
         \/ error (snd (validateFormula toStr st))
            = "Each weight must be between 0 and 1"
         \/ error (snd (validateFormula toStr st))
            = "Total weight must equal 1.0 (currently "
              ++ F64.toFixed2 toStr total ++ ")"))
  /\ validateFormula toStr
       (form [mkCriteria "pe_ratio" (F64.dec 6 1); mkCriteria "pegy_index" (F64.dec 4 1)])
     = (true,
        form [mkCriteria "pe_ratio" (F64.dec 6 1); mkCriteria "pegy_index" (F64.dec 4 1)])
  /\ validateFormula toStr
       (form [mkCriteria "pe_ratio" (F64.dec 5 1); mkCriteria "pegy_index" (F64.dec 6 1)])
     = (false,
        mkState
          (mkStrategyCreate "" "" BUY
             [mkCriteria "pe_ratio" (F64.dec 5 1); mkCriteria "pegy_index" (F64.dec 6 1)])
          "Total weight must equal 1.0 (currently 1.10)")
  /\ validateFormula toStr (form [mkCriteria "" one])
     = (false,
        mkState (mkStrategyCreate "" "" BUY [mkCriteria "" one])
          "All criteria must have a name").
Proof.
  intros zero one tolerance. subst zero one tolerance.
  split; [|repeat split; vm_compute; reflexivity].
  intros st total. subst total.
  rewrite validateFormula_cases, <- totalWeight_fold.
  destruct (SFltb _ (SFabs _)) eqn:G.
  - cbn [fst snd error formData]. split; [|split; [|split]].
    + split; [discriminate | intros [_ H]; discriminate H].
    + discriminate.
    + reflexivity.
    + intros _. right. right. reflexivity.
  - destruct (checkItems _) as [msg|] eqn:C; cbn [fst snd error formData].
    + split; [|split; [|split]].
      * split; [discriminate|]. intros [I _].
        assert (N : checkItems (formula (formData st)) = None).
        { apply checkItems_None. intros item H. destruct (I item H) as [B W].
          apply weight_tests in W. tauto. }
        congruence.
      * discriminate.
      * reflexivity.
      * intros _. destruct (checkItems_first _ _ C) as (pre & bad & post & _ & _ & B).
        destruct B as [[_ ->] | (_ & _ & ->)]; [left | right; left]; reflexivity.
    + split; [|split; [|split]].
      * split; [|reflexivity]. intros _. split; [|reflexivity].
        intros item H. destruct (proj1 (checkItems_None _) C item H) as (B & W).
        split; [exact B | apply weight_tests, W].
      * reflexivity.
      * reflexivity.
      * discriminate.
Qed.

(** The formula pe_ratio 0.6, pegy_index 0.4 passes, and is left as it
    is. *)
Lemma validateFormula_iff_witness :
  snd (validateFormula JS.toString_1e21
         (form [mkCriteria "pe_ratio" (F64.dec 6 1);
                mkCriteria "pegy_index" (F64.dec 4 1)]))
  = form [mkCriteria "pe_ratio" (F64.dec 6 1); mkCriteria "pegy_index" (F64.dec 4 1)].
Proof.
  apply (proj1 (proj2 (proj1 (validateFormula_iff JS.toString_1e21)
                         (form [mkCriteria "pe_ratio" (F64.dec 6 1);
                                mkCriteria "pegy_index" (F64.dec 4 1)])))).
  reflexivity.
Defined.

(** A formula of one criterion of weight 1.5: the weight is above 1, and
    the message is the one on the total, not the one on the weight. *)
Lemma validateFormula_weight_message_cex :
  let st := form [mkCriteria "pe_ratio" (S754_finite false 6755399441055744 (-52))] in
  S754_finite false 6755399441055744 (-52) = F64.dec 15 1
  /\ (exists item, In item (formula (formData st))
                   /\ SFltb (F64.of_Z 1) (weight item) = true)
  /\ validateFormula JS.toString_1e21 st
     = (false,
        mkState (formData st) "Total weight must equal 1.0 (currently 1.50)")
  /\ error (snd (validateFormula JS.toString_1e21 st))
     <> "Each weight must be between 0 and 1".
Proof.
  split; [|split; [|split]].
  - vm_compute. reflexivity.
  - eexists. split; [left; reflexivity | reflexivity].
  - vm_compute. reflexivity.
  - vm_compute. discriminate.
Qed.

(** C8, amended. A formula with a weight below 0 or above 1 is always
    rejected, but not always for that weight: the total is tested first
    and, when it is more than 0.01 away from 1.0, the message is the one
    on the total; otherwise the message is the one of the first
    criterion at fault in the order of the formula, on its name when
    the name is blank and on its weight otherwise, so that it is the one
    on the weights when every criterion has a name.  No message names
    the criterion or the weight at fault. *)
Theorem validateFormula_rejects_weight (toStr : Q -> string) (st : State) :
  let zero := S754_zero false in
  let one := S754_finite false 4503599627370496 (-52) in
  let tolerance := S754_finite false 5764607523034235 (-59) in
  (exists item, In item (formula (formData st))
                /\ (SFltb (weight item) zero = true \/ SFltb one (weight item) = true)) ->
  let r := validateFormula toStr st in
  let total := fold_left (SFadd 53 1024) (map weight (formula (formData st))) zero in
  let far := SFltb tolerance (SFabs (SFsub 53 1024 total one)) in
  fst r = false
  /\ formData (snd r) = formData st
  /\ (far = true ->
      error (snd r)
      = "Total weight must equal 1.0 (currently " ++ F64.toFixed2 toStr total ++ ")")
  /\ (far = false ->
      exists pre bad post,
        formula (formData st) = (pre ++ bad :: post)%list
        /\ (forall x, In x pre ->
              ~ Spec.blank (criteria_name x)
              /\ SFltb (weight x) zero = false /\ SFltb one (weight x) = false)
        /\ ((Spec.blank (criteria_name bad)
             /\ error (snd r) = "All criteria must have a name")
            \/ (~ Spec.blank (criteria_name bad)
                /\ (SFltb (weight bad) zero = true \/ SFltb one (weight bad) = true)
                /\ error (snd r) = "Each weight must be between 0 and 1")))
  /\ (far = false ->
      (forall item, In item (formula (formData st)) ->
         ~ Spec.blank (criteria_name item)) ->
      error (snd r) = "Each weight must be between 0 and 1").
Proof.
  intros zero one tolerance [bad [I W]] r total far.
  subst r total far zero one tolerance.
  rewrite validateFormula_cases, <- totalWeight_fold.
  assert (C : checkItems (formula (formData st)) <> None).
  { intros C. destruct (proj1 (checkItems_None _) C bad I) as (_ & L & G).
    destruct W as [W | W]; congruence. }
  destruct (SFltb _ (SFabs _)) eqn:G; cbn [fst snd error formData].
  - repeat split; try reflexivity; discriminate.
  - destruct (checkItems _) as [msg|] eqn:M; [|contradiction]. cbn [fst snd error formData].
    split; [reflexivity|]. split; [reflexivity|]. split; [discriminate|].
    destruct (checkItems_first _ _ M) as (pre & b & post & E & P & B).
    split.
    + intros _. exists pre, b, post. split; [exact E|]. split; [exact P | exact B].
    + intros _ N. destruct B as [[B _] | (_ & _ & ->)]; [|reflexivity].
      exfalso. apply (N b); [|exact B]. rewrite E. apply in_or_app. right. left. reflexivity.
Qed.

(** The weights 1.5 and -0.5 sum to 1.0: the message is on the weights. *)
Lemma validateFormula_rejects_weight_witness :
  error (snd (validateFormula JS.toString_1e21
                (form [mkCriteria "pe_ratio" (F64.dec 15 1);
                       mkCriteria "pegy_index" (F64.dec (-5) 1)])))
  = "Each weight must be between 0 and 1".
Proof.
  apply (validateFormula_rejects_weight JS.toString_1e21
           (form [mkCriteria "pe_ratio" (F64.dec 15 1);
                  mkCriteria "pegy_index" (F64.dec (-5) 1)])).
  - exists (mkCriteria "pe_ratio" (F64.dec 15 1)).
    split; [left; reflexivity | right; reflexivity].
  - reflexivity.
  - intros item [<- | [<- | []]]; apply not_blank; discriminate.
Defined.

(** ** PortfolioAggregator: [calculateFilteredSummary] *)

Import Holdings.

Lemma total_app (field : HoldingDetail -> Q) (l1 l2 : list HoldingDetail) :
  Spec.total field (l1 ++ l2) == Spec.total field l1 + Spec.total field l2.
Proof.
  induction l1 as [|h rest IH]; simpl; [ring | rewrite IH; ring].
Qed.

(** The [forEach] of a class adds the sums of its two fields. *)
Lemma forEach_totals (hs : list HoldingDetail) (inv cur : Q) :
  exists inv' cur',
    fold_left addHolding hs (inv, cur) = (inv', cur')
    /\ inv' == inv + Spec.total invested_value hs
    /\ cur' == cur + Spec.total current_value hs.
Proof.
  revert inv cur. induction hs as [|h rest IH]; intros inv cur; simpl.
  - exists inv, cur. repeat split; ring.
  - destruct (IH (inv + invested_value h) (cur + current_value h))
      as (inv' & cur' & E & I & C).
    exists inv', cur'. split; [exact E|]. rewrite I, C. split; ring.
Qed.

(** One block of the summary adds its class when the class is selected,
    and nothing otherwise. *)
Lemma addClass_totals (sel : list string) (key : string)
    (hs : list HoldingDetail) (acc : Q * Q * nat) :
  let chosen := if includes sel key then hs else [] in
  let r := addClass sel key hs acc in
  fst (fst r) == fst (fst acc) + Spec.total invested_value chosen
  /\ snd (fst r) == snd (fst acc) + Spec.total current_value chosen
  /\ snd r = (snd acc + length chosen)%nat.
Proof.
  destruct acc as [[inv cur] cnt].
  unfold addClass. destruct (includes sel key); cbv zeta.
  - destruct (forEach_totals hs inv cur) as (inv' & cur' & E & I & C).
    simpl. rewrite E. simpl. repeat split; assumption.
  - simpl. rewrite Nat.add_0_r. repeat split; ring.
Qed.



(** ** FreshnessClassifier: [getDaysAgo] *)

Lemma TimeClip_Int (t u : Z) :
  JS.TimeClip t = JS.Int u <-> (Z.abs t <= 8640000000000000)%Z /\ u = t.
Proof.
  unfold JS.TimeClip. destruct (Z.ltb_spec 8640000000000000 (Z.abs t)).
  - split; [discriminate | lia].
  - split; [intros [= <-]; split; [assumption | reflexivity] | intros [_ ->]; reflexivity].
Qed.

Lemma TimeClip_small (x : Z) :
  (Z.abs x <= 8640000000000000)%Z -> JS.TimeClip x = JS.Int x.
Proof. intros H. apply TimeClip_Int. split; [exact H | reflexivity]. Qed.

(** The start of the local day, when local time is UTC plus [off]. *)
Lemma setHours0_fixed (env : JS.Env) (off t : Z) :
  (forall u b, JS.LocalTZA env u b = off) ->
  (Z.abs off <= 86400000)%Z -> (Z.abs t <= 8000000000000000)%Z ->
  JS.setHours0 env (JS.Int t) = JS.Int (((t + off) / 86400000) * 86400000 - off).
Proof.
  intros TZ O T. unfold JS.setHours0, JS.msPerDay. rewrite !TZ.
  apply TimeClip_small.
  pose proof (Z.div_mod (t + off) 86400000 ltac:(lia)).
  pose proof (Z.mod_pos_bound (t + off) 86400000 ltac:(lia)).
  lia.
Qed.

(** The number of days between two local midnights is the difference of
    the numbers of the two local days. *)
Lemma midnights_days (off a b : Z) :
  ((((a + off) / 86400000 * 86400000 - off)
    - ((b + off) / 86400000 * 86400000 - off)) / 86400000
   = (a + off) / 86400000 - (b + off) / 86400000)%Z.
Proof.
  set (x := ((a + off) / 86400000)%Z). set (y := ((b + off) / 86400000)%Z).
  replace (x * 86400000 - off - (y * 86400000 - off))%Z
    with ((x - y) * 86400000)%Z by ring.
  apply Z.div_mul. discriminate.
Qed.

Lemma diffDays_fixed (env : JS.Env) (off t : Z) (date : string) :
  (forall u b, JS.LocalTZA env u b = off) ->
  (Z.abs off <= 86400000)%Z ->
  (Z.abs (JS.clock env) <= 8000000000000000)%Z ->
  JS.Date_parse env date = JS.Int t -> (Z.abs t <= 8000000000000000)%Z ->
  diffDays env date
  = JS.Int ((JS.clock env + off) / 86400000 - (t + off) / 86400000).
Proof.
  intros TZ O C P T. unfold diffDays. rewrite P.
  rewrite (setHours0_fixed env off t TZ O T), (setHours0_fixed env off _ TZ O C).
  cbn [JS.isub JS.floor_div]. f_equal.
  change (1000 * 60 * 60 * 24)%Z with 86400000%Z.
  apply midnights_days.
Qed.

(** C7. [getDaysAgo] answers the empty label for an absent date; for a
    date that is present its label follows the day count between the
    two local midnights: "Today" at 0, "1 day ago" at 1, "Future date"
    below 0, and the count followed by " days ago" otherwise.  Where
    local time is UTC plus a fixed offset, the two midnights are written
    out: the count is the whole number of days between the start of
    the local day of the clock and the start of the local day of the
    date.  It is a total function: it answers on every input. *)
Theorem getDaysAgo_labels (env : JS.Env) :
  getDaysAgo env None = ""
  /\ (forall (off t : Z) (date : string),
        (forall u b, JS.LocalTZA env u b = off) ->
        (Z.abs off <= 86400000)%Z ->
        (Z.abs (JS.clock env) <= 8000000000000000)%Z ->
        JS.Date_parse env date = JS.Int t -> (Z.abs t <= 8000000000000000)%Z ->
        date <> "" ->
        let midnight x := ((x + off) / 86400000 * 86400000 - off)%Z in
        let n := ((midnight (JS.clock env) - midnight t) / 86400000)%Z in
        getDaysAgo env (Some date)
        = if Z.eqb n 0 then "Today"
          else if Z.eqb n 1 then "1 day ago"
          else if Z.ltb n 0 then "Future date"
          else NilZero.string_of_int (Z.to_int n) ++ " days ago")
  /\ (forall date : string,
        date <> "" ->
        let n := diffDays env date in
        (n = JS.Int 0 -> getDaysAgo env (Some date) = "Today")
        /\ (n = JS.Int 1 -> getDaysAgo env (Some date) = "1 day ago")
        /\ (forall k, n = JS.Int k -> (k < 0)%Z ->
            getDaysAgo env (Some date) = "Future date")
        /\ (n <> JS.Int 0 -> n <> JS.Int 1 ->
            (forall k, n = JS.Int k -> (0 <= k)%Z) ->
            getDaysAgo env (Some date) = JS.inum_toString n ++ " days ago"))
  /\ (forall date : option string,
        getDaysAgo env date = ""
        \/ getDaysAgo env date = "Today"
        \/ getDaysAgo env date = "1 day ago"
        \/ getDaysAgo env date = "Future date"
        \/ exists n, getDaysAgo env date = JS.inum_toString n ++ " days ago").
Proof.
  split; [reflexivity|]. split; [|split].
  - intros off t date TZ O C P T N midnight n. subst n midnight. cbv beta.
    rewrite midnights_days.
    unfold getDaysAgo. apply empty_false_iff in N.
    rewrite N, (diffDays_fixed env off t date TZ O C P T). reflexivity.
  - intros date N n. subst n. unfold getDaysAgo.
    apply empty_false_iff in N. rewrite N.
    destruct (diffDays env date) as [|k]; simpl.
    + repeat split; try discriminate; try reflexivity.
    + repeat split.
      * intros [= ->]. reflexivity.
      * intros [= ->]. reflexivity.
      * intros k' E L. injection E as E. subst k'.
        destruct (Z.eqb_spec k 0); [lia|]. destruct (Z.eqb_spec k 1); [lia|].
        destruct (Z.ltb_spec k 0); [reflexivity | lia].
      * intros N0 N1 P. specialize (P k eq_refl).
        destruct (Z.eqb_spec k 0); [subst; contradiction|].
        destruct (Z.eqb_spec k 1); [subst; contradiction|].
        destruct (Z.ltb_spec k 0); [lia | reflexivity].
  - intros [date|]; [|left; reflexivity]. unfold getDaysAgo.
    destruct (JS.empty date); [left; reflexivity|].
    destruct (JS.ieq _ 0); [right; left; reflexivity|].
    destruct (JS.ieq _ 1); [right; right; left; reflexivity|].
    destruct (JS.ilt _ 0); [right; right; right; left; reflexivity|].
    right; right; right; right. eexists. reflexivity.
Qed.

(** A price of 1 January 23:00 read on 8 January 01:00, on UTC: six days
    and two hours later, and seven days by the midnights. *)
Lemma getDaysAgo_labels_witness :
  getDaysAgo (JS.utc 1704675600000) (Some "2024-01-01T23:00:00.000Z")
  = "7 days ago".
Proof.
  apply (proj1 (proj2 (getDaysAgo_labels (JS.utc 1704675600000)))
           0%Z 1704150000000%Z "2024-01-01T23:00:00.000Z");
    first [reflexivity | discriminate].
Defined.

(** ** Staleness *)

(** Three readings on UTC.  A price of 1 January 01:00 read on 8 January
    23:00 is 7 days old by the day count, and flagged stale; a price of
    the same 1 January 23:30, read at the same time, is not flagged; a
    holding of 1 January 23:00 read on 4 January 01:00 is 3 days old by
    the day count, and not in the error colour. *)
Lemma isStale_day_granularity_cex :
  (Spec.midnightDays (JS.utc 1704754800000) "2024-01-01T01:00:00.000Z" = JS.Int 7
   /\ isStale (JS.utc 1704754800000) (Some "2024-01-01T01:00:00.000Z") = true
   /\ ~ (isStale (JS.utc 1704754800000) (Some "2024-01-01T01:00:00.000Z") = true
         <-> JS.igt (Spec.midnightDays (JS.utc 1704754800000)
                       "2024-01-01T01:00:00.000Z") 7 = true))
  /\ (Spec.midnightDays (JS.utc 1704754800000) "2024-01-01T23:30:00.000Z" = JS.Int 7
      /\ isStale (JS.utc 1704754800000) (Some "2024-01-01T23:30:00.000Z") = false)
  /\ (Spec.midnightDays (JS.utc 1704330000000) "2024-01-01T23:00:00.000Z" = JS.Int 3
      /\ HoldingsPart005.getDaysAgoColor (JS.utc 1704330000000)
           "2024-01-01T23:00:00.000Z" = "text.secondary"
      /\ ~ (HoldingsPart005.getDaysAgoColor (JS.utc 1704330000000)
              "2024-01-01T23:00:00.000Z" = "error.main"
            <-> JS.igt (Spec.midnightDays (JS.utc 1704330000000)
                          "2024-01-01T23:00:00.000Z") 2 = true)).
Proof.
  repeat split; try reflexivity.
  - intros [H _]. specialize (H eq_refl). discriminate H.
  - intros [_ H]. specialize (H eq_refl). discriminate H.
Qed.

Lemma color_error_iff (b : bool) :
  (if b then "error.main" else "text.secondary") = "error.main" <-> b = true.
Proof. destruct b; split; intros H; try reflexivity; discriminate H. Qed.

(** C6, amended. Neither staleness flag is computed on days between
    midnights.  On the stocks screen [isStale] holds exactly when the
    date parses and comes more than 7 times 24 hours before the clock;
    on the holdings screen the error colour is used exactly when the
    date parses and is 3 times 24 hours or more away from the clock, on
    either side.  Both compare raw milliseconds. *)
Theorem isStale_raw_milliseconds (env : JS.Env) (value : string) :
  (isStale env (Some value) = true <->
   value <> ""
   /\ exists t, JS.Date_parse env value = JS.Int t
                /\ (Z.abs (JS.clock env - 604800000) <= 8640000000000000)%Z
                /\ (t < JS.clock env - 604800000)%Z)
  /\ (HoldingsPart005.getDaysAgoColor env value = "error.main" <->
      exists t, JS.Date_parse env value = JS.Int t
                /\ (259200000 <= Z.abs (JS.clock env - t))%Z).
Proof.
  split.
  - unfold isStale.
    change (7 * 24 * 60 * 60 * 1000)%Z with 604800000%Z.
    destruct (JS.empty value) eqn:E.
    + apply empty_true_iff in E. split; [discriminate | intros [N _]; contradiction].
    + apply empty_false_iff in E.
      destruct (JS.Date_parse env value) as [|t]; simpl.
      * split; [discriminate | intros (_ & t & D & _); discriminate D].
      * destruct (JS.TimeClip _) as [|u] eqn:C.
        -- split; [discriminate|]. intros (_ & t' & _ & A & _).
           assert (X : JS.TimeClip (JS.clock env - 604800000) = JS.Int (JS.clock env - 604800000))
             by (apply TimeClip_Int; split; [exact A | reflexivity]).
           congruence.
        -- apply TimeClip_Int in C. destruct C as [A ->].
           rewrite Z.ltb_lt. split.
           ++ intros L. split; [exact E|]. exists t. repeat split; assumption.
           ++ intros (_ & t' & [= <-] & _ & L). exact L.
  - unfold HoldingsPart005.getDaysAgoColor, HoldingsPart005.diffDays.
    change (1000 * 60 * 60 * 24)%Z with 86400000%Z.
    rewrite color_error_iff.
    destruct (JS.Date_parse env value) as [|t]; simpl.
    + split; [discriminate | intros (t & D & _); discriminate D].
    + rewrite Z.ltb_lt. split.
      * intros L. exists t. split; [reflexivity|].
        pose proof (Z.div_mod (Z.abs (JS.clock env - t)) 86400000 ltac:(lia)).
        pose proof (Z.mod_pos_bound (Z.abs (JS.clock env - t)) 86400000 ltac:(lia)).
        lia.
      * intros (t' & [= <-] & L).
        apply (Z.lt_le_trans _ 3); [lia|].
        apply Z.div_le_lower_bound; lia.
Qed.

(** ** Determinism *)




(** ** The day label of the holdings screen: [formatDaysAgo] *)

Lemma length_append (s1 s2 : string) :
  String.length (s1 ++ s2) = (String.length s1 + String.length s2)%nat.
Proof. induction s1 as [|c s1 IH]; simpl; [reflexivity | rewrite IH; reflexivity]. Qed.

Lemma list_ascii_append (s1 s2 : string) :
  list_ascii_of_string (s1 ++ s2)
  = (list_ascii_of_string s1 ++ list_ascii_of_string s2)%list.
Proof. induction s1 as [|c s1 IH]; simpl; [reflexivity | rewrite IH; reflexivity]. Qed.

(** No count of days reads "Future date". *)
Lemma days_ago_not_future (x : string) : x ++ " days ago" <> "Future date".
Proof.
  intros H. apply (f_equal JS.rev_string) in H. revert H.
  unfold JS.rev_string. rewrite list_ascii_append, rev_app_distr.
  simpl. discriminate.
Qed.

Lemma formatDaysAgo_valid (env : JS.Env) (dateString : string) (t : Z) :
  JS.Date_parse env dateString = JS.Int t ->
  let n := (Z.abs (JS.clock env - t) / 86400000)%Z in
  (0 <= n)%Z
  /\ HoldingsPart005.formatDaysAgo env dateString
     = if Z.eqb n 0 then "Today"
       else if Z.eqb n 1 then "1 day ago"
       else JS.inum_toString (JS.Int n) ++ " days ago".
Proof.
  intros P n. split.
  - apply Z.div_pos; lia.
  - unfold HoldingsPart005.formatDaysAgo, HoldingsPart005.diffDays.
    rewrite P. reflexivity.
Qed.

(** An empty date string is an invalid date: the label is "NaN days ago". *)
Lemma formatDaysAgo_invalid_cex :
  HoldingsPart005.formatDaysAgo (JS.utc 1704754800000) "" = "NaN days ago"
  /\ HoldingsPart005.formatDaysAgo (JS.utc 1704754800000) "" <> "Today"
  /\ HoldingsPart005.formatDaysAgo (JS.utc 1704754800000) "" <> "1 day ago"
  /\ (forall n : Z,
        HoldingsPart005.formatDaysAgo (JS.utc 1704754800000) ""
        <> JS.inum_toString (JS.Int n) ++ " days ago").
Proof.
  repeat split; try discriminate.
  intros n. change (HoldingsPart005.formatDaysAgo (JS.utc 1704754800000) "")
    with "NaN days ago".
  unfold JS.inum_toString. destruct n as [|p|p]; simpl; try discriminate.
  unfold Pos.to_uint.
  destruct (Decimal.rev (Pos.to_little_uint p)) as [|u|u|u|u|u|u|u|u|u|u]; discriminate.
Qed.

(** C10, amended. [formatDaysAgo] takes the absolute value of the raw
    difference in milliseconds between the clock and the date, without
    setting either to midnight.  For a
    date that parses, future ones included, its label is "Today",
    "1 day ago" or "n days ago" with [n >= 0] the whole number of
    24-hour spans in that difference.  On no input does it answer
    "Future date", and it differs from [getDaysAgo], which answers
    "Future date" where it answers a count. *)
Theorem formatDaysAgo_absolute (env : JS.Env) (dateString : string) :
  (forall t, JS.Date_parse env dateString = JS.Int t ->
     let n := (Z.abs (JS.clock env - t) / 86400000)%Z in
     (0 <= n)%Z
     /\ HoldingsPart005.formatDaysAgo env dateString
        = if Z.eqb n 0 then "Today"
          else if Z.eqb n 1 then "1 day ago"
          else JS.inum_toString (JS.Int n) ++ " days ago")
  /\ HoldingsPart005.formatDaysAgo env dateString <> "Future date"
  /\ (getDaysAgo (JS.utc 1704067200000) (Some "2024-01-09T00:00:00.000Z")
      = "Future date"
      /\ HoldingsPart005.formatDaysAgo (JS.utc 1704067200000)
           "2024-01-09T00:00:00.000Z" = "8 days ago").
Proof.
  split; [|split].
  - intros t P. apply formatDaysAgo_valid, P.
  - unfold HoldingsPart005.formatDaysAgo.
    destruct (JS.ieq _ 0); [discriminate|].
    destruct (JS.ieq _ 1); [discriminate|].
    apply days_ago_not_future.
  - split; reflexivity.
Qed.

(** A holding dated eight days after the clock. *)
Lemma formatDaysAgo_absolute_witness :
  HoldingsPart005.formatDaysAgo (JS.utc 1704067200000) "2024-01-09T00:00:00.000Z"
  = "8 days ago".
Proof.
  apply (proj2 (proj1 (formatDaysAgo_absolute (JS.utc 1704067200000)
                         "2024-01-09T00:00:00.000Z")
                  1704758400000%Z eq_refl)).
Defined.

(** ** CurrencyFormatter: [formatCurrency] *)

(** *** Strings as lists of characters *)

Lemma string_of_list_app (l1 l2 : list ascii) :
  string_of_list_ascii (l1 ++ l2) = string_of_list_ascii l1 ++ string_of_list_ascii l2.
Proof. induction l1 as [|c l1 IH]; simpl; [reflexivity | rewrite IH; reflexivity]. Qed.

Lemma length_list_ascii (s : string) : length (list_ascii_of_string s) = String.length s.
Proof. induction s as [|c s IH]; simpl; [reflexivity | rewrite IH; reflexivity]. Qed.

Lemma substring_prefix (k : nat) (s : string) :
  String.substring 0 k s = string_of_list_ascii (firstn k (list_ascii_of_string s)).
Proof.
  revert k. induction s as [|c s IH]; intros [|k]; simpl; try reflexivity.
  rewrite IH. reflexivity.
Qed.

Lemma substring_suffix (k m : nat) (s : string) :
  (String.length s <= k + m)%nat ->
  String.substring k m s = string_of_list_ascii (skipn k (list_ascii_of_string s)).
Proof.
  revert k m. induction s as [|c s IH]; intros k m L.
  - destruct k, m; reflexivity.
  - destruct k as [|k].
    + simpl in L. destruct m as [|m]; [lia|]. simpl.
      f_equal. rewrite substring_prefix, firstn_all2 by (rewrite length_list_ascii; lia).
      rewrite string_of_list_ascii_of_string. reflexivity.
    + simpl. apply IH. simpl in L. lia.
Qed.

Lemma all_digits_forallb (s : string) :
  Spec.all_digits s = forallb JS.is_digit (list_ascii_of_string s).
Proof. induction s as [|c s IH]; simpl; [reflexivity | rewrite IH; reflexivity]. Qed.

Lemma all_digits_of_list (l : list ascii) :
  Spec.all_digits (string_of_list_ascii l) = forallb JS.is_digit l.
Proof. rewrite all_digits_forallb, list_ascii_of_string_of_list_ascii. reflexivity. Qed.

Lemma all_digits_app (s1 s2 : string) :
  Spec.all_digits (s1 ++ s2) = Spec.all_digits s1 && Spec.all_digits s2.
Proof.
  induction s1 as [|c s1 IH]; simpl; [reflexivity|].
  rewrite IH. apply andb_assoc.
Qed.

(** *** Pairs of digits *)

(** The effect on [pairs_rev] of one more digit on the left of the
    number, which is the far end of the reversed list. *)
Lemma pairs_rev_snoc (l : list ascii) (c : ascii) :
  Spec.pairs_rev (l ++ [c])
  = (Spec.pairs_rev l
     ++ (if Nat.even (length l) && Nat.leb 2 (length l) then [","%char; c] else [c]))%list.
Proof.
  assert (H : forall n l, (length l <= n)%nat ->
            Spec.pairs_rev (l ++ [c])
            = (Spec.pairs_rev l
               ++ (if Nat.even (length l) && Nat.leb 2 (length l)
                   then [","%char; c] else [c]))%list).
  { clear l. induction n as [|n IH]; intros l L.
    - destruct l; [reflexivity | simpl in L; lia].
    - destruct l as [|a [|b l']]; try reflexivity.
      destruct l' as [|d l'']; [reflexivity|].
      change (Spec.pairs_rev ((a :: b :: d :: l'') ++ [c]))
        with (a :: b :: ","%char :: Spec.pairs_rev ((d :: l'') ++ [c])).
      rewrite IH by (simpl in L |- *; lia).
      change (Spec.pairs_rev (a :: b :: d :: l''))
        with (a :: b :: ","%char :: Spec.pairs_rev (d :: l'')).
      change (length (a :: b :: d :: l'')) with (S (S (length (d :: l'')))).
      change (Nat.even (S (S (length (d :: l''))))) with (Nat.even (length (d :: l''))).
      destruct (Nat.even (length (d :: l''))) eqn:E; [|reflexivity].
      destruct l'' as [|e l3]; [discriminate E|]. reflexivity. }
  apply (H (length l)). apply le_n.
Qed.

Lemma pairs_cons (c : ascii) (s : string) :
  Spec.pairs (String c s)
  = String c ((if Nat.even (String.length s) && Nat.leb 2 (String.length s)
               then "," else "") ++ Spec.pairs s).
Proof.
  unfold Spec.pairs. cbn [list_ascii_of_string rev]. rewrite pairs_rev_snoc.
  rewrite length_rev, length_list_ascii, rev_app_distr.
  destruct (Nat.even _ && Nat.leb 2 _); reflexivity.
Qed.

Lemma digit_is_word (c : ascii) : JS.is_digit c = true -> JS.is_word c = true.
Proof. unfold JS.is_word. intros ->. reflexivity. Qed.

Lemma digit_run_all (s : string) :
  Spec.all_digits s = true -> JS.digit_run s = String.length s.
Proof.
  induction s as [|c s IH]; simpl; [reflexivity|].
  intros H. apply andb_prop in H. destruct H as [D A].
  rewrite D, IH by exact A. reflexivity.
Qed.

(** On a string of digits the replacement of the source writes the
    pairs, with a comma in front when the position follows a digit. *)
Lemma replace_pairs_digits (s : string) (prev : bool) :
  Spec.all_digits s = true ->
  JS.replace_pairs prev s
  = (if prev && Nat.even (String.length s) && Nat.leb 2 (String.length s)
     then "," else "") ++ Spec.pairs s.
Proof.
  revert prev. induction s as [|c s IH]; intros prev A.
  - destruct prev; reflexivity.
  - pose proof (digit_run_all _ A) as R.
    simpl in A. apply andb_prop in A. destruct A as [D A].
    cbn [JS.replace_pairs]. rewrite R, (digit_is_word _ D), (IH true A), pairs_cons.
    destruct prev; simpl Bool.eqb; cbn [andb]; reflexivity.
Qed.

Lemma forallb_firstn {A : Type} (f : A -> bool) (k : nat) (l : list A) :
  forallb f l = true -> forallb f (firstn k l) = true.
Proof.
  revert k. induction l as [|x l IH]; intros [|k]; simpl; try reflexivity.
  intros H. apply andb_prop in H. destruct H as [X L].
  rewrite X, IH by exact L. reflexivity.
Qed.

Lemma forallb_skipn {A : Type} (f : A -> bool) (k : nat) (l : list A) :
  forallb f l = true -> forallb f (skipn k l) = true.
Proof.
  revert k. induction l as [|x l IH]; intros [|k]; simpl; try reflexivity.
  - intros H. exact H.
  - intros H. apply andb_prop in H. apply IH, H.
Qed.

(** On a string of digits the source groups as the Indian convention
    does. *)
Lemma grouped_indian (a : string) :
  Spec.all_digits a = true -> Holdings.grouped a = Spec.indian_group a.
Proof.
  intros A. unfold Holdings.grouped, JS.substring_from, JS.substring, JS.clamp_index.
  set (n := String.length a).
  replace (Nat.min (Z.to_nat (Z.of_nat n - 3)) n) with (n - 3)%nat by lia.
  replace (Nat.min (Z.to_nat (Z.of_nat n)) n) with n by lia.
  replace (Nat.min (Z.to_nat 0) n) with O by lia.
  rewrite Nat.min_0_l, Nat.max_0_l, Nat.sub_0_r.
  replace (Nat.min (n - 3) n) with (n - 3)%nat by lia.
  replace (Nat.max (n - 3) n) with n by lia.
  rewrite substring_prefix, (substring_suffix (n - 3)) by (fold n; lia).
  unfold Spec.indian_group.
  rewrite firstn_rev, skipn_rev, length_list_ascii. fold n.
  pose proof (all_digits_forallb a) as F. rewrite A in F. symmetry in F.
  set (O := firstn (n - 3) (list_ascii_of_string a)).
  set (L := skipn (n - 3) (list_ascii_of_string a)).
  assert (AO : Spec.all_digits (string_of_list_ascii O) = true)
    by (rewrite all_digits_of_list; apply forallb_firstn, F).
  rewrite (replace_pairs_digits _ false AO). cbn [andb append].
  destruct O as [|o O'] eqn:EO.
  - simpl. rewrite app_nil_r, rev_involutive. reflexivity.
  - rewrite <- EO in *.
    assert (NE : JS.empty (string_of_list_ascii O) = false)
      by (rewrite EO; reflexivity).
    rewrite NE. cbn [negb].
    assert (R : exists x R', rev O = x :: R').
    { destruct (rev O) as [|x R'] eqn:ER; [|eauto].
      apply (f_equal (@rev ascii)) in ER. rewrite rev_involutive in ER.
      rewrite EO in ER. discriminate ER. }
    destruct R as (x & R' & ER). rewrite ER, <- ER.
    rewrite rev_app_distr, rev_involutive. cbn [rev].
    rewrite <- app_assoc, string_of_list_app. unfold Spec.pairs.
    rewrite list_ascii_of_string_of_list_ascii. reflexivity.
Qed.

(** *** The two decimals of [toFixed] *)

Lemma digits_all (n : Z) : Spec.all_digits (JS.digits n) = true.
Proof.
  unfold JS.digits.
  assert (E : forall u, Spec.all_digits (NilEmpty.string_of_uint u) = true)
    by (induction u; simpl; assumption || reflexivity).
  destruct (N.to_uint (Z.to_N n)); simpl; try apply E; reflexivity.
Qed.

Lemma zeros_all (k : nat) : Spec.all_digits (JS.zeros k) = true.
Proof. induction k as [|k IH]; simpl; [reflexivity | exact IH]. Qed.

Lemma length_zeros (k : nat) : String.length (JS.zeros k) = k.
Proof.
  unfold JS.zeros. induction k as [|k IH]; simpl; [reflexivity | rewrite IH; reflexivity].
Qed.

Lemma length_of_list (l : list ascii) : String.length (string_of_list_ascii l) = length l.
Proof. rewrite <- length_list_ascii, list_ascii_of_string_of_list_ascii. reflexivity. Qed.

(** Below 10^21 [toFixed(2)] writes digits, a point and two digits. *)
Lemma toFixed2_parts (toStr : Q -> string) (x : Q) :
  0 <= x -> x < 10 ^ 21 ->
  exists a b,
    JS.toFixed2 toStr x = a ++ "." ++ b
    /\ Spec.all_digits a = true /\ a <> ""
    /\ Spec.all_digits b = true /\ String.length b = 2%nat.
Proof.
  intros P B. unfold JS.toFixed2.
  assert (L : JS.lt x 0 = false) by (apply lt_false_iff; exact P).
  rewrite L.
  assert (G : Qle_bool (10 ^ 21) x = false).
  { apply not_true_is_false. rewrite Qle_bool_iff. apply Qlt_not_le, B. }
  rewrite G. cbn [append].
  set (d := JS.digits (Qfloor (x * 100 + (1 # 2)))).
  set (m := JS.zeros (3 - String.length d) ++ d).
  assert (M : Spec.all_digits m = true).
  { unfold m. rewrite all_digits_app, zeros_all. apply digits_all. }
  assert (K : (3 <= String.length m)%nat).
  { unfold m. rewrite length_append, length_zeros. lia. }
  rewrite all_digits_forallb in M.
  exists (String.substring 0 (String.length m - 2) m),
         (String.substring (String.length m - 2) 2 m).
  rewrite substring_prefix, substring_suffix by lia.
  rewrite !all_digits_of_list, !length_of_list.
  split; [reflexivity|]. split; [apply forallb_firstn, M|].
  split.
  - intros E. apply (f_equal String.length) in E.
    rewrite length_of_list, length_firstn, length_list_ascii in E. simpl in E. lia.
  - split; [apply forallb_skipn, M|].
    rewrite length_skipn, length_list_ascii. lia.
Qed.

(** *** Splitting at the point *)

Lemma rev_string_onto (a acc : string) :
  JS.rev_string (JS.rev_onto a acc) = JS.rev_string acc ++ a.
Proof.
  revert acc. induction a as [|c a IH]; intros acc; simpl.
  - induction (JS.rev_string acc) as [|x r IHr]; simpl; [reflexivity | rewrite <- IHr; reflexivity].
  - rewrite IH. unfold JS.rev_string. simpl.
    rewrite string_of_list_app. simpl.
    induction (string_of_list_ascii (rev (list_ascii_of_string acc))) as [|x r IHr];
      simpl; [reflexivity | rewrite IHr; reflexivity].
Qed.

Lemma digit_not_point (c : ascii) : JS.is_digit c = true -> JS.byte_is c 46 = false.
Proof.
  unfold JS.is_digit, JS.byte_is. intros H. apply andb_prop in H. destruct H as [H _].
  apply Nat.leb_le in H. apply Nat.eqb_neq. lia.
Qed.

Lemma split_dot_aux_digits (a rest acc : string) :
  Spec.all_digits a = true ->
  JS.split_dot_aux acc (a ++ rest) = JS.split_dot_aux (JS.rev_onto a acc) rest.
Proof.
  revert acc. induction a as [|c a IH]; intros acc A; simpl; [reflexivity|].
  simpl in A. apply andb_prop in A. destruct A as [D A].
  rewrite (digit_not_point _ D). apply IH, A.
Qed.

Lemma split_dot_parts (a b : string) :
  Spec.all_digits a = true -> Spec.all_digits b = true ->
  JS.split_dot (a ++ "." ++ b) = [a; b].
Proof.
  intros A B. unfold JS.split_dot.
  rewrite (split_dot_aux_digits a _ _ A). cbn [append JS.split_dot_aux].
  change (JS.byte_is "." 46) with true. cbn iota.
  rewrite rev_string_onto.
  replace b with (b ++ "") at 1
    by (clear; induction b as [|c b IH]; simpl; [reflexivity | rewrite IH; reflexivity]).
  rewrite (split_dot_aux_digits b _ _ B). cbn [JS.split_dot_aux].
  rewrite rev_string_onto. reflexivity.
Qed.

(** *** The amounts in rupees *)

(** On the screen of part_005, an amount in INR of magnitude below 10^21
    is written as its sign, the rupee sign, the digits of its integer
    part in the Indian grouping, a point and two decimals. *)
Lemma formatCurrency_INR (toStr : Q -> string) (intl : string -> Q -> string)
    (value : Q) :
  Qabs value < 10 ^ 21 ->
  exists a b,
    JS.toFixed2 toStr (Qabs value) = a ++ "." ++ b
    /\ Spec.all_digits a = true /\ a <> ""
    /\ Spec.all_digits b = true /\ String.length b = 2%nat
    /\ HoldingsPart005.formatCurrency toStr intl value "INR"
       = (if JS.lt value 0 then "-" else "") ++ "₹"
         ++ Spec.indian_group a ++ "." ++ b.
Proof.
  intros B.
  destruct (toFixed2_parts toStr (Qabs value) (Qabs_nonneg value) B)
    as (a & b & E & A & NA & Bd & LB).
  exists a, b. repeat (split; [assumption|]).
  unfold HoldingsPart005.formatCurrency, Holdings.formatCurrencyWith.
  cbn [String.eqb Ascii.eqb Bool.eqb]. cbv zeta.
  unfold JS.Math_abs. rewrite E, (split_dot_parts a b A Bd).
  cbn [nth nth_error JS.show_undefined].
  change (JS.replace_pairs false
            (JS.substring a 0 (Z.of_nat (String.length a) - 3))
          ++ (if negb (JS.empty (JS.substring a 0 (Z.of_nat (String.length a) - 3)))
              then "," ++ JS.substring_from a (Z.of_nat (String.length a) - 3)
              else JS.substring_from a (Z.of_nat (String.length a) - 3)))
    with (Holdings.grouped a).
  rewrite (grouped_indian a A). reflexivity.
Qed.

Lemma formatCurrency_INR_witness :
  exists a b,
    JS.toFixed2 JS.toString_1e21 (Qabs (-1234.5)) = a ++ "." ++ b
    /\ Spec.all_digits a = true /\ a <> ""
    /\ Spec.all_digits b = true /\ String.length b = 2%nat
    /\ HoldingsPart005.formatCurrency JS.toString_1e21 JS.no_Intl (-1234.5) "INR"
       = (if JS.lt (-1234.5) 0 then "-" else "") ++ "₹"
         ++ Spec.indian_group a ++ "." ++ b.
Proof.
  apply (formatCurrency_INR JS.toString_1e21 JS.no_Intl (-1234.5)).
  reflexivity.
Defined.

(** C5. The amount 1234567.5 in INR: the screen of part_005 writes it
    with the rupee sign, two decimals and the Indian grouping; the
    screen of ListHoldings.tsx writes the same digits after the seven
    bytes that stand in its source for the rupee sign, so that its
    answer is not the one expected.  At 10^21, where [toFixed] changes
    to the exponential notation, neither writes two decimals. *)
Theorem formatCurrency_symbol (toStr : Q -> string) (intl : string -> Q -> string) :
  HoldingsPart005.formatCurrency toStr intl 1234567.5 "INR" = "₹12,34,567.50"
  /\ ListHoldings.formatCurrency toStr intl 1234567.5 "INR" = "â‚¹12,34,567.50"
  /\ ListHoldings.formatCurrency toStr intl 1234567.5 "INR" <> "₹12,34,567.50"
  /\ HoldingsPart005.formatCurrency toStr intl (-1234.5) "INR" = "-₹1,234.50"
  /\ HoldingsPart005.formatCurrency JS.toString_1e21 intl (10 ^ 21) "INR"
     = "₹1e,+21.undefined".
Proof.
  repeat split; try reflexivity. discriminate.
Qed.

(** * Further properties *)

(** ** The "Market Sentiment" cell *)

Lemma gt_sub (x y : Q) : JS.gt (x - y) 0 = JS.gt x y.
Proof.
  destruct (JS.gt x y) eqn:A; cmp_props.
  - apply gt_true_iff. lra.
  - apply gt_false_iff. lra.
Qed.

(** X5. When the price and the two averages are present and not zero,
    the signal that the cell prints can be read off the order of its
    three markers: "Strong Buy" exactly for 200d, 20d, Price from left to
    right, "Buy" for 20d, 200d, Price, "Strong Sell" for Price, 20d,
    200d, "Sell" for Price, 200d, 20d, and "Neutral" exactly when the
    price is the middle marker.  The grey colour of the [default] branch
    is never used. *)
Theorem sentiment_order (p m20 m200 : Q) :
  ~ p == 0 -> ~ m20 == 0 -> ~ m200 == 0 ->
  exists cell,
    StocksTable.sentimentCell (Some p) (Some m20) (Some m200) = Some cell
    /\ let order := (StocksTable.minLabel cell, StocksTable.middleLabel cell,
                     StocksTable.maxLabel cell) in
       (StocksTable.signalLabel cell = "Strong Buy" <-> order = ("200d", "20d", "Price"))
       /\ (StocksTable.signalLabel cell = "Buy" <-> order = ("20d", "200d", "Price"))
       /\ (StocksTable.signalLabel cell = "Strong Sell" <-> order = ("Price", "20d", "200d"))
       /\ (StocksTable.signalLabel cell = "Sell" <-> order = ("Price", "200d", "20d"))
       /\ (StocksTable.signalLabel cell = "Neutral"
           <-> StocksTable.middleLabel cell = "Price")
       /\ StocksTable.signalColor cell <> "#9e9e9e".
Proof.
  intros Hp Hm Hl. apply falsy_false_iff in Hp, Hm, Hl.
  unfold StocksTable.sentimentCell, getMASignal. rewrite Hp, Hm, Hl.
  cbn [orb StocksTable.sort StocksTable.insert StocksTable.value]. rewrite !gt_sub.
  destruct (JS.gt m20 m200) eqn:C, (JS.gt p m20) eqn:A, (JS.gt p m200) eqn:B;
    cbn [StocksTable.insert StocksTable.value]; rewrite ?gt_sub, ?A, ?B, ?C;
    cbn [StocksTable.insert StocksTable.value]; rewrite ?gt_sub, ?A, ?B, ?C;
    cmp_props; try (exfalso; lra);
    (eexists; split; [reflexivity|]); cbn;
    (repeat match goal with |- _ /\ _ => split end);
    try (split; intros X; (reflexivity || discriminate X));
    discriminate.
Qed.

Lemma sentiment_order_witness :
  exists cell,
    StocksTable.sentimentCell (Some 120) (Some 110) (Some 100) = Some cell
    /\ StocksTable.signalLabel cell = "Strong Buy"
    /\ StocksTable.middleLabel cell = "20d".
Proof.
  destruct (sentiment_order 120 110 100) as (cell & E & SB & _);
    try discriminate.
  exists cell. split; [exact E|].
  injection E as <-. split; reflexivity.
Defined.

(** ** Day counts in a zone with a fixed offset *)

(** A count of days is not one of the fixed labels. *)
Lemma days_ago_not_today (x : string) : x ++ " days ago" <> "Today".
Proof.
  intros H. apply (f_equal JS.rev_string) in H. revert H.
  unfold JS.rev_string. rewrite list_ascii_append, rev_app_distr.
  simpl. discriminate.
Qed.

Lemma days_ago_not_one_day (x : string) : x ++ " days ago" <> "1 day ago".
Proof.
  intros H. apply (f_equal JS.rev_string) in H. revert H.
  unfold JS.rev_string. rewrite list_ascii_append, rev_app_distr.
  simpl. discriminate.
Qed.

(** X7. Where local time is UTC plus a fixed offset, the count of
    [getDaysAgo] is the number of the local day of the clock minus the
    number of the local day of the date: the label is "Today" exactly
    for a date of the current local day, whatever the two times of
    day, "1 day ago" exactly for a date of the day before, and
    "Future date" exactly for a date of a later day. *)
Theorem getDaysAgo_local_days (env : JS.Env) (off t : Z) (date : string) :
  (forall u b, JS.LocalTZA env u b = off) ->
  (Z.abs off <= 86400000)%Z ->
  (Z.abs (JS.clock env) <= 8000000000000000)%Z ->
  JS.Date_parse env date = JS.Int t -> (Z.abs t <= 8000000000000000)%Z ->
  date <> "" ->
  let today := ((JS.clock env + off) / 86400000)%Z in
  let day := ((t + off) / 86400000)%Z in
  diffDays env date = JS.Int (today - day)
  /\ (getDaysAgo env (Some date) = "Today" <-> day = today)
  /\ (getDaysAgo env (Some date) = "1 day ago" <-> (day = today - 1)%Z)
  /\ (getDaysAgo env (Some date) = "Future date" <-> (today < day)%Z).
Proof.
  intros TZ O C P T N today day.
  pose proof (diffDays_fixed env off t date TZ O C P T) as D. fold today day in D.
  split; [exact D|].
  unfold getDaysAgo. apply empty_false_iff in N. rewrite N, D. cbn [JS.ieq JS.ilt].
  destruct (Z.eqb_spec (today - day) 0) as [E0|E0].
  - repeat split; intros X; try reflexivity; try discriminate X; lia.
  - destruct (Z.eqb_spec (today - day) 1) as [E1|E1].
    + repeat split; intros X; try reflexivity; try discriminate X; lia.
    + destruct (Z.ltb_spec (today - day) 0) as [L|L].
      * repeat split; intros X; try reflexivity; try discriminate X; try lia.
      * repeat split; intros X; try lia; exfalso; revert X;
          first [ apply days_ago_not_future | apply days_ago_not_today
                | apply days_ago_not_one_day ].
Qed.

(** A price of 1 January 20:00 UTC read on 2 January 19:00 UTC, in
    India: the second and the third of January. *)
Lemma getDaysAgo_local_days_witness :
  getDaysAgo (JS.ist 1704222000000) (Some "2024-01-01T20:00:00.000Z") = "1 day ago".
Proof.
  apply (proj1 (proj2 (proj2 (getDaysAgo_local_days (JS.ist 1704222000000)
                  19800000 1704139200000 "2024-01-01T20:00:00.000Z"
                  ltac:(reflexivity) ltac:(discriminate) ltac:(discriminate)
                  ltac:(reflexivity) ltac:(discriminate) ltac:(discriminate))))).
  reflexivity.
Defined.

(** ** Labels and colours of the update columns *)

Lemma to_int_not_nil (z : Z) :
  Z.to_int z <> Decimal.Pos Decimal.Nil /\ Z.to_int z <> Decimal.Neg Decimal.Nil.
Proof.
  destruct z as [|p|p]; simpl; split; try discriminate;
    intros [= H]; exact (DecimalPos.Unsigned.to_uint_nonnil p H).
Qed.

(** Two integers that print alike are equal. *)
Lemma inum_toString_inj (a b : Z) :
  JS.inum_toString (JS.Int a) = JS.inum_toString (JS.Int b) -> a = b.
Proof.
  unfold JS.inum_toString. intros H.
  apply (f_equal NilZero.int_of_string) in H.
  destruct (to_int_not_nil a) as [A1 A2], (to_int_not_nil b) as [B1 B2].
  rewrite !NilZero.isi in H by assumption.
  injection H as H. apply DecimalZ.to_int_inj, H.
Qed.

Lemma inum_toString_not_NaN (a : Z) : JS.inum_toString (JS.Int a) <> "NaN".
Proof.
  unfold JS.inum_toString. intros H.
  apply (f_equal NilZero.int_of_string) in H.
  destruct (to_int_not_nil a) as [A1 A2].
  rewrite NilZero.isi in H by assumption. discriminate H.
Qed.

Lemma append_inv_tail (x y s : string) : x ++ s = y ++ s -> x = y.
Proof.
  intros H. apply (f_equal list_ascii_of_string) in H.
  rewrite !list_ascii_append in H. apply app_inv_tail in H.
  rewrite <- (string_of_list_ascii_of_string x), <- (string_of_list_ascii_of_string y), H.
  reflexivity.
Qed.

(** What a label that counts days tells of the count. *)
Lemma days_label_count (x : JS.inum) (n : Z) :
  JS.inum_toString x ++ " days ago" = JS.inum_toString (JS.Int n) ++ " days ago" ->
  x = JS.Int n.
Proof.
  intros H. apply append_inv_tail in H. destruct x as [|k].
  - symmetry in H. destruct (inum_toString_not_NaN n H).
  - f_equal. apply inum_toString_inj, H.
Qed.

(** X8. In the "History Updated" cell of the stocks table, where local
    time is UTC plus a fixed offset: a label in red always counts 7 days
    or more, and a label that counts 8 days or more is always in red.  A
    missing date reads "No data" and is never in red. *)
Theorem historyCell_label_colour (env : JS.Env) :
  StocksTable.historyCell env None = ("No data", "text.primary")
  /\ (forall (off t : Z) (date : string),
        (forall u b, JS.LocalTZA env u b = off) ->
        (Z.abs off <= 86400000)%Z ->
        (Z.abs (JS.clock env) <= 8000000000000000)%Z ->
        JS.Date_parse env date = JS.Int t -> (Z.abs t <= 8000000000000000)%Z ->
        date <> "" ->
        let cell := StocksTable.historyCell env (Some date) in
        (snd cell = "error" ->
         exists n, (7 <= n)%Z
                   /\ fst cell = JS.inum_toString (JS.Int n) ++ " days ago")
        /\ (forall n, (8 <= n)%Z ->
              fst cell = JS.inum_toString (JS.Int n) ++ " days ago" ->
              snd cell = "error")).
Proof.
  split; [reflexivity|].
  intros off t date TZ O C P T N cell.
  pose proof (diffDays_fixed env off t date TZ O C P T) as D.
  set (today := ((JS.clock env + off) / 86400000)%Z) in *.
  set (day := ((t + off) / 86400000)%Z) in *.
  assert (S : isStale env (Some date) = true <-> (t < JS.clock env - 604800000)%Z).
  { unfold isStale. apply empty_false_iff in N. rewrite N, P.
    change (7 * 24 * 60 * 60 * 1000)%Z with 604800000%Z.
    rewrite TimeClip_small by lia. cbn [JS.date_lt]. apply Z.ltb_lt. }
  assert (G : forall k, getDaysAgo env (Some date)
                        = JS.inum_toString (JS.Int k) ++ " days ago" ->
                        (today - day)%Z = k).
  { intros k. unfold getDaysAgo. apply empty_false_iff in N. rewrite N, D.
    cbn [JS.ieq JS.ilt].
    destruct (Z.eqb (today - day) 0);
      [intros X; symmetry in X; destruct (days_ago_not_today _ X)|].
    destruct (Z.eqb (today - day) 1);
      [intros X; symmetry in X; destruct (days_ago_not_one_day _ X)|].
    destruct (Z.ltb (today - day) 0);
      [intros X; symmetry in X; destruct (days_ago_not_future _ X)|].
    intros X. apply days_label_count in X. injection X as X. exact X. }
  assert (B1 : (86400000 * today <= JS.clock env + off < 86400000 * today + 86400000)%Z).
  { unfold today.
    pose proof (Z.div_mod (JS.clock env + off) 86400000 ltac:(lia)).
    pose proof (Z.mod_pos_bound (JS.clock env + off) 86400000 ltac:(lia)). lia. }
  assert (B2 : (86400000 * day <= t + off < 86400000 * day + 86400000)%Z).
  { unfold day.
    pose proof (Z.div_mod (t + off) 86400000 ltac:(lia)).
    pose proof (Z.mod_pos_bound (t + off) 86400000 ltac:(lia)). lia. }
  subst cell. unfold StocksTable.historyCell. cbn [fst snd]. split.
  - intros E. destruct (isStale env (Some date)); [|discriminate E].
    pose proof (proj1 S eq_refl) as St. exists (today - day)%Z. split; [lia|].
    unfold getDaysAgo. rewrite (proj2 (empty_false_iff date) N), D.
    cbn [JS.ieq JS.ilt].
    destruct (Z.eqb_spec (today - day) 0); [lia|].
    destruct (Z.eqb_spec (today - day) 1); [lia|].
    destruct (Z.ltb_spec (today - day) 0); [lia|].
    destruct (JS.empty (JS.inum_toString _ ++ _)) eqn:Em; [|reflexivity].
    apply empty_true_iff in Em.
    apply (f_equal String.length) in Em. rewrite length_append in Em. simpl in Em. lia.
  - intros n Hn X.
    destruct (JS.empty (getDaysAgo env (Some date))) eqn:Em.
    + exfalso. revert X. clear. intros X. symmetry in X.
      apply (f_equal JS.rev_string) in X. revert X.
      unfold JS.rev_string. rewrite list_ascii_append, rev_app_distr.
      simpl. discriminate.
    + apply G in X.
      assert (St : isStale env (Some date) = true) by (apply S; lia).
      rewrite St. reflexivity.
Qed.

Lemma historyCell_label_colour_witness :
  exists n, (7 <= n)%Z
            /\ fst (StocksTable.historyCell (JS.utc 1704754800000)
                      (Some "2024-01-01T01:00:00.000Z"))
               = JS.inum_toString (JS.Int n) ++ " days ago".
Proof.
  apply (proj1 (proj2 (historyCell_label_colour (JS.utc 1704754800000))
                  0%Z 1704070800000%Z "2024-01-01T01:00:00.000Z"
                  ltac:(reflexivity) ltac:(discriminate) ltac:(discriminate)
                  ltac:(reflexivity) ltac:(discriminate) ltac:(discriminate))).
  reflexivity.
Defined.

(** X9. On the holdings screen the label of the last update and its
    colour agree: the label is in the error colour exactly when it
    counts 3 days or more; "Today", "1 day ago", "2 days ago" and the
    label of a date that does not parse are never in the error colour. *)
Theorem holdings_label_colour (env : JS.Env) (dateString : string) :
  HoldingsPart005.getDaysAgoColor env dateString = "error.main"
  <-> exists n, (3 <= n)%Z
                /\ HoldingsPart005.formatDaysAgo env dateString
                   = JS.inum_toString (JS.Int n) ++ " days ago".
Proof.
  unfold HoldingsPart005.getDaysAgoColor, HoldingsPart005.formatDaysAgo.
  rewrite color_error_iff.
  destruct (HoldingsPart005.diffDays env dateString) as [|k]; cbn [JS.igt JS.ieq].
  - split; [discriminate|]. intros (n & _ & X).
    apply days_label_count in X. discriminate X.
  - rewrite Z.ltb_lt. split.
    + intros L. exists k. split; [lia|].
      destruct (Z.eqb_spec k 0); [lia|]. destruct (Z.eqb_spec k 1); [lia|]. reflexivity.
    + intros (n & Hn & X).
      destruct (Z.eqb_spec k 0);
        [symmetry in X; destruct (days_ago_not_today _ X)|].
      destruct (Z.eqb_spec k 1);
        [symmetry in X; destruct (days_ago_not_one_day _ X)|].
      apply days_label_count in X. injection X as X. lia.
Qed.

(** ** Adding and removing criteria *)

Lemma checkItems_app_blank (f : list FormulaCriteria) :
  checkItems (f ++ [mkCriteria "" F64.zero]) <> None.
Proof.
  intros C. pose proof (proj1 (checkItems_None _) C (mkCriteria "" F64.zero)) as H.
  destruct H as [H _]; [apply in_or_app; right; left; reflexivity|].
  apply H, Spec.blank_empty.
Qed.

Lemma checkItems_app_valid (f g : list FormulaCriteria) :
  checkItems f = None -> checkItems (f ++ g) = checkItems g.
Proof.
  induction f as [|x rest IH]; cbn [checkItems app]; [reflexivity|].
  destruct (JS.empty _); [discriminate|].
  destruct (_ || _); [discriminate | exact IH].
Qed.

Lemma totalWeight_app (f : list FormulaCriteria) (item : FormulaCriteria) :
  totalWeight (f ++ [item]) = F64.add (totalWeight f) (weight item).
Proof. unfold totalWeight. rewrite fold_left_app. reflexivity. Qed.

(** Adding [0] changes no number, but for [-0], which becomes [0]. *)
Lemma add_zero_r (x : F64.double) :
  F64.add x F64.zero = x
  \/ (x = S754_zero true /\ F64.add x F64.zero = F64.zero).
Proof.
  destruct x as [[|]|s| |s m e]; try (left; reflexivity).
  right. split; reflexivity.
Qed.

(** X10. A criterion that has just been added blocks the dialog: after
    [handleAddCriteria] the formula never validates, the total of the
    weights is unchanged (but that a total of [-0] is then [0]), and
    when the formula validated before, the error is "All criteria must
    have a name". *)
Theorem handleAddCriteria_blocks (toStr : Q -> string) (st : State) :
  fst (validateFormula toStr (StrategyDialog.handleAddCriteria st)) = false
  /\ (StrategyDialog.getTotalWeight (StrategyDialog.handleAddCriteria st)
      = StrategyDialog.getTotalWeight st
      \/ (StrategyDialog.getTotalWeight st = S754_zero true
          /\ StrategyDialog.getTotalWeight (StrategyDialog.handleAddCriteria st)
             = S754_zero false))
  /\ (fst (validateFormula toStr st) = true ->
      error (snd (validateFormula toStr (StrategyDialog.handleAddCriteria st)))
      = "All criteria must have a name").
Proof.
  pose proof (totalWeight_app (formula (formData st)) (mkCriteria "" F64.zero)) as T.
  cbn [weight] in T.
  split; [|split].
  - unfold validateFormula. destruct (F64.gt _ _); [reflexivity|].
    cbn [StrategyDialog.handleAddCriteria StrategyDialog.setFormula formData formula].
    destruct (checkItems _) eqn:C; [reflexivity|].
    destruct (checkItems_app_blank _ C).
  - unfold StrategyDialog.getTotalWeight.
    cbn [StrategyDialog.handleAddCriteria StrategyDialog.setFormula formData formula].
    change (fold_left (fun sum item => F64.add sum (weight item)) ?f F64.zero)
      with (totalWeight f).
    rewrite T. apply add_zero_r.
  - unfold validateFormula.
    cbn [StrategyDialog.handleAddCriteria StrategyDialog.setFormula formData formula].
    rewrite T.
    destruct (F64.gt (F64.Math_abs (F64.sub (totalWeight (formula (formData st)))
                                      (F64.of_Z 1))) (F64.dec 1 2)) eqn:G;
      [discriminate|].
    destruct (checkItems (formula (formData st))) eqn:C; [discriminate|].
    intros _.
    destruct (add_zero_r (totalWeight (formula (formData st)))) as [E | [E _]].
    + rewrite E, G, (checkItems_app_valid _ _ C). reflexivity.
    + rewrite E in G. vm_compute in G. discriminate G.
Qed.

Lemma handleAddCriteria_blocks_witness :
  error (snd (validateFormula JS.toString_1e21
                (StrategyDialog.handleAddCriteria
                   (form [mkCriteria "pe_ratio" (F64.dec 6 1);
                          mkCriteria "pegy_index" (F64.dec 4 1)]))))
  = "All criteria must have a name".
Proof.
  apply (handleAddCriteria_blocks JS.toString_1e21
           (form [mkCriteria "pe_ratio" (F64.dec 6 1);
                  mkCriteria "pegy_index" (F64.dec 4 1)])).
  reflexivity.
Defined.

Lemma filter_index_past {A : Type} (target start : nat) (l : list A) :
  (target < start)%nat ->
  StrategyDialog.filter_index (fun _ i => negb (Nat.eqb i target)) start l = l.
Proof.
  revert start. induction l as [|x rest IH]; intros start L; [reflexivity|].
  cbn [StrategyDialog.filter_index].
  replace (Nat.eqb start target) with false by (symmetry; apply Nat.eqb_neq; lia).
  cbn [negb]. rewrite IH by lia. reflexivity.
Qed.

Lemma filter_index_remove {A : Type} (index start : nat) (l : list A) :
  StrategyDialog.filter_index (fun _ i => negb (Nat.eqb i (start + index))) start l
  = (firstn index l ++ skipn (S index) l)%list.
Proof.
  revert index start. induction l as [|x rest IH]; intros index start.
  - destruct index; reflexivity.
  - cbn [StrategyDialog.filter_index]. destruct index as [|index].
    + rewrite Nat.add_0_r, Nat.eqb_refl. cbn [negb firstn skipn app].
      apply filter_index_past. lia.
    + replace (Nat.eqb start (start + S index)) with false
        by (symmetry; apply Nat.eqb_neq; lia).
      cbn [negb firstn skipn app]. f_equal.
      replace (start + S index)%nat with (S start + index)%nat by lia.
      apply IH.
Qed.

(** X11. [handleRemoveCriteria] takes out the criterion of the given row
    and no other: the formula keeps the rows before and after it in
    their order, an index past the last row changes nothing, and
    removing the row that [handleAddCriteria] has just added gives the
    formula back. *)
Theorem handleRemoveCriteria_row (index : nat) (st : State) :
  formula (formData (StrategyDialog.handleRemoveCriteria index st))
  = (firstn index (formula (formData st))
     ++ skipn (S index) (formula (formData st)))%list
  /\ ((length (formula (formData st)) <= index)%nat ->
      formula (formData (StrategyDialog.handleRemoveCriteria index st))
      = formula (formData st))
  /\ formula (formData (StrategyDialog.handleRemoveCriteria
                          (length (formula (formData st)))
                          (StrategyDialog.handleAddCriteria st)))
     = formula (formData st).
Proof.
  assert (R : forall i s,
            formula (formData (StrategyDialog.handleRemoveCriteria i s))
            = (firstn i (formula (formData s)) ++ skipn (S i) (formula (formData s)))%list).
  { intros i s. unfold StrategyDialog.handleRemoveCriteria.
    cbn [StrategyDialog.setFormula formData formula].
    apply (filter_index_remove i 0). }
  split; [apply R | split].
  - intros L. rewrite R, firstn_all2, skipn_all2 by lia. apply app_nil_r.
  - rewrite R. cbn [StrategyDialog.handleAddCriteria StrategyDialog.setFormula formData formula].
    rewrite firstn_app, firstn_all, Nat.sub_diag, skipn_all2
      by (rewrite length_app; simpl; lia).
    simpl. rewrite !app_nil_r. reflexivity.
Qed.

Lemma handleRemoveCriteria_row_witness :
  formula (formData (StrategyDialog.handleRemoveCriteria 5
                       (form [mkCriteria "pe_ratio" (F64.dec 6 1);
                              mkCriteria "pegy_index" (F64.dec 4 1)])))
  = [mkCriteria "pe_ratio" (F64.dec 6 1); mkCriteria "pegy_index" (F64.dec 4 1)].
Proof.
  apply (proj1 (proj2 (handleRemoveCriteria_row 5
           (form [mkCriteria "pe_ratio" (F64.dec 6 1);
                  mkCriteria "pegy_index" (F64.dec 4 1)])))).
  simpl. lia.
Defined.

Lemma abs_not_nan (x : F64.double) :
  F64.is_nan x = false -> F64.is_nan (F64.Math_abs x) = false.
Proof. destruct x; intros H; try discriminate H; reflexivity. Qed.

Lemma strict_eq_one (x : F64.double) :
  F64.strict_eq x (F64.of_Z 1) = true -> x = F64.of_Z 1.
Proof.
  unfold F64.strict_eq, SFeqb.
  destruct (SFcompare x (F64.of_Z 1)) as [[| |]|] eqn:C; try discriminate.
  intros _. destruct x as [s|s| |s m e]; try discriminate C.
  - destruct s; discriminate C.
  - change (F64.of_Z 1) with (S754_finite false 4503599627370496 (-52)) in *.
    apply compare_Eq_finite in C. destruct C as (-> & -> & ->). reflexivity.
Qed.

(** X12. The box under the criteria shows one of its two notes and never
    both when the total is a number; it shows neither when the total
    is no number.  A formula that validates with a total that is a
    number is marked "Valid" there, and so is a formula on a green
    background, whose total is exactly 1. *)
Theorem totalBox_notes (toStr : Q -> string) (st : State) :
  (StrategyDialog.getTotalWeight st <> S754_nan ->
   StrategyDialog.valid (StrategyDialog.totalBox st)
   = negb (StrategyDialog.mustEqual (StrategyDialog.totalBox st)))
  /\ (StrategyDialog.getTotalWeight st = S754_nan ->
      StrategyDialog.valid (StrategyDialog.totalBox st) = false
      /\ StrategyDialog.mustEqual (StrategyDialog.totalBox st) = false)
  /\ (fst (validateFormula toStr st) = true ->
      StrategyDialog.getTotalWeight st <> S754_nan ->
      StrategyDialog.valid (StrategyDialog.totalBox st) = true)
  /\ (StrategyDialog.background (StrategyDialog.totalBox st) = "success.light" ->
      StrategyDialog.getTotalWeight st = S754_finite false 4503599627370496 (-52)
      /\ StrategyDialog.valid (StrategyDialog.totalBox st) = true).
Proof.
  assert (V : StrategyDialog.getTotalWeight st <> S754_nan ->
              StrategyDialog.valid (StrategyDialog.totalBox st)
              = negb (StrategyDialog.mustEqual (StrategyDialog.totalBox st))).
  { intros N. unfold StrategyDialog.totalBox.
    cbn [StrategyDialog.valid StrategyDialog.mustEqual].
    assert (A : F64.is_nan (F64.Math_abs (F64.sub (StrategyDialog.getTotalWeight st)
                                            (F64.of_Z 1))) = false).
    { apply abs_not_nan, sub_not_nan; [|reflexivity].
      destruct (StrategyDialog.getTotalWeight st);
        [reflexivity .. | contradiction | reflexivity]. }
    unfold F64.le, F64.gt, SFleb, SFltb. rewrite (SFcompare_antisym _ (F64.dec 1 2)).
    destruct (SFcompare _ (F64.dec 1 2)) as [[| |]|] eqn:C; try reflexivity.
    destruct (F64.Math_abs _); discriminate. }
  split; [exact V | split; [|split]].
  - intros N. unfold StrategyDialog.totalBox.
    cbn [StrategyDialog.valid StrategyDialog.mustEqual]. rewrite N.
    split; reflexivity.
  - intros Ok N. rewrite (V N).
    unfold validateFormula in Ok. unfold StrategyDialog.totalBox.
    cbn [StrategyDialog.mustEqual]. unfold StrategyDialog.getTotalWeight.
    change (fold_left (fun sum item => F64.add sum (weight item)) ?f F64.zero)
      with (totalWeight f).
    destruct (F64.gt _ (F64.dec 1 2)); [discriminate Ok | reflexivity].
  - unfold StrategyDialog.totalBox at 1. cbn [StrategyDialog.background].
    destruct (F64.strict_eq _ _) eqn:E; [|discriminate]. intros _.
    apply strict_eq_one in E. split; [exact E|].
    unfold StrategyDialog.totalBox. cbn [StrategyDialog.valid]. rewrite E. reflexivity.
Qed.

Lemma totalBox_notes_witness :
  StrategyDialog.valid
    (StrategyDialog.totalBox
       (form [mkCriteria "pe_ratio" (F64.dec 6 1); mkCriteria "pegy_index" (F64.dec 4 1)]))
  = true.
Proof.
  apply (proj1 (proj2 (proj2 (totalBox_notes JS.toString_1e21
           (form [mkCriteria "pe_ratio" (F64.dec 6 1);
                  mkCriteria "pegy_index" (F64.dec 4 1)])))));
    [reflexivity | discriminate].
Defined.

(** ** The selection of asset classes *)

(** X13. The toggle buttons never leave the summary without a class:
    from a selection that is not empty, and so from the one the screen
    opens with, no run of changes leads to the empty selection; a change
    to no class at all is dropped and keeps the selection as it was. *)
Theorem selection_never_empty (changes : list (list string)) (selected : list string) :
  (selected <> [] -> HoldingsScreen.afterChanges changes selected <> [])
  /\ HoldingsScreen.afterChanges changes HoldingsScreen.initialSelection <> []
  /\ HoldingsScreen.handleAssetTypeChange [] selected = selected.
Proof.
  assert (I : forall cs sel, sel <> [] -> HoldingsScreen.afterChanges cs sel <> []).
  { induction cs as [|c cs IH]; intros sel N; [exact N|].
    unfold HoldingsScreen.afterChanges. cbn [fold_left]. apply IH.
    unfold HoldingsScreen.handleAssetTypeChange.
    destruct c as [|x c]; [exact N | discriminate]. }
  split; [apply I | split; [apply I; discriminate | reflexivity]].
Qed.

Lemma selection_never_empty_witness :
  HoldingsScreen.afterChanges [["stocks"]; []; ["bonds"; "etfs"]; []] ["stocks"] <> [].
Proof.
  apply (proj1 (selection_never_empty [["stocks"]; []; ["bonds"; "etfs"]; []] ["stocks"])).
  discriminate.
Defined.

(** The summary as sums over the selected classes. *)
Lemma summary_sums (h : AssetHoldings) (sel : list string) :
  exists s,
    calculateFilteredSummary (Some h) sel = Some s
    /\ totalInvested s == Spec.total invested_value (Spec.selected h sel)
    /\ totalCurrentValue s == Spec.total current_value (Spec.selected h sel)
    /\ totalCount s = length (Spec.selected h sel)
    /\ totalProfitLoss s = totalCurrentValue s - totalInvested s
    /\ totalProfitLossPercentage s
       = if JS.gt (totalInvested s) 0
         then (totalProfitLoss s / totalInvested s) * 100 else 0.
Proof.
  unfold calculateFilteredSummary, Spec.selected. cbv zeta.
  pose proof (addClass_totals sel "stocks" (stocks h) (0, 0, O)) as P1.
  set (a1 := addClass sel "stocks" (stocks h) (0, 0, O)) in *.
  pose proof (addClass_totals sel "etfs" (etfs h) a1) as P2.
  set (a2 := addClass sel "etfs" (etfs h) a1) in *.
  pose proof (addClass_totals sel "mutual_funds" (mutual_funds h) a2) as P3.
  set (a3 := addClass sel "mutual_funds" (mutual_funds h) a2) in *.
  pose proof (addClass_totals sel "bonds" (bonds h) a3) as P4.
  set (a4 := addClass sel "bonds" (bonds h) a3) in *.
  clearbody a1 a2 a3 a4.
  destruct a1 as [[i1 c1] n1], a2 as [[i2 c2] n2], a3 as [[i3 c3] n3],
    a4 as [[i4 c4] n4].
  cbv zeta in P1, P2, P3, P4. cbn [fst snd] in P1, P2, P3, P4.
  destruct P1 as (I1 & C1 & N1), P2 as (I2 & C2 & N2), P3 as (I3 & C3 & N3),
    P4 as (I4 & C4 & N4).
  eexists. split; [reflexivity|].
  cbn [totalInvested totalCurrentValue totalCount totalProfitLoss
       totalProfitLossPercentage].
  split; [rewrite I4, I3, I2, I1, !total_app; ring|].
  split; [rewrite C4, C3, C2, C1, !total_app; ring|].
  split; [rewrite !length_app; lia|].
  split; reflexivity.
Qed.

Lemma includes_cons (key : string) (sel : list string) (k : string) :
  includes (key :: sel) k = String.eqb k key || includes sel k.
Proof. reflexivity. Qed.

(** X14. Switching a class on adds the holdings of that class, and no
    other, to the count of the summary: for one of the four classes that
    is not yet selected, the count of the new summary is that of the old
    one plus the number of holdings of the class. *)
Theorem summary_toggle_on (h : AssetHoldings) (sel : list string) (key : string) :
  In key HoldingsScreen.initialSelection -> includes sel key = false ->
  exists s s',
    calculateFilteredSummary (Some h) sel = Some s
    /\ calculateFilteredSummary (Some h) (key :: sel) = Some s'
    /\ totalCount s'
       = (totalCount s + length (HoldingsScreen.classHoldings key h))%nat.
Proof.
  intros K Off.
  destruct (summary_sums h sel) as (s & E & _ & _ & N & _).
  destruct (summary_sums h (key :: sel)) as (s' & E' & _ & _ & N' & _).
  exists s, s'. split; [exact E|]. split; [exact E'|].
  rewrite N, N'. clear - K Off.
  revert K Off. unfold Spec.selected, HoldingsScreen.classHoldings.
  rewrite !includes_cons.
  intros [<- | [<- | [<- | [<- | []]]]] Off; rewrite Off;
    cbn [String.eqb Ascii.eqb Bool.eqb orb andb];
    destruct (includes sel "stocks"), (includes sel "etfs"),
      (includes sel "mutual_funds"), (includes sel "bonds");
    try discriminate Off;
    rewrite ?length_app; cbn [length app]; rewrite ?length_app; lia.
Qed.

Lemma summary_toggle_on_witness :
  exists s s',
    calculateFilteredSummary
      (Some (mkAssets [mkHolding 1000 1200 ""] [mkHolding 500 450 ""] [] []))
      ["stocks"] = Some s
    /\ calculateFilteredSummary
         (Some (mkAssets [mkHolding 1000 1200 ""] [mkHolding 500 450 ""] [] []))
         ["etfs"; "stocks"] = Some s'
    /\ totalCount s' = (totalCount s + 1)%nat.
Proof.
  destruct (summary_toggle_on
              (mkAssets [mkHolding 1000 1200 ""] [mkHolding 500 450 ""] [] [])
              ["stocks"] "etfs")
    as (s & s' & E & E' & N).
  - right; left; reflexivity.
  - reflexivity.
  - exists s, s'. split; [exact E|]. split; [exact E'|]. exact N.
Defined.

(** ** Signs *)

Lemma toFixed2_negative (toStr : Q -> string) (v : Q) :
  v < 0 -> JS.toFixed2 toStr v = "-" ++ JS.toFixed2 toStr (- v).
Proof.
  intros N. unfold JS.toFixed2.
  assert (L1 : JS.lt v 0 = true) by (apply lt_true_iff; exact N).
  assert (L2 : JS.lt (- v) 0 = false) by (apply lt_false_iff; lra).
  rewrite L1, L2. destruct (Qle_bool (10 ^ 21) (- v)); reflexivity.
Qed.

Lemma Qfloor_zero (y : Q) : 0 <= y -> y < 1 -> Qfloor y = 0%Z.
Proof.
  intros A B. pose proof (Qfloor_le y) as F1. pose proof (Qlt_floor y) as F2.
  assert (G1 : inject_Z (Qfloor y) < inject_Z 1) by (change (inject_Z 1) with 1; lra).
  assert (G2 : inject_Z (-1) < inject_Z (Qfloor y)).
  { rewrite inject_Z_plus in F2. change (inject_Z (-1)) with (-1).
    change (inject_Z 1) with 1 in F2. lra. }
  rewrite <- Zlt_Qlt in G1, G2. lia.
Qed.

(** X15. [formatPercentage] always prints a sign: "+" for a value that
    is zero or more, "-" below; for a value of magnitude below 10^21 the
    sign is followed by digits, a point, two decimals and "%".  A
    negative value that rounds to zero reads "-0.00%". *)
Theorem formatPercentage_shape (toStr : Q -> string) (value : Q) :
  (Qabs value < 10 ^ 21 ->
   exists a b,
     Spec.all_digits a = true /\ a <> ""
     /\ Spec.all_digits b = true /\ String.length b = 2%nat
     /\ HoldingsScreen.formatPercentage toStr value
        = (if Qle_bool 0 value then "+" else "-") ++ a ++ "." ++ b ++ "%")
  /\ (- (1 # 200) < value -> value < 0 ->
      HoldingsScreen.formatPercentage toStr value = "-0.00%")
  /\ (0 <= value -> exists r, HoldingsScreen.formatPercentage toStr value = "+" ++ r)
  /\ (value < 0 -> exists r, HoldingsScreen.formatPercentage toStr value = "-" ++ r).
Proof.
  unfold HoldingsScreen.formatPercentage. split; [|split; [|split]].
  - intros B. destruct (Qle_bool 0 value) eqn:S.
    + apply Qle_bool_iff in S.
      destruct (toFixed2_parts toStr value S) as (a & b & E & A & NA & Bd & LB).
      { rewrite <- (Qabs_pos value S). exact B. }
      exists a, b. repeat (split; [assumption|]). rewrite E.
      rewrite !string_app_assoc. reflexivity.
    + assert (N : value < 0).
      { apply Qnot_le_lt. intros H. apply Qle_bool_iff in H. congruence. }
      destruct (toFixed2_parts toStr (- value)) as (a & b & E & A & NA & Bd & LB);
        [lra | rewrite <- (Qabs_neg value) by lra; exact B |].
      exists a, b. repeat (split; [assumption|]).
      rewrite (toFixed2_negative toStr value N), E.
      rewrite !string_app_assoc. reflexivity.
  - intros A B.
    assert (S : Qle_bool 0 value = false).
    { apply not_true_is_false. rewrite Qle_bool_iff. lra. }
    rewrite S, (toFixed2_negative toStr value B). unfold JS.toFixed2.
    assert (L : JS.lt (- value) 0 = false) by (apply lt_false_iff; lra).
    assert (G : Qle_bool (10 ^ 21) (- value) = false).
    { apply not_true_is_false. rewrite Qle_bool_iff. apply Qlt_not_le.
      apply (Qlt_trans _ 1); [lra | reflexivity]. }
    rewrite L, G, (Qfloor_zero (- value * 100 + (1 # 2))) by lra. reflexivity.
  - intros P. apply Qle_bool_iff in P. rewrite P. eexists. reflexivity.
  - intros N.
    assert (S : Qle_bool 0 value = false).
    { apply not_true_is_false. rewrite Qle_bool_iff. lra. }
    rewrite S, (toFixed2_negative toStr value N). eexists. reflexivity.
Qed.

Lemma formatPercentage_shape_witness :
  HoldingsScreen.formatPercentage JS.toString_1e21 (- (1 # 1000)) = "-0.00%".
Proof.
  apply (proj1 (proj2 (formatPercentage_shape JS.toString_1e21 (- (1 # 1000)))));
    reflexivity.
Defined.

Lemma Qabs_opp_eq (v : Q) : Qabs (- v) = Qabs v.
Proof. destruct v as [n d]. unfold Qabs, Qopp. simpl. rewrite Z.abs_opp. reflexivity. Qed.

(** X17. In INR, on the screen of part_005, a negative amount is written
    as "-" followed by what is written for the same amount without its
    sign; an amount below zero that rounds to zero is written
    "-₹0.00". *)
Theorem formatCurrency_negative (toStr : Q -> string) (intl : string -> Q -> string)
    (value : Q) :
  (0 < value ->
   HoldingsPart005.formatCurrency toStr intl (- value) "INR"
   = "-" ++ HoldingsPart005.formatCurrency toStr intl value "INR")
  /\ (- (1 # 200) < value -> value < 0 ->
      HoldingsPart005.formatCurrency toStr intl value "INR" = "-₹0.00").
Proof.
  unfold HoldingsPart005.formatCurrency, Holdings.formatCurrencyWith.
  cbn [String.eqb Ascii.eqb Bool.eqb]. cbv zeta. unfold JS.Math_abs. split.
  - intros P. rewrite Qabs_opp_eq.
    assert (L1 : JS.lt (- value) 0 = true) by (apply lt_true_iff; lra).
    assert (L2 : JS.lt value 0 = false) by (apply lt_false_iff; lra).
    rewrite L1, L2. reflexivity.
  - intros A B.
    assert (L1 : JS.lt value 0 = true) by (apply lt_true_iff; exact B).
    rewrite L1. unfold JS.toFixed2.
    assert (L : JS.lt (Qabs value) 0 = false) by (apply lt_false_iff, Qabs_nonneg).
    assert (V : Qabs value == - value) by (apply Qabs_neg; lra).
    assert (G : Qle_bool (10 ^ 21) (Qabs value) = false).
    { apply not_true_is_false. rewrite Qle_bool_iff, V. apply Qlt_not_le.
      apply (Qlt_trans _ 1); [lra | reflexivity]. }
    rewrite L, G, (Qfloor_zero (Qabs value * 100 + (1 # 2))) by (rewrite V; lra).
    reflexivity.
Qed.

Lemma formatCurrency_negative_witness :
  HoldingsPart005.formatCurrency JS.toString_1e21 JS.no_Intl (- (1234.5)) "INR"
  = "-" ++ HoldingsPart005.formatCurrency JS.toString_1e21 JS.no_Intl 1234.5 "INR".
Proof.
  apply (proj1 (formatCurrency_negative JS.toString_1e21 JS.no_Intl 1234.5)).
  reflexivity.
Defined.

(** ** The industry filters *)

Lemma includes_In (l : list string) (x : string) :
  includes l x = true <-> In x l.
Proof.
  unfold includes. rewrite existsb_exists. split.
  - intros (y & I & E). apply String.eqb_eq in E. subst y. exact I.
  - intros I. exists x. split; [exact I | apply String.eqb_refl].
Qed.

Lemma named_In (l : list (option string)) (i : string) :
  In i (StocksFilter.named l) <-> i <> "" /\ In (Some i) l.
Proof.
  induction l as [|a l IH]; cbn [StocksFilter.named In].
  - tauto.
  - destruct a as [j|].
    + unfold StocksFilter.truthy, JS.empty.
      destruct (String.eqb j "") eqn:E; cbn [negb].
      * apply String.eqb_eq in E. subst j. rewrite IH. split.
        -- intros [N I]. auto.
        -- intros [N [X | I]]; [injection X as <-; congruence | auto].
      * apply String.eqb_neq in E. cbn [In]. rewrite IH. split.
        -- intros [<- | [N I]]; auto.
        -- intros [N [X | I]]; [injection X as <-; auto | auto].
    + rewrite IH. split.
      * intros [N I]. auto.
      * intros [N [X | I]]; [discriminate X | auto].
Qed.

Lemma Set_add_In (set : list string) (y x : string) :
  In x (StocksFilter.Set_add set y) <-> In x set \/ x = y.
Proof.
  unfold StocksFilter.Set_add. destruct (includes set y) eqn:E.
  - apply includes_In in E. split; [auto | intros [I | ->]; assumption].
  - rewrite in_app_iff. cbn [In]. intuition congruence.
Qed.

Lemma Set_add_NoDup (set : list string) (y : string) :
  NoDup set -> NoDup (StocksFilter.Set_add set y).
Proof.
  intros N. unfold StocksFilter.Set_add. destruct (includes set y) eqn:E; [exact N|].
  assert (NI : ~ In y set).
  { intros I. apply includes_In in I. congruence. }
  apply NoDup_app; [exact N | repeat constructor; intros [] | ].
  intros a Ia [<- | []]. exact (NI Ia).
Qed.

Lemma Array_from_Set_acc (l acc : list string) :
  (NoDup acc -> NoDup (fold_left StocksFilter.Set_add l acc))
  /\ forall x, In x (fold_left StocksFilter.Set_add l acc) <-> In x acc \/ In x l.
Proof.
  revert acc. induction l as [|y l IH]; intros acc; cbn [fold_left In].
  - split; [auto | intros x; tauto].
  - destruct (IH (StocksFilter.Set_add acc y)) as [N I]. split.
    + intros Na. apply N, Set_add_NoDup, Na.
    + intros x. rewrite I, Set_add_In. intuition congruence.
Qed.

Lemma insert_Permutation (before : string -> string -> bool) (x : string)
    (l : list string) :
  Permutation (x :: l) (StocksFilter.insert before x l).
Proof.
  induction l as [|y l IH]; cbn [StocksFilter.insert].
  - apply Permutation_refl.
  - destruct (before x y).
    + apply Permutation_refl.
    + apply perm_trans with (y :: x :: l); [apply perm_swap|].
      apply perm_skip, IH.
Qed.

Lemma sort_Permutation (before : string -> string -> bool) (l : list string) :
  Permutation l (StocksFilter.sort before l).
Proof.
  induction l as [|x l IH]; cbn [StocksFilter.sort fold_right].
  - apply perm_nil.
  - apply perm_trans with (x :: StocksFilter.sort before l).
    + apply perm_skip, IH.
    + apply insert_Permutation.
Qed.

Lemma uniqueIndustries_NoDup (before : string -> string -> bool)
    (stocks : list StocksFilter.StockSymbol) :
  NoDup (StocksFilter.uniqueIndustries before stocks).
Proof.
  unfold StocksFilter.uniqueIndustries, StocksFilter.Array_from_Set.
  eapply Permutation_NoDup; [apply sort_Permutation|].
  apply Array_from_Set_acc. constructor.
Qed.

Lemma uniqueIndustries_In (before : string -> string -> bool)
    (stocks : list StocksFilter.StockSymbol) (i : string) :
  In i (StocksFilter.uniqueIndustries before stocks)
  <-> i <> "" /\ exists s, In s stocks /\ StocksFilter.sector_industry s = Some i.
Proof.
  unfold StocksFilter.uniqueIndustries, StocksFilter.Array_from_Set.
  split.
  - intros I. apply (Permutation_in _ (Permutation_sym (sort_Permutation before _))) in I.
    apply Array_from_Set_acc in I. destruct I as [[] | I].
    apply named_In in I. destruct I as [N I]. split; [exact N|].
    apply in_map_iff in I. destruct I as (s & E & I). exists s. auto.
  - intros (N & s & I & E).
    apply (Permutation_in _ (sort_Permutation before _)).
    apply Array_from_Set_acc. right. apply named_In. split; [exact N|].
    apply in_map_iff. exists s. auto.
Qed.

(** X18. The options of the industry filter of the stocks table are
    exactly the non-empty industries that some stock carries, each of
    them once, whatever the order the sort puts them in. *)
Theorem uniqueIndustries_options (before : string -> string -> bool)
    (stocks : list StocksFilter.StockSymbol) :
  NoDup (StocksFilter.uniqueIndustries before stocks)
  /\ forall i, In i (StocksFilter.uniqueIndustries before stocks)
       <-> i <> "" /\ exists s, In s stocks /\ StocksFilter.sector_industry s = Some i.
Proof.
  split; [apply uniqueIndustries_NoDup | intros i; apply uniqueIndustries_In].
Qed.

Lemma filter_none {A : Type} (p : A -> bool) (l : list A) :
  (forall x, In x l -> p x = false) -> filter p l = [].
Proof.
  induction l as [|a l IH]; intros H; cbn [filter]; [reflexivity|].
  rewrite (H a (or_introl eq_refl)). apply IH. intros x I. apply H. right. exact I.
Qed.

Lemma filter_disjoint_length {A : Type} (p q : A -> bool) (l : list A) :
  (forall x, In x l -> p x = true -> q x = true -> False) ->
  (length (filter p l) + length (filter q l))%nat
  = length (filter (fun x => p x || q x) l).
Proof.
  induction l as [|a l IH]; intros D; cbn [filter]; [reflexivity|].
  assert (D' : forall x, In x l -> p x = true -> q x = true -> False).
  { intros x I. apply D. right. exact I. }
  specialize (IH D'). pose proof (D a (or_introl eq_refl)) as Da.
  destruct (p a), (q a); cbn [orb length];
    first [lia | exfalso; apply Da; reflexivity].
Qed.

Lemma is_industry_sum (stocks : list StocksFilter.StockSymbol) (L : list string) :
  NoDup L ->
  list_sum (map (fun j => length (filter (StocksFilter.is_industry j) stocks)) L)
  = length (filter (fun s => match StocksFilter.sector_industry s with
                             | Some i => includes L i
                             | None => false
                             end) stocks).
Proof.
  unfold list_sum. induction 1 as [|j L NI N IH]; cbn [map fold_right].
  - rewrite filter_none; [reflexivity|].
    intros s _. destruct (StocksFilter.sector_industry s); reflexivity.
  - rewrite IH, filter_disjoint_length.
    + f_equal. apply filter_ext. intros s. unfold StocksFilter.is_industry.
      destruct (StocksFilter.sector_industry s); reflexivity.
    + intros s _. unfold StocksFilter.is_industry.
      destruct (StocksFilter.sector_industry s) as [i|]; [|discriminate].
      intros E I. apply String.eqb_eq in E. subst i.
      apply includes_In in I. exact (NI I).
Qed.

(** X19. The options of the filter split the stocks that carry an
    industry: when no stock has the industry "all", the numbers of rows
    shown under the options add up to the number of stocks with a
    non-empty industry. *)
Theorem filteredStocks_partition (before : string -> string -> bool)
    (stocks : list StocksFilter.StockSymbol) :
  (forall s, In s stocks -> StocksFilter.sector_industry s <> Some "all") ->
  list_sum (map (fun j => length (StocksFilter.filteredStocks j stocks))
              (StocksFilter.uniqueIndustries before stocks))
  = length (filter (fun s => StocksFilter.truthy (StocksFilter.sector_industry s))
              stocks).
Proof.
  intros NoAll.
  transitivity
    (list_sum (map (fun j => length (filter (StocksFilter.is_industry j) stocks))
                 (StocksFilter.uniqueIndustries before stocks))).
  - f_equal. apply map_ext_in. intros j I. unfold StocksFilter.filteredStocks.
    destruct (String.eqb j "all") eqn:E; [|reflexivity].
    apply String.eqb_eq in E. subst j.
    apply uniqueIndustries_In in I. destruct I as (_ & s & I & E).
    destruct (NoAll s I E).
  - rewrite is_industry_sum by apply uniqueIndustries_NoDup.
    f_equal. apply filter_ext_in. intros s I.
    destruct (StocksFilter.sector_industry s) as [i|] eqn:E; [|reflexivity].
    cbn [StocksFilter.truthy]. unfold JS.empty.
    destruct (String.eqb i "") eqn:Z; cbn [negb].
    + apply String.eqb_eq in Z. apply not_true_is_false. intros X.
      apply includes_In, uniqueIndustries_In in X. tauto.
    + apply String.eqb_neq in Z. apply includes_In, uniqueIndustries_In.
      split; [exact Z | exists s; auto].
Qed.

Lemma filteredStocks_partition_witness :
  list_sum (map (fun j => length (StocksFilter.filteredStocks j
                    [StocksFilter.mkStock "TCS" (Some "IT");
                     StocksFilter.mkStock "SBIN" (Some "Banks");
                     StocksFilter.mkStock "XYZ" None;
                     StocksFilter.mkStock "INFY" (Some "IT")]))
              (StocksFilter.uniqueIndustries String.ltb
                 [StocksFilter.mkStock "TCS" (Some "IT");
                  StocksFilter.mkStock "SBIN" (Some "Banks");
                  StocksFilter.mkStock "XYZ" None;
                  StocksFilter.mkStock "INFY" (Some "IT")]))
  = 3%nat.
Proof.
  rewrite (filteredStocks_partition String.ltb).
  - reflexivity.
  - intros s I. cbn [In] in I.
    destruct I as [<- | [<- | [<- | [<- | []]]]]; discriminate.
Defined.

Lemma includes_deleteChip (industry : string) (sel : list string) (i : string) :
  includes (EtfTable.deleteChip industry sel) i
  = includes sel i && negb (String.eqb i industry).
Proof.
  unfold EtfTable.deleteChip.
  induction sel as [|k sel IH]; cbn [filter]; [reflexivity|].
  change (includes (k :: sel) i) with (String.eqb i k || includes sel i).
  destruct (String.eqb k industry) eqn:K; cbn [negb].
  - apply String.eqb_eq in K. subst k. rewrite IH.
    destruct (String.eqb i industry); cbn [orb negb andb]; [|reflexivity].
    rewrite andb_false_r. reflexivity.
  - change (includes (k :: filter (fun i0 => negb (String.eqb i0 industry)) sel) i)
      with (String.eqb i k
            || includes (filter (fun i0 => negb (String.eqb i0 industry)) sel) i).
    rewrite IH. destruct (String.eqb i k) eqn:E; cbn [orb]; [|reflexivity].
    apply String.eqb_eq in E. subst k. rewrite K. reflexivity.
Qed.

Lemma filter_filter_and {A : Type} (p q : A -> bool) (l : list A) :
  filter q (filter p l) = filter (fun x => p x && q x) l.
Proof.
  induction l as [|a l IH]; cbn [filter]; [reflexivity|].
  destruct (p a) eqn:P; cbn [andb filter]; [|exact IH].
  destruct (q a); rewrite IH; reflexivity.
Qed.

(** X20. Deleting the chip of a selected industry on the ETF table:
    while other industries stay selected, the rows of the deleted
    industry leave the table and the others stay; when it was the last
    chip, every ETF is shown again, those of the deleted industry
    included. *)
Theorem deleteChip_rows (industry : string) (selectedIndustries : list string)
    (etfs : list EtfTable.ETFSymbol) :
  In industry selectedIndustries ->
  let rest := EtfTable.deleteChip industry selectedIndustries in
  (rest = [] <-> forall i, In i selectedIndustries -> i = industry)
  /\ (rest = [] -> EtfTable.filteredEtfs rest etfs = etfs)
  /\ (rest <> [] ->
      EtfTable.filteredEtfs rest etfs
      = filter (fun etf => negb (match EtfTable.sector_industry etf with
                                 | Some i => String.eqb i industry
                                 | None => false
                                 end))
          (EtfTable.filteredEtfs selectedIndustries etfs)).
Proof.
  intros I rest. split; [|split].
  - subst rest. unfold EtfTable.deleteChip. split.
    + intros E i Ii. destruct (String.eqb i industry) eqn:X.
      * apply String.eqb_eq, X.
      * assert (F : In i (filter (fun i0 => negb (String.eqb i0 industry))
                            selectedIndustries)).
        { apply filter_In. rewrite X. auto. }
        rewrite E in F. destruct F.
    + intros A. apply filter_none. intros i Ii. rewrite (A i Ii), String.eqb_refl.
      reflexivity.
  - intros ->. reflexivity.
  - intros NE. unfold EtfTable.filteredEtfs.
    destruct rest as [|r rest'] eqn:R; [congruence|].
    destruct selectedIndustries as [|k sel]; [destruct I|].
    cbn [length Nat.eqb]. rewrite filter_filter_and. apply filter_ext.
    intros etf. unfold EtfTable.selected.
    destruct (EtfTable.sector_industry etf) as [i|]; [|reflexivity].
    rewrite <- R. subst rest. rewrite includes_deleteChip.
    rewrite andb_assoc. reflexivity.
Qed.

Lemma deleteChip_rows_witness :
  EtfTable.filteredEtfs (EtfTable.deleteChip "Gold" ["Gold"])
    [EtfTable.mkEtf "GOLDBEES" (Some "Gold"); EtfTable.mkEtf "NIFTYBEES" (Some "Index")]
  = [EtfTable.mkEtf "GOLDBEES" (Some "Gold"); EtfTable.mkEtf "NIFTYBEES" (Some "Index")].
Proof.
  apply (proj1 (proj2 (deleteChip_rows "Gold" ["Gold"] _ (or_introl eq_refl)))).
  reflexivity.
Defined.

Lemma selected_sum (etfs : list EtfTable.ETFSymbol) (L : list string) :
  NoDup L ->
  list_sum (map (fun i => length (filter (EtfTable.selected [i]) etfs)) L)
  = length (filter (EtfTable.selected L) etfs).
Proof.
  unfold list_sum. induction 1 as [|j L NI N IH]; cbn [map fold_right].
  - rewrite filter_none; [reflexivity|].
    intros e _. unfold EtfTable.selected.
    destruct (EtfTable.sector_industry e); [apply andb_false_r | reflexivity].
  - rewrite IH, filter_disjoint_length.
    + f_equal. apply filter_ext. intros e. unfold EtfTable.selected.
      destruct (EtfTable.sector_industry e) as [i|]; [|reflexivity].
      change (includes (j :: L) i) with (String.eqb i j || includes L i).
      change (includes [j] i) with (String.eqb i j || false).
      destruct (negb (JS.empty i)), (String.eqb i j), (includes L i); reflexivity.
    + intros e _. unfold EtfTable.selected.
      destruct (EtfTable.sector_industry e) as [i|]; [|discriminate].
      change (includes [j] i) with (String.eqb i j || false).
      intros A B. apply andb_true_iff in A, B. destruct A as [_ A], B as [_ B].
      rewrite orb_false_r in A. apply String.eqb_eq in A. subst i.
      apply includes_In in B. exact (NI B).
Qed.

(** X21. On the ETF table a selection of distinct industries, one at
    least, shows as many rows as its industries show when each is
    selected alone; the new value of the selector that contains "all"
    shows every ETF. *)
Theorem filteredEtfs_additive (value : list string) (etfs : list EtfTable.ETFSymbol) :
  (includes value "all" = true ->
   EtfTable.filteredEtfs (EtfTable.handleIndustryChange value) etfs = etfs)
  /\ (includes value "all" = false -> value <> [] -> NoDup value ->
      length (EtfTable.filteredEtfs (EtfTable.handleIndustryChange value) etfs)
      = list_sum (map (fun i => length (EtfTable.filteredEtfs [i] etfs)) value)).
Proof.
  unfold EtfTable.handleIndustryChange. split.
  - intros ->. reflexivity.
  - intros -> NE N. unfold EtfTable.filteredEtfs at 1.
    destruct value as [|k v]; [congruence|]. cbn [length Nat.eqb].
    symmetry. apply (selected_sum etfs (k :: v) N).
Qed.

Lemma filteredEtfs_additive_witness :
  length (EtfTable.filteredEtfs (EtfTable.handleIndustryChange ["Gold"; "Index"])
            [EtfTable.mkEtf "GOLDBEES" (Some "Gold");
             EtfTable.mkEtf "LIQUIDBEES" (Some "Debt");
             EtfTable.mkEtf "NIFTYBEES" (Some "Index")])
  = 2%nat.
Proof.
  rewrite (proj2 (filteredEtfs_additive ["Gold"; "Index"] _)).
  - reflexivity.
  - reflexivity.
  - discriminate.
  - repeat constructor; cbn [In]; intros H; intuition discriminate.
Defined.

Lemma Qfloor_eq (y : Q) (n : Z) :
  inject_Z n <= y -> y < inject_Z n + 1 -> Qfloor y = n.
Proof.
  intros A B. pose proof (Qfloor_le y) as F1. pose proof (Qlt_floor y) as F2.
  rewrite inject_Z_plus in F2. change (inject_Z 1) with 1 in F2.
  assert (G1 : inject_Z (Qfloor y) < inject_Z (n + 1)).
  { rewrite inject_Z_plus. change (inject_Z 1) with 1. lra. }
  assert (G2 : inject_Z n < inject_Z (Qfloor y + 1)).
  { rewrite inject_Z_plus. change (inject_Z 1) with 1. lra. }
  rewrite <- Zlt_Qlt in G1, G2. lia.
Qed.

(** X22. The cell "Avg Volume" of the ETF table rounds after it has
    chosen the unit: a volume from 999995 up to, not including, one
    million reads "1000.00K" and not "1.00M", and one from 999.5 up to,
    not including, one thousand reads "1000" and not "1.00K". *)
Theorem liquidityCell_rollover (toStr : Q -> string) (value : Q) :
  (999995 <= value -> value < 1000000 ->
   EtfTable.liquidityCell toStr (Some value) = "1000.00K")
  /\ ((1999 # 2) <= value -> value < 1000 ->
      EtfTable.liquidityCell toStr (Some value) = "1000").
Proof.
  unfold EtfTable.liquidityCell. split; intros A B.
  - assert (C1 : Qle_bool 1000000 value = false).
    { apply not_true_is_false. rewrite Qle_bool_iff. lra. }
    assert (C2 : Qle_bool 1000 value = true) by (apply Qle_bool_iff; lra).
    rewrite C1, C2. unfold JS.toFixed2.
    assert (V : value / 1000 == value * (1 # 1000)) by (field).
    assert (L : JS.lt (value / 1000) 0 = false) by (apply lt_false_iff; rewrite V; lra).
    assert (G : Qle_bool (10 ^ 21) (value / 1000) = false).
    { apply not_true_is_false. rewrite Qle_bool_iff, V. apply Qlt_not_le.
      apply (Qlt_trans _ 1000); [lra | reflexivity]. }
    rewrite L, G, (Qfloor_eq (value / 1000 * 100 + (1 # 2)) 100000).
    + reflexivity.
    + rewrite V. change (inject_Z 100000) with 100000. lra.
    + rewrite V. change (inject_Z 100000) with 100000. lra.
  - assert (C1 : Qle_bool 1000000 value = false).
    { apply not_true_is_false. rewrite Qle_bool_iff. lra. }
    assert (C2 : Qle_bool 1000 value = false).
    { apply not_true_is_false. rewrite Qle_bool_iff. lra. }
    rewrite C1, C2. unfold EtfTable.toFixed0.
    assert (L : JS.lt value 0 = false) by (apply lt_false_iff; lra).
    assert (G : Qle_bool (10 ^ 21) value = false).
    { apply not_true_is_false. rewrite Qle_bool_iff. apply Qlt_not_le.
      apply (Qlt_trans _ 1000); [lra | reflexivity]. }
    rewrite L, G, (Qfloor_eq (value + (1 # 2)) 1000).
    + reflexivity.
    + change (inject_Z 1000) with 1000. lra.
    + change (inject_Z 1000) with 1000. lra.
Qed.

Lemma liquidityCell_rollover_witness :
  EtfTable.liquidityCell JS.toString_1e21 (Some 999999) = "1000.00K".
Proof.
  apply (proj1 (liquidityCell_rollover JS.toString_1e21 999999));
    [unfold Qle; simpl; lia | reflexivity].
Defined.
